(** * Election analysis: filter engine, name reconciliation and aggregation

    A shallow embedding of the pure data pipeline of the election
    dashboard:

    - [MasterSheet]      : [processedData] (search, facets, winners-only,
                           sort) and [statsData] (category win rates),
                           from [components/MasterSheet.tsx];
    - [ConstituencyMap]  : [getNormalizedName], [filteredData] and
                           [resultsMap], from [components/ConstituencyMap.tsx];
    - [Dashboard]        : [partyWins], from [components/Dashboard.tsx].

    (The text of the last two components follows that of
    [components/AdvancedVisuals.tsx] in the source tree.)

    Modelling conventions.

    - A JavaScript string is a [string] of bytes (UTF-8).  [toLowerCase]
      and the case-insensitive regular expressions fold the ASCII letters
      only, and [trim] removes the ASCII white space; Tamil text has no
      letter case and is left as it is.  Text of other scripts with
      letter case is folded by the engine and not by the model: what is
      proved of a search in any letter case is proved of ASCII text.
    - A JavaScript number is a rational [Q]: comparisons and [===] are the
      exact ones.  The CSV loader types a cell by a decimal pattern, so NaN
      and the infinities do not occur in a record; decimal literals of at
      most 15 significant digits are ordered as doubles the way they are as
      rationals.  Where the code computes with numbers that need not be
      integers, the division and the product of a win rate, each operation
      is rounded to the nearest double ([roundDouble]).
    - A cell of the table can be absent ([null] for an empty cell,
      [undefined] for a missing column): fields the code guards are
      [nullable].  [Year] and [Constituency_Name] are dereferenced without
      a guard ([item.Year.toString()], [winner.Constituency_Name.replace])
      and follow the declared interface, a plain number and a plain string.
    - [Number.prototype.toString] and [String.prototype.localeCompare] are
      services of the JavaScript engine (the latter depends on the locale);
      they are the two operations of the class [JsRuntime]. *)

From Stdlib Require Import ZArith QArith Qround Qabs Qpower String Ascii List Bool.
From Stdlib Require Import Lia Permutation DecimalString Sorted Lqa.
From stdpp Require Import base gmap strings.
Import ListNotations.

Open Scope string_scope.

(** ** JavaScript values *)

Inductive nullable (A : Type) : Type :=
| Undefined
| Null
| Val (a : A).

Arguments Undefined {A}.
Arguments Null {A}.
Arguments Val {A} a.

Inductive jsval : Type :=
| JUndefined
| JNull
| JBool (b : bool)
| JNum (q : Q)
| JStr (s : string).

Definition ofNum (n : nullable Q) : jsval :=
  match n with Undefined => JUndefined | Null => JNull | Val q => JNum q end.

Definition ofStr (s : nullable string) : jsval :=
  match s with Undefined => JUndefined | Null => JNull | Val x => JStr x end.

Class JsRuntime := {
  numberToString : Q -> string;
  localeCompare : string -> string -> Z
}.

(** ToBoolean. *)
Definition truthyString (s : string) : bool := negb (String.eqb s EmptyString).

Definition truthyNum (n : nullable Q) : bool :=
  match n with Val q => negb (Qeq_bool q 0) | _ => false end.

Definition truthyStr (s : nullable string) : bool :=
  match s with Val x => truthyString x | _ => false end.

Definition truthy (v : jsval) : bool :=
  match v with
  | JUndefined | JNull => false
  | JBool b => b
  | JNum q => negb (Qeq_bool q 0)
  | JStr s => truthyString s
  end.

(** [a || b] on two string-valued operands. *)
Definition orStr (a b : nullable string) : nullable string :=
  if truthyStr a then a else b.

(** [a === s] against a string. *)
Definition strictEqStr (a : nullable string) (s : string) : bool :=
  match a with Val x => String.eqb x s | _ => false end.

(** [a === c] against a number. *)
Definition strictEqNum (a : nullable Q) (c : Q) : bool :=
  match a with Val q => Qeq_bool q c | _ => false end.

(** [a === b] on arbitrary values (no coercion). *)
Definition strictEq (a b : jsval) : bool :=
  match a, b with
  | JUndefined, JUndefined => true
  | JNull, JNull => true
  | JBool x, JBool y => Bool.eqb x y
  | JNum x, JNum y => Qeq_bool x y
  | JStr x, JStr y => String.eqb x y
  | _, _ => false
  end.

(** ToNumber on a numeric cell: [null] is 0, [undefined] is NaN ([None]). *)
Definition toNumber (n : nullable Q) : option Q :=
  match n with Undefined => None | Null => Some 0%Q | Val q => Some q end.

Definition Qlt_bool (x y : Q) : bool := negb (Qle_bool y x).

(** The relational operators against a numeric literal: a comparison with
    NaN is false. *)
Definition jsLt (a : nullable Q) (c : Q) : bool :=
  match toNumber a with Some q => Qlt_bool q c | None => false end.
Definition jsGt (a : nullable Q) (c : Q) : bool :=
  match toNumber a with Some q => Qlt_bool c q | None => false end.
Definition jsLe (a : nullable Q) (c : Q) : bool :=
  match toNumber a with Some q => Qle_bool q c | None => false end.
Definition jsGe (a : nullable Q) (c : Q) : bool :=
  match toNumber a with Some q => Qle_bool c q | None => false end.

(** [Math.round]: to the nearest integer, halves upwards. *)
Definition mathRound (x : Q) : Z := Qfloor (x + (1 # 2)).

(** The nearest integer, a tie going to the even one. *)
Definition roundHalfEven (x : Q) : Z :=
  let f := Qfloor x in
  let r := (x - inject_Z f)%Q in
  if Qlt_bool r (1 # 2) then f
  else if Qlt_bool (1 # 2) r then (f + 1)%Z
  else if Z.even f then f else (f + 1)%Z.

(** The exponent [e] of a positive number [x] as a double with a
    significand of 53 bits: [2^52 <= x / 2^e < 2^53]. *)
Definition exponentOf (x : Q) : Z :=
  let k := (Z.log2 (Qnum x) - Z.log2 (Zpos (Qden x)))%Z in
  if Qlt_bool (x / 2 ^ (k - 52)) (2 ^ 52) then (k - 53)%Z else (k - 52)%Z.

(** The double nearest to a number, a tie going to the even significand:
    the rounding that IEEE 754 applies to the exact result of [/] and [*].
    The numbers of the program stay within the range of the normal
    doubles (quotients and percentages of array lengths), where the
    significand always has its 53 bits. *)
Definition roundDouble (x : Q) : Q :=
  if Qeq_bool x 0 then 0
  else
    let a := Qabs x in
    let e := exponentOf a in
    let r := (inject_Z (roundHalfEven (a / 2 ^ e)) * 2 ^ e)%Q in
    if Qlt_bool x 0 then (- r)%Q else r.

(** ** Strings *)

Definition lowerChar (c : ascii) : ascii :=
  let n := nat_of_ascii c in
  if (65 <=? n)%nat && (n <=? 90)%nat then ascii_of_nat (n + 32) else c.

Fixpoint toLowerCase (s : string) : string :=
  match s with
  | EmptyString => EmptyString
  | String c t => String (lowerChar c) (toLowerCase t)
  end.

(** [hay.includes(needle)]. *)
Fixpoint includes (needle hay : string) : bool :=
  String.prefix needle hay ||
  match hay with
  | EmptyString => false
  | String _ t => includes needle t
  end.

Definition isWhite (c : ascii) : bool :=
  let n := nat_of_ascii c in
  (n =? 32)%nat || ((9 <=? n)%nat && (n <=? 13)%nat).

Fixpoint trimStart (s : string) : string :=
  match s with
  | EmptyString => EmptyString
  | String c t => if isWhite c then trimStart t else s
  end.

Fixpoint trimEnd (s : string) : string :=
  match s with
  | EmptyString => EmptyString
  | String c t =>
      let t' := trimEnd t in
      if isWhite c && String.eqb t' EmptyString then EmptyString else String c t'
  end.

Definition trim (s : string) : string := trimEnd (trimStart s).

(** [s.replace(/pat/g, '')] for a literal pattern: every match, scanning
    from the left, is dropped; [skip] counts the characters of the current
    match that are still to be dropped. *)
Fixpoint removeAllFrom (skip : nat) (pat s : string) : string :=
  match s with
  | EmptyString => EmptyString
  | String c t =>
      match skip with
      | S k => removeAllFrom k pat t
      | O =>
          if negb (String.eqb pat EmptyString) && String.prefix pat s
          then removeAllFrom (String.length pat - 1) pat t
          else String c (removeAllFrom 0 pat t)
      end
  end.

Definition removeAll (pat s : string) : string := removeAllFrom 0 pat s.

Fixpoint dropChars (n : nat) (s : string) : string :=
  match n, s with
  | S k, String _ t => dropChars k t
  | _, _ => s
  end.

(** [s.replace(/pat/i, '')] for a literal pattern given in lower case: the
    first match only, letter case ignored. *)
Fixpoint removeFirstCI (pat s : string) : string :=
  if String.prefix pat (toLowerCase s) then dropChars (String.length pat) s
  else
    match s with
    | EmptyString => EmptyString
    | String c t => String c (removeFirstCI pat t)
    end.

(** [parseInt(s)]: leading white space, a sign, then the longest run of
    digits (base 16 after [0x]); [None] is NaN. *)
Definition digitVal (radix : Z) (c : ascii) : option Z :=
  let n := Z.of_nat (nat_of_ascii c) in
  let d :=
    if (48 <=? n)%Z && (n <=? 57)%Z then Some (n - 48)%Z
    else if (97 <=? n)%Z && (n <=? 122)%Z then Some (n - 87)%Z
    else if (65 <=? n)%Z && (n <=? 90)%Z then Some (n - 55)%Z
    else None in
  match d with
  | Some v => if (v <? radix)%Z then Some v else None
  | None => None
  end.

Fixpoint parseDigits (radix : Z) (acc : option Z) (s : string) : option Z :=
  match s with
  | EmptyString => acc
  | String c t =>
      match digitVal radix c with
      | Some d =>
          parseDigits radix
            (Some (radix * (match acc with Some a => a | None => 0 end) + d)%Z) t
      | None => acc
      end
  end.

Definition parseInt (s : string) : option Z :=
  let s1 := trimStart s in
  let '(neg, s2) :=
    match s1 with
    | String "-" t => (true, t)
    | String "+" t => (false, t)
    | _ => (false, s1)
    end in
  let '(radix, s3) :=
    if String.prefix "0x" s2 || String.prefix "0X" s2
    then (16%Z, dropChars 2 s2) else (10%Z, s2) in
  match parseDigits radix None s3 with
  | Some v => Some (if neg then (- v)%Z else v)
  | None => None
  end.

(** [a === parseInt(s)]. *)
Definition strictEqParsed (a : nullable Q) (p : option Z) : bool :=
  match a, p with
  | Val q, Some z => Qeq_bool q (inject_Z z)
  | _, _ => false
  end.

(** ** Arrays *)

(** [Array.prototype.sort] is stable: an element moves in front of the
    elements after it only where the comparator is positive.  For a
    consistent comparator every stable sort returns this list.  For a
    comparator that is not consistent the language leaves the order of
    the result to the engine, and what is proved of a sorted list is
    proved under the consistency of the comparator on the list. *)
Section Sort.
Context {A : Type} (cmp : A -> A -> Q).

Fixpoint sortInsert (x : A) (l : list A) : list A :=
  match l with
  | [] => [x]
  | y :: t => if Qlt_bool 0 (cmp x y) then y :: sortInsert x t else x :: l
  end.

Fixpoint jsSort (l : list A) : list A :=
  match l with
  | [] => []
  | x :: t => sortInsert x (jsSort t)
  end.
End Sort.

(** [counts[k] = (counts[k] || 0) + 1] on an object used as a dictionary:
    the keys stay in the order of their first insertion, as
    [Object.entries] lists them (a key that spells an array index would be
    listed first; party names and education levels are not of that
    form).  The dictionary has the keys it was given: a key named like a
    member of [Object.prototype] would read that member at its first
    count, and the properties of the counts exclude such keys
    ([inherited]). *)
Fixpoint bump (k : string) (counts : list (string * nat)) : list (string * nat) :=
  match counts with
  | [] => [(k, 1%nat)]
  | (k', n) :: t => if String.eqb k' k then (k', S n) :: t else (k', n) :: bump k t
  end.

Definition tally (keys : list string) : list (string * nat) :=
  fold_left (fun counts k => bump k counts) keys [].

(** ** Record model ([types/election.ts])

    The fields of [ElectionResult] that the three components read. *)

Record ElectionResult : Type := mkElectionResult {
  Year : Q;
  Position : nullable Q;
  Candidate : nullable string;
  Sex : nullable string;
  Party : nullable string;
  Votes : nullable Q;
  Age : nullable Q;
  Electors : nullable Q;
  Constituency_Name : string;
  Constituency_Type : nullable string;
  District_Name : nullable string;
  Sub_Region : nullable string;
  N_Cand : nullable Q;
  Turnout_Percentage : nullable Q;
  Vote_Share_Percentage : nullable Q;
  Deposit_Lost : nullable string;
  Margin : nullable Q;
  Margin_Percentage : nullable Q;
  Contested : nullable Q;
  No_Terms : nullable Q;
  Turncoat : jsval;
  Incumbent : jsval;
  Recontest : jsval;
  MyNeta_education : nullable string;
  TCPD_Prof_Main : nullable string;
  Constituency_Name_TA : nullable string;
  District_Name_TA : nullable string;
  Party_TA : nullable string;
  MyNeta_education_TA : nullable string
}.

(** A row with the given identity and outcome and every other cell absent. *)
Definition candidateRow (constituency : string) (year : Q) (party : string)
    (position : Q) (votes margin share : nullable Q) : ElectionResult :=
  {| Year := year; Position := Val position; Candidate := Undefined;
     Sex := Undefined; Party := Val party; Votes := votes; Age := Undefined;
     Electors := Undefined; Constituency_Name := constituency;
     Constituency_Type := Undefined; District_Name := Undefined;
     Sub_Region := Undefined; N_Cand := Undefined;
     Turnout_Percentage := Undefined; Vote_Share_Percentage := share;
     Deposit_Lost := Undefined; Margin := margin;
     Margin_Percentage := Undefined; Contested := Undefined;
     No_Terms := Undefined; Turncoat := JUndefined; Incumbent := JUndefined;
     Recontest := JUndefined; MyNeta_education := Undefined;
     TCPD_Prof_Main := Undefined; Constituency_Name_TA := Undefined;
     District_Name_TA := Undefined; Party_TA := Undefined;
     MyNeta_education_TA := Undefined |}.

(** ** The master sheet ([components/MasterSheet.tsx]) *)

Module MasterSheet.

(** [SortKey]: the columns of the sheet, the keys [handleSort] is called
    with. *)
Inductive SortKey : Type :=
| KConstituency_Name | KConstituency_Type | KDistrict_Name | KCandidate
| KSex | KAge | KMyNeta_education | KTCPD_Prof_Main | KParty | KVotes
| KN_Cand | KElectors | KTurnout_Percentage | KVote_Share_Percentage
| KMargin | KMargin_Percentage | KContested | KNo_Terms | KDeposit_Lost
| KSub_Region | KPosition | KYear.

Inductive SortDirection : Type := asc | desc.

Record SortConfig : Type := { key : SortKey; direction : SortDirection }.

(** [a[sortConfig.key]]. *)
Definition getField (k : SortKey) (a : ElectionResult) : jsval :=
  match k with
  | KConstituency_Name => JStr (Constituency_Name a)
  | KConstituency_Type => ofStr (Constituency_Type a)
  | KDistrict_Name => ofStr (District_Name a)
  | KCandidate => ofStr (Candidate a)
  | KSex => ofStr (Sex a)
  | KAge => ofNum (Age a)
  | KMyNeta_education => ofStr (MyNeta_education a)
  | KTCPD_Prof_Main => ofStr (TCPD_Prof_Main a)
  | KParty => ofStr (Party a)
  | KVotes => ofNum (Votes a)
  | KN_Cand => ofNum (N_Cand a)
  | KElectors => ofNum (Electors a)
  | KTurnout_Percentage => ofNum (Turnout_Percentage a)
  | KVote_Share_Percentage => ofNum (Vote_Share_Percentage a)
  | KMargin => ofNum (Margin a)
  | KMargin_Percentage => ofNum (Margin_Percentage a)
  | KContested => ofNum (Contested a)
  | KNo_Terms => ofNum (No_Terms a)
  | KDeposit_Lost => ofStr (Deposit_Lost a)
  | KSub_Region => ofStr (Sub_Region a)
  | KPosition => ofNum (Position a)
  | KYear => JNum (Year a)
  end.

(** The component state the query reads. *)
Record FilterState : Type := {
  searchTerm : string;
  constituencyType : string;
  ageRange : string;
  selectedYear : string;
  selectedDistrict : string;
  selectedConstituency : string;
  selectedParty : string;
  selectedPosition : string;
  selectedGender : string;
  marginRange : string;
  voteShareRange : string;
  selectedAlliance : string;
  voteCountRange : string;
  winnersOnly : bool;
  selectedCategory : string;
  selectedEducation : string;
  sortConfig : option SortConfig
}.

(** The initial state of the component: no facet set. *)
Definition initialState : FilterState :=
  {| searchTerm := EmptyString; constituencyType := "All"; ageRange := "All";
     selectedYear := "All"; selectedDistrict := "All";
     selectedConstituency := "All"; selectedParty := "All";
     selectedPosition := "All"; selectedGender := "All";
     marginRange := "All"; voteShareRange := "All";
     selectedAlliance := "All"; voteCountRange := "All";
     winnersOnly := false; selectedCategory := "All";
     selectedEducation := "All"; sortConfig := None |}.

Definition isAll (s : string) : bool := String.eqb s "All".

(** [field?.toLowerCase().includes(lowerTerm)]. *)
Definition lowerIncludes (field : nullable string) (lowerTerm : string) : bool :=
  match field with
  | Val s => includes lowerTerm (toLowerCase s)
  | _ => false
  end.

Definition DMK_ALLIANCE : list string :=
  ["DMK"; "INC"; "VCK"; "CPI"; "CPM"; "CPI(M)"; "IUML"; "KMDK"; "MDMK"; "MMK"].

Definition ADMK_ALLIANCE : list string :=
  ["ADMK"; "BJP"; "PMK"; "TMC"; "TMC(M)"; "AMMK"; "AIADMK"].

Definition NAMED_ALLIANCES : list string :=
  ["DMK"; "INC"; "VCK"; "CPI"; "CPM"; "CPI(M)"; "IUML"; "KMDK"; "MDMK"; "MMK";
   "ADMK"; "BJP"; "PMK"; "TMC"; "TMC(M)"; "AMMK"; "AIADMK"].

(** [list.includes(party)]. *)
Definition inList (l : list string) (party : string) : bool :=
  existsb (String.eqb party) l.

Section Query.
Context `{JsRuntime}.

(** [String(val)]. *)
Definition jsString (v : jsval) : string :=
  match v with
  | JUndefined => "undefined"
  | JNull => "null"
  | JBool true => "true"
  | JBool false => "false"
  | JNum q => numberToString q
  | JStr s => s
  end.

Definition isTrue (val : jsval) : bool :=
  strictEq val (JBool true) || strictEq val (JNum 1) ||
  String.eqb (toLowerCase (jsString val)) "true".

(** The predicates of the facets, as the callbacks of [filter] are
    written. *)
Definition searchMatch (lowerTerm : string) (item : ElectionResult) : bool :=
  lowerIncludes (Val (Constituency_Name item)) lowerTerm ||
  lowerIncludes (Candidate item) lowerTerm ||
  lowerIncludes (Party item) lowerTerm ||
  lowerIncludes (District_Name item) lowerTerm ||
  lowerIncludes (Constituency_Name_TA item) lowerTerm ||
  lowerIncludes (Party_TA item) lowerTerm ||
  lowerIncludes (District_Name_TA item) lowerTerm.

Definition depositLostMatch (item : ElectionResult) : bool :=
  jsLt (Vote_Share_Percentage item) 16.66.

Definition ageMatch (ageRange : string) (item : ElectionResult) : bool :=
  let age := Age item in
  if negb (truthyNum age) then false
  else if String.eqb ageRange "25-40" then jsGe age 25 && jsLe age 40
  else if String.eqb ageRange "41-60" then jsGe age 41 && jsLe age 60
  else if String.eqb ageRange "61+" then jsGt age 60
  else true.

Definition marginMatch (marginRange : string) (item : ElectionResult) : bool :=
  let margin := Margin item in
  if negb (truthyNum margin) then false
  else if String.eqb marginRange "High" then jsGt margin 50000
  else if String.eqb marginRange "Medium" then jsGe margin 10000 && jsLe margin 50000
  else if String.eqb marginRange "Low" then jsLt margin 10000
  else true.

Definition voteShareMatch (voteShareRange : string) (item : ElectionResult) : bool :=
  let share := Vote_Share_Percentage item in
  if negb (truthyNum share) then false
  else if String.eqb voteShareRange "High" then jsGt share 50
  else if String.eqb voteShareRange "Medium" then jsGe share 30 && jsLe share 50
  else if String.eqb voteShareRange "Low" then jsLt share 30
  else true.

Definition allianceMatch (selectedAlliance : string) (item : ElectionResult) : bool :=
  let party := if truthyStr (Party item)
               then match Party item with Val p => trim p | _ => EmptyString end
               else EmptyString in
  if String.eqb selectedAlliance "DMK+" then inList DMK_ALLIANCE party
  else if String.eqb selectedAlliance "ADMK+" then inList ADMK_ALLIANCE party
  else if String.eqb selectedAlliance "Others" then negb (inList NAMED_ALLIANCES party)
  else true.

Definition voteCountMatch (voteCountRange : string) (item : ElectionResult) : bool :=
  let votes := Votes item in
  if negb (truthyNum votes) then false
  else if String.eqb voteCountRange ">1L" then jsGt votes 100000
  else if String.eqb voteCountRange "50k-1L" then jsGe votes 50000 && jsLe votes 100000
  else if String.eqb voteCountRange "10k-50k" then jsGe votes 10000 && jsLe votes 50000
  else if String.eqb voteCountRange "<10k" then jsLt votes 10000
  else true.

Definition categoryMatch (selectedCategory : string) (item : ElectionResult) : bool :=
  if String.eqb selectedCategory "Incumbent" then isTrue (Incumbent item)
  else if String.eqb selectedCategory "Turncoat" then isTrue (Turncoat item)
  else if String.eqb selectedCategory "Recontest" then isTrue (Recontest item)
  else true.

(** The statements of [processedData], one per facet: each narrows
    [result] when its facet is set and leaves it alone otherwise. *)
Definition stepSearch (S : FilterState) (result : list ElectionResult) :=
  if truthyString (searchTerm S) then
    let lowerTerm := toLowerCase (searchTerm S) in
    List.filter (searchMatch lowerTerm) result
  else result.

Definition stepDistrict (S : FilterState) (result : list ElectionResult) :=
  if negb (isAll (selectedDistrict S)) then
    List.filter (fun item =>
      strictEqStr (orStr (District_Name_TA item) (District_Name item))
                  (selectedDistrict S)) result
  else result.

Definition stepConstituency (S : FilterState) (result : list ElectionResult) :=
  if negb (isAll (selectedConstituency S)) then
    List.filter (fun item =>
      strictEqStr (orStr (Constituency_Name_TA item) (Val (Constituency_Name item)))
                  (selectedConstituency S)) result
  else result.

Definition stepParty (S : FilterState) (result : list ElectionResult) :=
  if negb (isAll (selectedParty S)) then
    List.filter (fun item =>
      strictEqStr (orStr (Party_TA item) (Party item)) (selectedParty S)) result
  else result.

Definition stepPosition (S : FilterState) (result : list ElectionResult) :=
  if negb (isAll (selectedPosition S)) then
    if String.eqb (selectedPosition S) "DepositLost" then
      List.filter depositLostMatch result
    else
      List.filter (fun item =>
        strictEqParsed (Position item) (parseInt (selectedPosition S))) result
  else result.

Definition stepType (S : FilterState) (result : list ElectionResult) :=
  if negb (isAll (constituencyType S)) then
    List.filter (fun item =>
      strictEqStr (Constituency_Type item) (constituencyType S)) result
  else result.

Definition stepYear (S : FilterState) (result : list ElectionResult) :=
  if negb (isAll (selectedYear S)) then
    List.filter (fun item =>
      String.eqb (numberToString (Year item)) (selectedYear S)) result
  else result.

Definition stepAge (S : FilterState) (result : list ElectionResult) :=
  if negb (isAll (ageRange S)) then List.filter (ageMatch (ageRange S)) result
  else result.

Definition stepGender (S : FilterState) (result : list ElectionResult) :=
  if negb (isAll (selectedGender S)) then
    List.filter (fun item => strictEqStr (Sex item) (selectedGender S)) result
  else result.

Definition stepMargin (S : FilterState) (result : list ElectionResult) :=
  if negb (isAll (marginRange S)) then
    List.filter (marginMatch (marginRange S)) result
  else result.

Definition stepVoteShare (S : FilterState) (result : list ElectionResult) :=
  if negb (isAll (voteShareRange S)) then
    List.filter (voteShareMatch (voteShareRange S)) result
  else result.

Definition stepAlliance (S : FilterState) (result : list ElectionResult) :=
  if negb (isAll (selectedAlliance S)) then
    List.filter (allianceMatch (selectedAlliance S)) result
  else result.

Definition stepVoteCount (S : FilterState) (result : list ElectionResult) :=
  if negb (isAll (voteCountRange S)) then
    List.filter (voteCountMatch (voteCountRange S)) result
  else result.

Definition stepCategory (S : FilterState) (result : list ElectionResult) :=
  if negb (isAll (selectedCategory S)) then
    List.filter (categoryMatch (selectedCategory S)) result
  else result.

Definition stepEducation (S : FilterState) (result : list ElectionResult) :=
  if negb (isAll (selectedEducation S)) then
    List.filter (fun item =>
      strictEqStr (orStr (MyNeta_education_TA item) (MyNeta_education item))
                  (selectedEducation S)) result
  else result.

Definition stepWinnersOnly (S : FilterState) (result : list ElectionResult) :=
  if winnersOnly S then
    List.filter (fun item => strictEqNum (Position item) 1) result
  else result.

(** The comparator handed to [sort]. *)
Definition compareRows (cfg : SortConfig) (a b : ElectionResult) : Q :=
  let aValue := getField (key cfg) a in
  let bValue := getField (key cfg) b in
  if strictEq aValue bValue then 0
  else match aValue, bValue with
  | JNull, _ | JUndefined, _ => 1
  | _, JNull | _, JUndefined => -1
  | JNum x, JNum y =>
      match direction cfg with asc => x - y | desc => y - x end
  | _, _ =>
      match direction cfg with
      | asc => inject_Z (localeCompare (jsString aValue) (jsString bValue))
      | desc => inject_Z (localeCompare (jsString bValue) (jsString aValue))
      end
  end.

Definition stepSort (S : FilterState) (result : list ElectionResult) :=
  match sortConfig S with
  | Some cfg => jsSort (compareRows cfg) result
  | None => result
  end.

(** The facet statements in the order of the source. *)
Definition facetSteps (S : FilterState)
  : list (list ElectionResult -> list ElectionResult) :=
  [stepSearch S; stepDistrict S; stepConstituency S; stepParty S;
   stepPosition S; stepType S; stepYear S; stepAge S; stepGender S;
   stepMargin S; stepVoteShare S; stepAlliance S; stepVoteCount S;
   stepCategory S; stepEducation S; stepWinnersOnly S].

Definition processedData (S : FilterState) (data : list ElectionResult)
  : list ElectionResult :=
  let result := data in
  let result := stepSearch S result in
  let result := stepDistrict S result in
  let result := stepConstituency S result in
  let result := stepParty S result in
  let result := stepPosition S result in
  let result := stepType S result in
  let result := stepYear S result in
  let result := stepAge S result in
  let result := stepGender S result in
  let result := stepMargin S result in
  let result := stepVoteShare S result in
  let result := stepAlliance S result in
  let result := stepVoteCount S result in
  let result := stepCategory S result in
  let result := stepEducation S result in
  let result := stepWinnersOnly S result in
  stepSort S result.

(** [statsData]: the success rate of the three candidate categories,
    counted on the whole of [data], and the education levels of the
    rows of the query. *)
Record CategoryEntry : Type := {
  name : string;
  rate : Z;
  total : nat;
  wins : nat
}.

(** [n ? Math.round((w / n) * 100) : 0], on two array lengths: the
    quotient is a double, and so is its product with 100. *)
Definition ratePercent (w n : nat) : Z :=
  if negb (n =? 0)%nat
  then mathRound
         (roundDouble
            (roundDouble (inject_Z (Z.of_nat w) / inject_Z (Z.of_nat n)) * 100))
  else 0%Z.

Definition isWinner (d : ElectionResult) : bool := strictEqNum (Position d) 1.

Definition categoryData (data : list ElectionResult) : list CategoryEntry :=
  let incidents := List.length (List.filter (fun d => truthy (Incumbent d)) data) in
  let incumbentWins :=
    List.length (List.filter (fun d => truthy (Incumbent d) && isWinner d) data) in
  let turncoats := List.length (List.filter (fun d => truthy (Turncoat d)) data) in
  let turncoatWins :=
    List.length (List.filter (fun d => truthy (Turncoat d) && isWinner d) data) in
  let recontests := List.length (List.filter (fun d => truthy (Recontest d)) data) in
  let recontestWins :=
    List.length (List.filter (fun d => truthy (Recontest d) && isWinner d) data) in
  [ {| name := "Incumbents"; rate := ratePercent incumbentWins incidents;
       total := incidents; wins := incumbentWins |};
    {| name := "Turncoats"; rate := ratePercent turncoatWins turncoats;
       total := turncoats; wins := turncoatWins |};
    {| name := "Recontesting"; rate := ratePercent recontestWins recontests;
       total := recontests; wins := recontestWins |} ].

Definition educationOf (d : ElectionResult) : string :=
  match orStr (orStr (MyNeta_education_TA d) (MyNeta_education d)) (Val "Unknown") with
  | Val edu => edu
  | _ => "Unknown"
  end.

Definition eduData (rows : list ElectionResult) : list (string * nat) :=
  let winners := List.filter isWinner rows in
  let eduStats :=
    tally (map educationOf
             (if (0 <? List.length winners)%nat then winners else rows)) in
  firstn 5
    (jsSort (fun a b => (inject_Z (Z.of_nat (snd b)) - inject_Z (Z.of_nat (snd a)))%Q)
            eduStats).

Definition statsData (S : FilterState) (data : list ElectionResult)
  : option (list CategoryEntry * list (string * nat)) :=
  let rows := processedData S data in
  if (List.length rows =? 0)%nat then None
  else Some (categoryData data, eduData rows).

End Query.

(** [sortConfig.key === key]. *)
Definition SortKey_eq_dec (a b : SortKey) : {a = b} + {a <> b}.
Proof. decide equality. Defined.

Definition sameKey (a b : SortKey) : bool :=
  if SortKey_eq_dec a b then true else false.

(** [handleSort]: a click on the header of column [k]. *)
Definition handleSort (sortConfig : option SortConfig) (k : SortKey)
  : option SortConfig :=
  let direction :=
    match sortConfig with
    | Some cfg =>
        if sameKey (key cfg) k
           && match direction cfg with asc => true | desc => false end
        then desc else asc
    | None => asc
    end in
  Some {| key := k; direction := direction |}.

(** Pagination. *)
Definition itemsPerPage : Z := 20.

(** [array.slice(start, stop)]: a negative index counts from the end, and
    both indices are clamped to the array. *)
Definition slice {A : Type} (start stop : Z) (l : list A) : list A :=
  let len := Z.of_nat (List.length l) in
  let k := if (start <? 0)%Z then Z.max (len + start) 0 else Z.min start len in
  let final := if (stop <? 0)%Z then Z.max (len + stop) 0 else Z.min stop len in
  firstn (Z.to_nat (Z.max (final - k) 0)) (skipn (Z.to_nat k) l).

(** [Math.ceil(processedData.length / itemsPerPage)]. *)
Definition totalPages (rows : list ElectionResult) : Z :=
  Qceiling (inject_Z (Z.of_nat (List.length rows)) / inject_Z itemsPerPage).

Definition currentData (currentPage : Z) (rows : list ElectionResult)
  : list ElectionResult :=
  slice ((currentPage - 1) * itemsPerPage) (currentPage * itemsPerPage) rows.

(** The updates of [currentPage] by the two buttons. *)
Definition prevPage (p : Z) : Z := Z.max 1 (p - 1).
Definition nextPage (pages p : Z) : Z := Z.min pages (p + 1).

(** The lists of the dropdowns: [Array.from(new Set(values)).sort()]. *)
Definition sameValue (a b : nullable string) : bool :=
  match a, b with
  | Undefined, Undefined => true
  | Null, Null => true
  | Val x, Val y => String.eqb x y
  | _, _ => false
  end.

(** [new Set(values)]: the values in the order of their first occurrence. *)
Fixpoint setOf (values seen : list (nullable string)) : list (nullable string) :=
  match values with
  | [] => seen
  | v :: t => setOf t (if existsb (sameValue v) seen then seen else seen ++ [v])
  end.

(** The order of [sort()] without a comparator: [undefined] last, the other
    values by the code units of their strings (the bytes of the model give
    that order on text without surrogate pairs). *)
Definition defaultCompare (a b : nullable string) : Q :=
  let str v := match v with Val x => x | Null => "null" | Undefined => "undefined" end in
  match a, b with
  | Undefined, Undefined => 0
  | Undefined, _ => 1
  | _, Undefined => -1
  | _, _ =>
      match String.compare (str a) (str b) with
      | Lt => -1
      | Eq => 0
      | Gt => 1
      end
  end.

Definition districts (data : list ElectionResult) : list (nullable string) :=
  jsSort defaultCompare
    (setOf (map (fun item => orStr (District_Name_TA item) (District_Name item)) data) []).

Definition constituencies (selectedDistrict : string) (data : list ElectionResult)
  : list (nullable string) :=
  let filtered := data in
  let filtered :=
    if negb (isAll selectedDistrict) then
      List.filter (fun item =>
        strictEqStr (orStr (District_Name_TA item) (District_Name item)) selectedDistrict)
        filtered
    else filtered in
  jsSort defaultCompare
    (setOf (map (fun item =>
                   orStr (Constituency_Name_TA item) (Val (Constituency_Name item)))
                filtered) []).

End MasterSheet.

(** ** The constituency map ([components/ConstituencyMap.tsx]) *)

Module ConstituencyMap.

(** Names of the boundary dataset that differ from the names of the
    results table.  The object is read by key; the model has its own
    keys only, and a property of every lookup excludes the names of the
    members the object inherits ([inherited]). *)
Definition NAME_MAPPING : gmap string string :=
  list_to_map
    [
     ("gummidipoondi", "gummidipundi");
     ("tiruvottiyur", "thiruvottiyur");
     ("arakkonam", "arakonam");
     ("sholingur", "sholinghur");
     ("dr.radhakrishnan naga", "dr. radhakrishnan nagar");
     ("kilvaithinankuppam(sc", "kilvaithinankuppam");
     ("gudiyattam", "gudiyatham");
     ("chepauk-thiruvalliken", "chepauk-thiruvallikeni");
     ("thiyagarayanagar", "theayagaraya nagar");
     ("vaniyambadi", "vaniayambadi");
     ("madurantakam", "maduranthakam");
     ("palacodu", "palacode");
     ("rishivandiyam", "rishivandiam");
     ("viluppuram", "villupuram");
     ("ulundurpettai", "ulundurpet");
     ("edappadi", "edapadi");
     ("tiruchengodu", "tiruchengode");
     ("senthamangalam", "sendamangalam");
     ("mettuppalayam", "mettupalayam");
     ("sirkazhi", "sirkali");
     ("modakkurichi", "modakurichi");
     ("thiruvidaimarudur", "thiruvidamarudur");
     ("coimbatore(north)", "coimbatore north");
     ("coimbatore(south)", "coimbatore south");
     ("udumalaipettai", "udumalpet");
     ("thiruverumbur", "thiruverambur");
     ("orathanadu", "orathanad");
     ("thiruthuraipoondi", "thiruthuraipundi");
     ("nilakkottai", "nilakottai");
     ("aranthangi", "arantangi");
     ("aruppukkottai", "aruppukottai");
     ("mudhukulathur", "mudukulathur");
     ("palayamkottai", "palayamcottai")
    ].

(** [feature.properties], as far as the normaliser reads it. *)
Record Feature : Type := {
  AC_NAME : nullable string;
  ac_name : nullable string;
  AC_NO : nullable Q;
  ac_no : nullable Q
}.

Definition orNum (a b : nullable Q) : nullable Q :=
  if truthyNum a then a else b.

Definition getNormalizedName (feature : Feature) : string :=
  let name := orStr (AC_NAME feature) (ac_name feature) in
  let acNo := orNum (AC_NO feature) (ac_no feature) in
  match name with
  | Val name =>
      if negb (truthyString name) then EmptyString
      else
        let split :=
          if includes "tiruchirappalli" (toLowerCase name) then
            if strictEqNum acNo 140 then Some "tiruchirapalli (west)"
            else if strictEqNum acNo 141 then Some "tiruchirapalli (east)"
            else None
          else None in
        match split with
        | Some area => area
        | None =>
            let normalized :=
              trim (removeAll "(sc"
                     (removeAll "(st)" (removeAll "(sc)" (toLowerCase name)))) in
            match NAME_MAPPING !! normalized with
            | Some mapped => if truthyString mapped then mapped else normalized
            | None => normalized
            end
        end
  | _ => EmptyString
  end.

(** The filters of the map. *)
Record MapFilter : Type := {
  selectedAlliance : string;
  selectedParty : string;
  marginRange : string;
  constituencyType : string;
  selectedGender : string;
  selectedDistrict : string;
  searchTerm : string
}.

Definition noFilter : MapFilter :=
  {| selectedAlliance := "All"; selectedParty := "All"; marginRange := "All";
     constituencyType := "All"; selectedGender := "All";
     selectedDistrict := "All"; searchTerm := EmptyString |}.

Definition isAll (s : string) : bool := String.eqb s "All".

Definition DMK_ALLIANCE : list string :=
  ["DMK"; "INC"; "VCK"; "CPI"; "CPM"; "CPI(M)"; "IUML"; "KMDK"; "MDMK"; "MMK"].

Definition ADMK_ALLIANCE : list string :=
  ["ADMK"; "BJP"; "PMK"; "TMC"; "TMC(M)"].

Definition NAMED_ALLIANCES : list string :=
  ["DMK"; "INC"; "VCK"; "CPI"; "CPM"; "CPI(M)"; "IUML"; "KMDK"; "MDMK"; "MMK";
   "ADMK"; "BJP"; "PMK"; "TMC"; "TMC(M)"].

(** [list.includes(party)] on a cell that can be absent. *)
Definition inList (l : list string) (party : nullable string) : bool :=
  match party with
  | Val p => existsb (String.eqb p) l
  | _ => false
  end.

Definition allianceMatch (selectedAlliance : string) (item : ElectionResult) : bool :=
  let party := Party item in
  if String.eqb selectedAlliance "DMK+" then inList DMK_ALLIANCE party
  else if String.eqb selectedAlliance "ADMK+" then inList ADMK_ALLIANCE party
  else if String.eqb selectedAlliance "Others" then negb (inList NAMED_ALLIANCES party)
  else true.

Definition marginMatch (marginRange : string) (item : ElectionResult) : bool :=
  let margin := Margin item in
  if negb (truthyNum margin) then false
  else if String.eqb marginRange "High" then jsGt margin 50000
  else if String.eqb marginRange "Medium" then jsGe margin 10000 && jsLe margin 50000
  else if String.eqb marginRange "Low" then jsLt margin 10000
  else true.

Definition searchMatch (searchTerm : string) (item : ElectionResult) : bool :=
  includes (toLowerCase searchTerm) (toLowerCase (Constituency_Name item)) ||
  match Constituency_Name_TA item with
  | Val ta => includes searchTerm ta
  | _ => false
  end.

Definition filteredData (F : MapFilter) (data : list ElectionResult)
  : list ElectionResult :=
  let result := data in
  let winners := List.filter (fun d => strictEqNum (Position d) 1) result in
  let filteredWinners := winners in
  let filteredWinners :=
    if negb (isAll (selectedAlliance F))
    then List.filter (allianceMatch (selectedAlliance F)) filteredWinners
    else filteredWinners in
  let filteredWinners :=
    if negb (isAll (selectedParty F))
    then List.filter (fun item => strictEqStr (Party item) (selectedParty F)) filteredWinners
    else filteredWinners in
  let filteredWinners :=
    if negb (isAll (marginRange F))
    then List.filter (marginMatch (marginRange F)) filteredWinners
    else filteredWinners in
  let filteredWinners :=
    if negb (isAll (constituencyType F))
    then List.filter (fun item => strictEqStr (Constituency_Type item) (constituencyType F))
                     filteredWinners
    else filteredWinners in
  let filteredWinners :=
    if negb (isAll (selectedGender F))
    then List.filter (fun item => strictEqStr (Sex item) (selectedGender F)) filteredWinners
    else filteredWinners in
  let filteredWinners :=
    if negb (isAll (selectedDistrict F))
    then List.filter (fun item => strictEqStr (District_Name item) (selectedDistrict F))
                     filteredWinners
    else filteredWinners in
  let filteredWinners :=
    if truthyString (searchTerm F)
    then List.filter (searchMatch (searchTerm F)) filteredWinners
    else filteredWinners in
  filteredWinners.

(** An entry of [resultsMap]. *)
Record Joined : Type := {
  winner : ElectionResult;
  runnerUp : option ElectionResult
}.

(** The runner-up of a winner: [data.find(...)] on the original data. *)
Definition findRunnerUp (data : list ElectionResult) (winner : ElectionResult)
  : option ElectionResult :=
  List.find (fun d =>
    String.eqb (Constituency_Name d) (Constituency_Name winner) &&
    strictEqNum (Position d) 2) data.

(** The key of a winner: [(SC)] and [(ST)] removed once each, trimmed,
    in lower case. *)
Definition normalizedName (winner : ElectionResult) : string :=
  toLowerCase (trim (removeFirstCI "(st)" (removeFirstCI "(sc)" (Constituency_Name winner)))).

Definition resultsMap (F : MapFilter) (data : list ElectionResult)
  : gmap string Joined :=
  fold_left
    (fun map winner =>
       let runnerUp := findRunnerUp data winner in
       <[normalizedName winner := {| winner := winner; runnerUp := runnerUp |}]> map)
    (filteredData F data) ∅.

(** [resultsMap.get(getNormalizedName(feature))], the join of a feature
    of the map with the results. *)
Definition dataObj (F : MapFilter) (data : list ElectionResult) (feature : Feature)
  : option Joined :=
  resultsMap F data !! getNormalizedName feature.

End ConstituencyMap.

(** ** The dashboard ([components/Dashboard.tsx]) *)

Module Dashboard.

Record PartyWin : Type := {
  name : string;
  nameTA : string;
  value : nat
}.

(** The key a cell gives when it indexes an object. *)
Definition propertyKey (s : nullable string) : string :=
  match s with Undefined => "undefined" | Null => "null" | Val x => x end.

Section PartyWins.
(** The table [partyTranslations] of [data/tamilData], which is data of
    the deployment. *)
Variable partyTranslations : gmap string string.

Definition winners (data : list ElectionResult) : list ElectionResult :=
  List.filter (fun d => strictEqNum (Position d) 1) data.

Definition partyWins (data : list ElectionResult) : list PartyWin :=
  let counts := tally (map (fun w => propertyKey (Party w)) (winners data)) in
  jsSort (fun a b => (inject_Z (Z.of_nat (value b)) - inject_Z (Z.of_nat (value a)))%Q)
    (map (fun e =>
            {| name := fst e;
               nameTA := match partyTranslations !! fst e with
                         | Some ta => if truthyString ta then ta else fst e
                         | None => fst e
                         end;
               value := snd e |}) counts).

(** The seat count the chart shows for a party. *)
Definition seatCount (party : string) (data : list ElectionResult) : nat :=
  match List.find (fun p => String.eqb (name p) party) (partyWins data) with
  | Some p => value p
  | None => 0%nat
  end.
End PartyWins.

Definition SPA_PARTIES : list string :=
  ["DMK"; "INC"; "VCK"; "CPI"; "CPM"; "CPI(M)"; "IUML"; "MDMK"; "KMDK"; "MMK"].

Definition NDA_PARTIES : list string := ["ADMK"; "BJP"; "PMK"; "TMC(M)"].

(** [list.includes(w.Party)]. *)
Definition includesParty (l : list string) (party : nullable string) : bool :=
  match party with
  | Val p => existsb (String.eqb p) l
  | _ => false
  end.

Record AllianceCounts : Type := {
  countDMK : nat;
  countADMK : nat;
  countOthers : nat
}.

(** The three counters of [allianceWins] after the loop over the winners. *)
Definition allianceCounts (data : list ElectionResult) : AllianceCounts :=
  fold_left
    (fun counts w =>
       if includesParty SPA_PARTIES (Party w)
       then {| countDMK := S (countDMK counts); countADMK := countADMK counts;
               countOthers := countOthers counts |}
       else if includesParty NDA_PARTIES (Party w)
       then {| countDMK := countDMK counts; countADMK := S (countADMK counts);
               countOthers := countOthers counts |}
       else {| countDMK := countDMK counts; countADMK := countADMK counts;
               countOthers := S (countOthers counts) |})
    (winners data)
    {| countDMK := 0; countADMK := 0; countOthers := 0 |}.

Record AllianceWin : Type := {
  allianceName : string;
  allianceValue : nat;
  color : string
}.

Section AllianceWins.
(** The labels [DMKAlliance], [ADMKAlliance] and [Others] of
    [data/translations]. *)
Variables (labelDMK labelADMK labelOthers : string).

Definition allianceWins (data : list ElectionResult) : list AllianceWin :=
  let counts := allianceCounts data in
  [ {| allianceName := labelDMK; allianceValue := countDMK counts; color := "#ff0000" |};
    {| allianceName := labelADMK; allianceValue := countADMK counts; color := "#00ff00" |};
    {| allianceName := labelOthers; allianceValue := countOthers counts;
       color := "#8884d8" |} ].
End AllianceWins.

End Dashboard.

(** ** The advanced charts ([components/AdvancedVisuals.tsx]) *)

Module AdvancedVisuals.

Definition winners (data : list ElectionResult) : list ElectionResult :=
  List.filter (fun d => strictEqNum (Position d) 1) data.

(** [a.Margin || 0]. *)
Definition marginOrZero (a : ElectionResult) : Q :=
  match Margin a with
  | Val q => if truthyNum (Val q) then q else 0
  | _ => 0
  end.

(** The six closest fights. *)
Definition closestFights (data : list ElectionResult) : list ElectionResult :=
  firstn 6
    (jsSort (fun a b => (marginOrZero a - marginOrZero b)%Q) (winners data)).

(** The winners of the reserved seats, per party. *)
Definition reservedData (data : list ElectionResult) : list (string * nat) :=
  let scWinners :=
    List.filter (fun w => strictEqStr (Constituency_Type w) "SC"
                          || strictEqStr (Constituency_Type w) "ST") (winners data) in
  let stats := tally (map (fun w => Dashboard.propertyKey (Party w)) scWinners) in
  jsSort (fun a b => (inject_Z (Z.of_nat (snd b)) - inject_Z (Z.of_nat (snd a)))%Q) stats.

(** The education levels of the winners, in the order of the chart. *)
Definition educationOrder : list string :=
  ["Doctorate"; "Post Graduate"; "Graduate Professional"; "Graduate"; "12th Pass";
   "10th Pass"; "8th Pass"; "5th Pass"; "Literate"; "Others"].

(** [order.indexOf(name)], with -1 for a name that is not in the list. *)
Fixpoint indexOf (name : string) (order : list string) : Z :=
  match order with
  | [] => (-1)%Z
  | x :: t =>
      if String.eqb x name then 0%Z
      else let i := indexOf name t in if (i =? -1)%Z then (-1)%Z else (i + 1)%Z
  end.

Definition educationRank (name : string) : Z :=
  let idx := indexOf name educationOrder in
  if (idx =? -1)%Z then 99%Z else idx.

Definition educationLevel (w : ElectionResult) : string :=
  match orStr (MyNeta_education w) (Val "Unknown") with
  | Val edu => edu
  | _ => "Unknown"
  end.

Record EducationEntry : Type := {
  name : string;
  nameTA : string;
  value : nat
}.

Section EducationData.
(** The table [educationTranslations] of [data/tamilData]. *)
Variable educationTranslations : gmap string string.

Definition educationData (data : list ElectionResult) : list EducationEntry :=
  let stats := tally (map educationLevel (winners data)) in
  jsSort (fun a b =>
            inject_Z (educationRank (name a) - educationRank (name b)))
    (map (fun e =>
            {| name := fst e;
               nameTA := match educationTranslations !! fst e with
                         | Some ta => if truthyString ta then ta else fst e
                         | None => fst e
                         end;
               value := snd e |}) stats).
End EducationData.

End AdvancedVisuals.

(** ** Specification vocabulary *)

(** A runtime to evaluate examples with: integers print in decimal and
    strings compare by code unit. *)
Definition plainRuntime : JsRuntime :=
  {| numberToString := fun q => NilZero.string_of_int (Z.to_int (Qfloor q));
     localeCompare := fun s t =>
       match String.compare s t with Lt => (-1)%Z | Eq => 0%Z | Gt => 1%Z end |}.

(** The feature of the map named [n] with identifier [id]. *)
Definition featureNamed (n : string) (id : nullable Q) : ConstituencyMap.Feature :=
  {| ConstituencyMap.AC_NAME := Val n; ConstituencyMap.ac_name := Undefined;
     ConstituencyMap.AC_NO := id; ConstituencyMap.ac_no := Undefined |}.

(** The state of the master sheet with the margin facet alone set. *)
Definition withMargin (bucket : string) : MasterSheet.FilterState :=
  {| MasterSheet.searchTerm := EmptyString; MasterSheet.constituencyType := "All";
     MasterSheet.ageRange := "All"; MasterSheet.selectedYear := "All";
     MasterSheet.selectedDistrict := "All";
     MasterSheet.selectedConstituency := "All";
     MasterSheet.selectedParty := "All"; MasterSheet.selectedPosition := "All";
     MasterSheet.selectedGender := "All"; MasterSheet.marginRange := bucket;
     MasterSheet.voteShareRange := "All"; MasterSheet.selectedAlliance := "All";
     MasterSheet.voteCountRange := "All"; MasterSheet.winnersOnly := false;
     MasterSheet.selectedCategory := "All";
     MasterSheet.selectedEducation := "All"; MasterSheet.sortConfig := None |}.

(** The two rows of the Chennai scenario. *)
Definition chennaiDMK : ElectionResult :=
  candidateRow "Chennai" 2021 "DMK" 1 (Val 50000%Q) (Val 12000%Q) Undefined.

Definition chennaiADMK : ElectionResult :=
  candidateRow "Chennai" 2021 "ADMK" 2 (Val 38000%Q) Undefined Undefined.

(** A winner's row whose margin is the number 0, and a row whose vote
    share is the number 0. *)
Definition zeroMarginRow : ElectionResult :=
  candidateRow "Chennai" 2021 "DMK" 1 (Val 50000%Q) (Val 0%Q) (Val 45%Q).

Definition zeroShareRow : ElectionResult :=
  candidateRow "Chennai" 2021 "IND" 9 Null Null (Val 0%Q).

(** A row of margin [m], and a row of vote share [s]. *)
Definition rowWithMargin (m : Q) : ElectionResult :=
  candidateRow "Chennai" 2021 "DMK" 1 (Val 50000%Q) (Val m) (Val 45%Q).

Definition rowWithShare (s : Q) : ElectionResult :=
  candidateRow "Chennai" 2021 "IND" 4 (Val 7000%Q) (Val 1200%Q) (Val s).

(** A winner of the party AMMK. *)
Definition ammkWinner : ElectionResult :=
  candidateRow "Kovilpatti" 2021 "AMMK" 1 (Val 60000%Q) (Val 9000%Q) (Val 38%Q).

(** The facets of the master sheet as predicates on a row: the callback
    of a facet that is set, and [true] for a facet that is not. *)
Section FacetPredicates.
Context `{JsRuntime}.
Import MasterSheet.

Definition whenSet (set : bool) (p : ElectionResult -> bool)
    (item : ElectionResult) : bool :=
  if set then p item else true.

Definition facetPredicates (S : FilterState) : list (ElectionResult -> bool) :=
  [ whenSet (truthyString (searchTerm S)) (searchMatch (toLowerCase (searchTerm S)));
    whenSet (negb (isAll (selectedDistrict S)))
      (fun item => strictEqStr (orStr (District_Name_TA item) (District_Name item))
                               (selectedDistrict S));
    whenSet (negb (isAll (selectedConstituency S)))
      (fun item => strictEqStr
                     (orStr (Constituency_Name_TA item) (Val (Constituency_Name item)))
                     (selectedConstituency S));
    whenSet (negb (isAll (selectedParty S)))
      (fun item => strictEqStr (orStr (Party_TA item) (Party item)) (selectedParty S));
    whenSet (negb (isAll (selectedPosition S)))
      (fun item => if String.eqb (selectedPosition S) "DepositLost"
                   then depositLostMatch item
                   else strictEqParsed (Position item) (parseInt (selectedPosition S)));
    whenSet (negb (isAll (constituencyType S)))
      (fun item => strictEqStr (Constituency_Type item) (constituencyType S));
    whenSet (negb (isAll (selectedYear S)))
      (fun item => String.eqb (numberToString (Year item)) (selectedYear S));
    whenSet (negb (isAll (ageRange S))) (ageMatch (ageRange S));
    whenSet (negb (isAll (selectedGender S)))
      (fun item => strictEqStr (Sex item) (selectedGender S));
    whenSet (negb (isAll (marginRange S))) (marginMatch (marginRange S));
    whenSet (negb (isAll (voteShareRange S))) (voteShareMatch (voteShareRange S));
    whenSet (negb (isAll (selectedAlliance S))) (allianceMatch (selectedAlliance S));
    whenSet (negb (isAll (voteCountRange S))) (voteCountMatch (voteCountRange S));
    whenSet (negb (isAll (selectedCategory S))) (categoryMatch (selectedCategory S));
    whenSet (negb (isAll (selectedEducation S)))
      (fun item => strictEqStr
                     (orStr (MyNeta_education_TA item) (MyNeta_education item))
                     (selectedEducation S));
    whenSet (winnersOnly S) (fun item => strictEqNum (Position item) 1) ].

(** The row passes every facet. *)
Definition passes (S : FilterState) (item : ElectionResult) : bool :=
  forallb (fun p => p item) (facetPredicates S).

(** A list of statements run one after the other. *)
Definition runSteps (steps : list (list ElectionResult -> list ElectionResult))
    (data : list ElectionResult) : list ElectionResult :=
  fold_left (fun result step => step result) steps data.

(** A statement that narrows its input by a predicate on the row. *)
Definition isFilter (step : list ElectionResult -> list ElectionResult) : Prop :=
  exists p, forall l, step l = List.filter p l.
End FacetPredicates.

(** The state of the master sheet with the position facet alone set. *)
Definition withPosition (position : string) : MasterSheet.FilterState :=
  {| MasterSheet.searchTerm := EmptyString; MasterSheet.constituencyType := "All";
     MasterSheet.ageRange := "All"; MasterSheet.selectedYear := "All";
     MasterSheet.selectedDistrict := "All";
     MasterSheet.selectedConstituency := "All";
     MasterSheet.selectedParty := "All"; MasterSheet.selectedPosition := position;
     MasterSheet.selectedGender := "All"; MasterSheet.marginRange := "All";
     MasterSheet.voteShareRange := "All"; MasterSheet.selectedAlliance := "All";
     MasterSheet.voteCountRange := "All"; MasterSheet.winnersOnly := false;
     MasterSheet.selectedCategory := "All";
     MasterSheet.selectedEducation := "All"; MasterSheet.sortConfig := None |}.

(** The state of the master sheet with the alliance facet alone set. *)
Definition withAlliance (alliance : string) : MasterSheet.FilterState :=
  {| MasterSheet.searchTerm := EmptyString; MasterSheet.constituencyType := "All";
     MasterSheet.ageRange := "All"; MasterSheet.selectedYear := "All";
     MasterSheet.selectedDistrict := "All";
     MasterSheet.selectedConstituency := "All";
     MasterSheet.selectedParty := "All"; MasterSheet.selectedPosition := "All";
     MasterSheet.selectedGender := "All"; MasterSheet.marginRange := "All";
     MasterSheet.voteShareRange := "All"; MasterSheet.selectedAlliance := alliance;
     MasterSheet.voteCountRange := "All"; MasterSheet.winnersOnly := false;
     MasterSheet.selectedCategory := "All";
     MasterSheet.selectedEducation := "All"; MasterSheet.sortConfig := None |}.

(** The filters of the map with the alliance alone set. *)
Definition mapAlliance (alliance : string) : ConstituencyMap.MapFilter :=
  {| ConstituencyMap.selectedAlliance := alliance;
     ConstituencyMap.selectedParty := "All"; ConstituencyMap.marginRange := "All";
     ConstituencyMap.constituencyType := "All";
     ConstituencyMap.selectedGender := "All";
     ConstituencyMap.selectedDistrict := "All"; ConstituencyMap.searchTerm := EmptyString |}.

(** The value under the sort key is [null] or [undefined]. *)
Definition isMissing (v : jsval) : bool :=
  match v with JUndefined | JNull => true | _ => false end.

Definition isNumber (v : jsval) : bool :=
  match v with JNum _ => true | _ => false end.

(** [a] stands in front of an occurrence of [b] in the list. *)
Inductive before {A : Type} (a b : A) : list A -> Prop :=
| before_here (l : list A) : In b l -> before a b (a :: l)
| before_later (x : A) (l : list A) : before a b l -> before a b (x :: l).

(** The state of the master sheet with the sort alone set. *)
Definition withSort (k : MasterSheet.SortKey) (d : MasterSheet.SortDirection)
  : MasterSheet.FilterState :=
  {| MasterSheet.searchTerm := EmptyString; MasterSheet.constituencyType := "All";
     MasterSheet.ageRange := "All"; MasterSheet.selectedYear := "All";
     MasterSheet.selectedDistrict := "All";
     MasterSheet.selectedConstituency := "All";
     MasterSheet.selectedParty := "All"; MasterSheet.selectedPosition := "All";
     MasterSheet.selectedGender := "All"; MasterSheet.marginRange := "All";
     MasterSheet.voteShareRange := "All"; MasterSheet.selectedAlliance := "All";
     MasterSheet.voteCountRange := "All"; MasterSheet.winnersOnly := false;
     MasterSheet.selectedCategory := "All";
     MasterSheet.selectedEducation := "All";
     MasterSheet.sortConfig :=
       Some {| MasterSheet.key := k; MasterSheet.direction := d |} |}.

(** [d] is a row of the constituency of [w] with position 2. *)
Definition ranksSecond (w d : ElectionResult) : Prop :=
  Constituency_Name d = Constituency_Name w
  /\ exists p, Position d = Val p /\ (p == 2)%Q.

(** Chennai in two elections: the winner and the runner-up of 2016, then
    those of 2021. *)
Definition winner2016 : ElectionResult :=
  candidateRow "Chennai" 2016 "ADMK" 1 (Val 61000%Q) (Val 8000%Q) (Val 44%Q).
Definition second2016 : ElectionResult :=
  candidateRow "Chennai" 2016 "DMK" 2 (Val 53000%Q) Null (Val 38%Q).
Definition winner2021 : ElectionResult :=
  candidateRow "Chennai" 2021 "DMK" 1 (Val 70000%Q) (Val 21000%Q) (Val 49%Q).
Definition second2021 : ElectionResult :=
  candidateRow "Chennai" 2021 "ADMK" 2 (Val 49000%Q) Null (Val 34%Q).

(** Two rows, neither of them an incumbent, a turncoat or recontesting. *)
Definition newcomers : list ElectionResult := [chennaiDMK; chennaiADMK].

(** Exactly one of three tests holds. *)
Definition exactlyOne (a b c : bool) : bool :=
  (a && negb b && negb c) || (negb a && b && negb c) || (negb a && negb b && c).

(** No upper-case ASCII letter occurs in the string. *)
Definition isUpperChar (c : ascii) : bool :=
  let n := nat_of_ascii c in (65 <=? n)%nat && (n <=? 90)%nat.

Fixpoint noUpper (s : string) : bool :=
  match s with
  | EmptyString => true
  | String c t => negb (isUpperChar c) && noUpper t
  end.

(** The filters of the map with the margin, the type and the gender set,
    and the state of the master sheet with the same three facets and
    winners-only. *)
Definition mapFacets (margin type gender : string) : ConstituencyMap.MapFilter :=
  {| ConstituencyMap.selectedAlliance := "All";
     ConstituencyMap.selectedParty := "All"; ConstituencyMap.marginRange := margin;
     ConstituencyMap.constituencyType := type;
     ConstituencyMap.selectedGender := gender;
     ConstituencyMap.selectedDistrict := "All";
     ConstituencyMap.searchTerm := EmptyString |}.

Definition sheetFacets (margin type gender : string) : MasterSheet.FilterState :=
  {| MasterSheet.searchTerm := EmptyString; MasterSheet.constituencyType := type;
     MasterSheet.ageRange := "All"; MasterSheet.selectedYear := "All";
     MasterSheet.selectedDistrict := "All";
     MasterSheet.selectedConstituency := "All";
     MasterSheet.selectedParty := "All"; MasterSheet.selectedPosition := "All";
     MasterSheet.selectedGender := gender; MasterSheet.marginRange := margin;
     MasterSheet.voteShareRange := "All"; MasterSheet.selectedAlliance := "All";
     MasterSheet.voteCountRange := "All"; MasterSheet.winnersOnly := true;
     MasterSheet.selectedCategory := "All";
     MasterSheet.selectedEducation := "All"; MasterSheet.sortConfig := None |}.

(** A feature of the map named [n] whose identifier property is [id]. *)
Definition featureWithId (n : string) (other : nullable string) (id : Q)
    (id' : nullable Q) : ConstituencyMap.Feature :=
  {| ConstituencyMap.AC_NAME := Val n; ConstituencyMap.ac_name := other;
     ConstituencyMap.AC_NO := Val id; ConstituencyMap.ac_no := id' |}.

(** The pages of the table, from the first to the last. *)
Definition pagesOf (rows : list ElectionResult) : list (list ElectionResult) :=
  map (fun p => MasterSheet.currentData (Z.of_nat p) rows)
      (seq 1 (Z.to_nat (MasterSheet.totalPages rows))).

(** A state of the master sheet given by the facets that are read in the
    properties below; every other facet is unset. *)
Definition sheetState (search district constituency position category : string)
    (winners : bool) : MasterSheet.FilterState :=
  {| MasterSheet.searchTerm := search; MasterSheet.constituencyType := "All";
     MasterSheet.ageRange := "All"; MasterSheet.selectedYear := "All";
     MasterSheet.selectedDistrict := district;
     MasterSheet.selectedConstituency := constituency;
     MasterSheet.selectedParty := "All"; MasterSheet.selectedPosition := position;
     MasterSheet.selectedGender := "All"; MasterSheet.marginRange := "All";
     MasterSheet.voteShareRange := "All"; MasterSheet.selectedAlliance := "All";
     MasterSheet.voteCountRange := "All"; MasterSheet.winnersOnly := winners;
     MasterSheet.selectedCategory := category;
     MasterSheet.selectedEducation := "All"; MasterSheet.sortConfig := None |}.

(** Twenty-five rows of one constituency, for the pages of the table. *)
Definition manyRows : list ElectionResult :=
  map (fun i => candidateRow "Chennai" 2021 "IND" (inject_Z (Z.of_nat i))
                  (Val 100%Q) Null (Val 1%Q)) (seq 1 25).

(** A row of a district and a constituency. *)
Definition placedRow (district constituency : string) : ElectionResult :=
  {| Year := 2021; Position := Val 1%Q; Candidate := Val "A. Kumar";
     Sex := Val "M"; Party := Val "DMK"; Votes := Val 50000%Q; Age := Val 51%Q;
     Electors := Undefined; Constituency_Name := constituency;
     Constituency_Type := Val "GEN"; District_Name := Val district;
     Sub_Region := Undefined; N_Cand := Undefined;
     Turnout_Percentage := Undefined; Vote_Share_Percentage := Val 45%Q;
     Deposit_Lost := Undefined; Margin := Val 12000%Q;
     Margin_Percentage := Undefined; Contested := Undefined;
     No_Terms := Undefined; Turncoat := JBool false; Incumbent := JBool true;
     Recontest := JBool true; MyNeta_education := Val "Graduate";
     TCPD_Prof_Main := Undefined; Constituency_Name_TA := Undefined;
     District_Name_TA := Undefined; Party_TA := Undefined;
     MyNeta_education_TA := Undefined |}.

(** An incumbent of Chennai at a position of the result. *)
Definition incumbentRow (position : Q) : ElectionResult :=
  {| Year := 2021; Position := Val position; Candidate := Undefined;
     Sex := Undefined; Party := Val "DMK"; Votes := Undefined; Age := Undefined;
     Electors := Undefined; Constituency_Name := "Chennai";
     Constituency_Type := Undefined; District_Name := Undefined;
     Sub_Region := Undefined; N_Cand := Undefined;
     Turnout_Percentage := Undefined; Vote_Share_Percentage := Undefined;
     Deposit_Lost := Undefined; Margin := Undefined;
     Margin_Percentage := Undefined; Contested := Undefined;
     No_Terms := Undefined; Turncoat := JBool false; Incumbent := JBool true;
     Recontest := JBool false; MyNeta_education := Undefined;
     TCPD_Prof_Main := Undefined; Constituency_Name_TA := Undefined;
     District_Name_TA := Undefined; Party_TA := Undefined;
     MyNeta_education_TA := Undefined |}.

(** Forty incumbents of whom twenty-three won. *)
Definition fortyIncumbents : list ElectionResult :=
  repeat (incumbentRow 1) 23 ++ repeat (incumbentRow 2) 17.

(** The number of rows that pass a test. *)
Definition countRows (p : ElectionResult -> bool) (data : list ElectionResult) : nat :=
  List.length (List.filter p data).

(** The row is a winner: [Position === 1]. *)
Definition won (d : ElectionResult) : bool := strictEqNum (Position d) 1.

(** The exact percentage of [w] in [n]. *)
Definition exactPercent (w n : nat) : Q :=
  (100 * inject_Z (Z.of_nat w) / inject_Z (Z.of_nat n))%Q.

(** Wins and totals of at most 400 rows whose exact percentage ends in
    one half, and whose quotient or product is rounded down as a double. *)
Definition halfwayRates : list (nat * nat) :=
  [ (23, 40); (46, 80); (69, 120); (92, 160); (29, 200); (57, 200); (113, 200);
    (115, 200); (138, 240); (161, 280); (184, 320); (207, 360); (58, 400);
    (114, 400); (226, 400); (230, 400) ]%nat.

(** The locale comparison is a consistent comparator, as the language
    requires of the function given to [sort] for the order of the result
    to be defined: [s] is after [t] exactly when [t] is before [s], and
    being not after is transitive. *)
Definition consistentCollation `{JsRuntime} : Prop :=
  (forall s t, (0 < localeCompare s t)%Z <-> (localeCompare t s < 0)%Z)
  /\ (forall s t u, (localeCompare s t <= 0)%Z -> (localeCompare t u <= 0)%Z ->
                    (localeCompare s u <= 0)%Z).

(** Under the key, the rows without a value are all [null] or all
    [undefined]. *)
Definition oneMissingKind (k : MasterSheet.SortKey) (rows : list ElectionResult) : Prop :=
  Forall (fun r => MasterSheet.getField k r <> JNull) rows
  \/ Forall (fun r => MasterSheet.getField k r <> JUndefined) rows.

(** Two rows without a margin: an empty cell, and no cell at all. *)
Definition nullMarginRow : ElectionResult :=
  candidateRow "Chennai" 2021 "DMK" 1 (Val 70000%Q) Null (Val 49%Q).
Definition undefinedMarginRow : ElectionResult :=
  candidateRow "Salem" 2021 "ADMK" 1 (Val 61000%Q) Undefined (Val 44%Q).

(** The members that every plain object inherits from [Object.prototype]:
    a table written as an object literal answers a lookup of one of these
    names with the inherited member, where it has no key of its own. *)
Definition objectPrototypeKeys : list string :=
  ["constructor"; "__defineGetter__"; "__defineSetter__"; "hasOwnProperty";
   "__lookupGetter__"; "__lookupSetter__"; "isPrototypeOf";
   "propertyIsEnumerable"; "toString"; "valueOf"; "__proto__";
   "toLocaleString"].

Definition inherited (k : string) : bool :=
  existsb (String.eqb k) objectPrototypeKeys.

(** The name of a feature as it is looked up in the alias table. *)
Definition lookupKey (feature : ConstituencyMap.Feature) : string :=
  match orStr (ConstituencyMap.AC_NAME feature) (ConstituencyMap.ac_name feature) with
  | Val name =>
      trim (removeAll "(sc" (removeAll "(st)" (removeAll "(sc)" (toLowerCase name))))
  | _ => EmptyString
  end.

(** The string holds ASCII characters only. *)
Fixpoint isAscii (s : string) : bool :=
  match s with
  | EmptyString => true
  | String c t => (nat_of_ascii c <? 128)%nat && isAscii t
  end.

(** The term occurs in one of the four base fields the search reads, and
    that field is in ASCII. *)
Definition occursInAscii (term : string) (r : ElectionResult) : Prop :=
  exists s, isAscii s = true /\ includes term s = true
            /\ (Constituency_Name r = s \/ Candidate r = Val s
                \/ Party r = Val s \/ District_Name r = Val s).

(** * Properties *)

Open Scope list_scope.

(** ** Numbers and lists *)

Lemma Qlt_bool_iff (x y : Q) : Qlt_bool x y = true <-> (x < y)%Q.
Proof.
  unfold Qlt_bool. rewrite negb_true_iff. split.
  - intros Hb. apply Qnot_le_lt. intros Hle.
    apply Qle_bool_iff in Hle. congruence.
  - intros Hlt. destruct (Qle_bool y x) eqn:E; [|reflexivity].
    apply Qle_bool_iff in E. exfalso. exact (Qlt_not_le _ _ Hlt E).
Qed.

Lemma Qle_bool_false (x y : Q) : Qle_bool x y = false -> (y < x)%Q.
Proof.
  intros Hb. apply Qnot_le_lt. intros Hle. apply Qle_bool_iff in Hle. congruence.
Qed.

Lemma Qlt_bool_false (x y : Q) : Qlt_bool x y = false -> (y <= x)%Q.
Proof.
  intros Hb. apply Qnot_lt_le. intros Hlt. apply Qlt_bool_iff in Hlt. congruence.
Qed.

Lemma truthyNum_zero (q : Q) : (q == 0)%Q -> truthyNum (Val q) = false.
Proof.
  intros Hq. unfold truthyNum. apply negb_false_iff.
  now apply Qeq_bool_iff.
Qed.

Lemma truthyNum_nonzero (q : Q) : ~ (q == 0)%Q -> truthyNum (Val q) = true.
Proof.
  intros Hq. unfold truthyNum. apply negb_true_iff.
  destruct (Qeq_bool q 0) eqn:E; [|reflexivity].
  apply Qeq_bool_iff in E. contradiction.
Qed.

Lemma filter_filter {A : Type} (p q : A -> bool) (l : list A) :
  List.filter p (List.filter q l) = List.filter (fun x => q x && p x) l.
Proof.
  induction l as [|a l IH]; [reflexivity|].
  cbn [List.filter]. destruct (q a); cbn [List.filter andb].
  - destruct (p a); now rewrite IH.
  - exact IH.
Qed.

Lemma filter_comm {A : Type} (p q : A -> bool) (l : list A) :
  List.filter p (List.filter q l) = List.filter q (List.filter p l).
Proof.
  rewrite !filter_filter. apply List.filter_ext. intros a. apply andb_comm.
Qed.

Lemma filter_true {A : Type} (l : list A) : List.filter (fun _ => true) l = l.
Proof. induction l as [|a l IH]; [reflexivity|]. cbn. now rewrite IH. Qed.

(** ** The Chennai scenario *)

Section EndToEnd.
Context `{JsRuntime}.
Variable partyTranslations : gmap string string.

Lemma processedData_margin_only (bucket : string) (data : list ElectionResult) :
  MasterSheet.processedData (withMargin bucket) data
  = MasterSheet.stepMargin (withMargin bucket) data.
Proof. reflexivity. Qed.

(** C1.  A dataset of two rows for "Chennai", the DMK row with position
    1, margin 12000 and 50000 votes and the ADMK row with position 2
    and 38000 votes: the feature "Chennai (SC)" of the map, whatever its
    identifier, is joined to the DMK row as winner and the ADMK row as
    runner-up; the query with the margin facet at "Medium" keeps the DMK
    row; and the seats per party counted on the rows of that query give
    DMK one seat. *)
Theorem chennai_end_to_end (dmk admk : ElectionResult) (id : nullable Q) :
  Constituency_Name dmk = "Chennai" -> Party dmk = Val "DMK" ->
  Position dmk = Val 1%Q -> Margin dmk = Val 12000%Q -> Votes dmk = Val 50000%Q ->
  Constituency_Name admk = "Chennai" -> Party admk = Val "ADMK" ->
  Position admk = Val 2%Q -> Votes admk = Val 38000%Q ->
  let data := [dmk; admk] in
  let subset := MasterSheet.processedData (withMargin "Medium") data in
  ConstituencyMap.dataObj ConstituencyMap.noFilter data (featureNamed "Chennai (SC)" id)
    = Some {| ConstituencyMap.winner := dmk; ConstituencyMap.runnerUp := Some admk |}
  /\ In dmk subset
  /\ Dashboard.seatCount partyTranslations "DMK" subset = 1%nat.
Proof.
  intros Hn1 Hp1 Hpos1 Hm1 Hv1 Hn2 Hp2 Hpos2 Hv2 data subset.
  assert (Hsub : exists rest, subset = dmk :: rest /\ (rest = [] \/ rest = [admk])).
  { subst subset. rewrite processedData_margin_only.
    unfold MasterSheet.stepMargin, data.
    cbn [MasterSheet.marginRange withMargin MasterSheet.isAll String.eqb Ascii.eqb
         Bool.eqb negb List.filter].
    assert (Hd : MasterSheet.marginMatch "Medium" dmk = true).
    { unfold MasterSheet.marginMatch. rewrite Hm1. reflexivity. }
    rewrite Hd.
    destruct (MasterSheet.marginMatch "Medium" admk); eauto. }
  split; [|split].
  - unfold ConstituencyMap.dataObj, ConstituencyMap.resultsMap.
    assert (Hf : ConstituencyMap.filteredData ConstituencyMap.noFilter data = [dmk]).
    { unfold ConstituencyMap.filteredData, data. cbn.
      rewrite Hpos1, Hpos2. reflexivity. }
    rewrite Hf. cbn [fold_left].
    assert (Hk : ConstituencyMap.normalizedName dmk = "chennai").
    { unfold ConstituencyMap.normalizedName. rewrite Hn1. reflexivity. }
    assert (Hr : ConstituencyMap.findRunnerUp data dmk = Some admk).
    { unfold ConstituencyMap.findRunnerUp, data. cbn [List.find].
      rewrite Hn1, Hn2, Hpos1, Hpos2. reflexivity. }
    rewrite Hk, Hr.
    replace (ConstituencyMap.getNormalizedName (featureNamed "Chennai (SC)" id))
      with "chennai" by (vm_compute; reflexivity).
    apply lookup_insert_eq.
  - destruct Hsub as (rest & -> & _). now left.
  - destruct Hsub as (rest & -> & Hrest).
    assert (Hw : Dashboard.winners (dmk :: rest) = [dmk]).
    { unfold Dashboard.winners. cbn [List.filter]. rewrite Hpos1.
      destruct Hrest as [-> | ->]; cbn [List.filter]; [reflexivity|].
      rewrite Hpos2. reflexivity. }
    unfold Dashboard.seatCount, Dashboard.partyWins. rewrite Hw.
    cbn [map]. rewrite Hp1. cbn.
    reflexivity.
Qed.
End EndToEnd.

(** C1, on the two rows with every other cell absent. *)
Lemma chennai_end_to_end_witness :
  ConstituencyMap.dataObj ConstituencyMap.noFilter [chennaiDMK; chennaiADMK]
    (featureNamed "Chennai (SC)" (Val 17%Q))
  = Some {| ConstituencyMap.winner := chennaiDMK;
            ConstituencyMap.runnerUp := Some chennaiADMK |}
  /\ In chennaiDMK
       (@MasterSheet.processedData plainRuntime (withMargin "Medium")
          [chennaiDMK; chennaiADMK])
  /\ Dashboard.seatCount ∅ "DMK"
       (@MasterSheet.processedData plainRuntime (withMargin "Medium")
          [chennaiDMK; chennaiADMK]) = 1%nat.
Proof.
  apply (@chennai_end_to_end plainRuntime ∅ chennaiDMK chennaiADMK (Val 17%Q));
    reflexivity.
Defined.

(** ** The name normaliser *)

(** C7.  "Chennai (SC)", "Chennai(SC" and "chennai (st)" all normalise to
    the key "chennai", whichever property carries the name and whatever
    the identifier of the feature. *)
Theorem reservation_annotation_stripped (id id' : nullable Q) (other : nullable string) :
  let upper n := {| ConstituencyMap.AC_NAME := Val n; ConstituencyMap.ac_name := other;
                    ConstituencyMap.AC_NO := id; ConstituencyMap.ac_no := id' |} in
  let lower n := {| ConstituencyMap.AC_NAME := Undefined; ConstituencyMap.ac_name := Val n;
                    ConstituencyMap.AC_NO := id; ConstituencyMap.ac_no := id' |} in
  ConstituencyMap.getNormalizedName (upper "Chennai (SC)") = "chennai" /\
  ConstituencyMap.getNormalizedName (upper "Chennai(SC") = "chennai" /\
  ConstituencyMap.getNormalizedName (upper "chennai (st)") = "chennai" /\
  ConstituencyMap.getNormalizedName (lower "Chennai (SC)") = "chennai" /\
  ConstituencyMap.getNormalizedName (lower "Chennai(SC") = "chennai" /\
  ConstituencyMap.getNormalizedName (lower "chennai (st)") = "chennai".
Proof.
  intros upper lower. repeat split; vm_compute; reflexivity.
Qed.

(** ** The stable sort *)

Section SortFacts.
Context {A : Type} (cmp : A -> A -> Q).

Lemma sortInsert_split (x : A) (l : list A) :
  exists l1 l2, l = l1 ++ l2 /\ sortInsert cmp x l = l1 ++ x :: l2
                /\ Forall (fun y => (0 < cmp x y)%Q) l1
                /\ match l2 with [] => True | y :: _ => ~ (0 < cmp x y)%Q end.
Proof.
  induction l as [|y t IH]; cbn [sortInsert].
  - exists [], []. repeat split; constructor.
  - destruct (Qlt_bool 0 (cmp x y)) eqn:E.
    + destruct IH as (l1 & l2 & -> & -> & Hall & Hhd).
      exists (y :: l1), l2. repeat split; [|exact Hhd].
      constructor; [now apply Qlt_bool_iff | exact Hall].
    + exists [], (y :: t). repeat split; [constructor|].
      intros Hlt. apply Qlt_bool_iff in Hlt. congruence.
Qed.

Lemma sortInsert_perm (x : A) (l : list A) : Permutation (sortInsert cmp x l) (x :: l).
Proof.
  destruct (sortInsert_split x l) as (l1 & l2 & -> & -> & _).
  symmetry. apply Permutation_middle.
Qed.

Lemma jsSort_In_insert (x : A) (l : list A) (y : A) :
  In y (sortInsert cmp x l) <-> In y (x :: l).
Proof.
  split; apply Permutation_in; [|symmetry]; apply sortInsert_perm.
Qed.

Lemma jsSort_perm (l : list A) : Permutation (jsSort cmp l) l.
Proof.
  induction l as [|x t IH]; cbn [jsSort]; [constructor|].
  rewrite sortInsert_perm. now constructor.
Qed.

Lemma jsSort_In (l : list A) (x : A) : In x (jsSort cmp l) <-> In x l.
Proof.
  split; apply Permutation_in; [|symmetry]; apply jsSort_perm.
Qed.
End SortFacts.

(** ** The query as one filter *)

Section Pipeline.
Context `{JsRuntime}.
Import MasterSheet.

Lemma whenSet_filter (set : bool) (p : ElectionResult -> bool) (l : list ElectionResult) :
  (if set then List.filter p l else l) = List.filter (whenSet set p) l.
Proof.
  unfold whenSet. destruct set; [reflexivity|].
  symmetry. apply filter_true.
Qed.

(** Every facet statement is the filter of its predicate. *)
Lemma facetSteps_filters (S : FilterState) :
  Forall2 (fun step p => forall l, step l = List.filter p l)
          (facetSteps S) (facetPredicates S).
Proof.
  unfold facetSteps, facetPredicates.
  repeat (constructor; [intros l; try (apply whenSet_filter)|]);
    [|constructor].
  unfold stepPosition. rewrite <- whenSet_filter.
  destruct (negb (isAll (selectedPosition S))); [|reflexivity].
  destruct (String.eqb (selectedPosition S) "DepositLost"); reflexivity.
Qed.

Lemma runSteps_filters steps preds :
  Forall2 (fun step p => forall l, step l = List.filter p l) steps preds ->
  forall l, runSteps steps l = List.filter (fun x => forallb (fun p => p x) preds) l.
Proof.
  induction 1 as [|step p steps preds Hstep _ IH]; intros l; cbn [runSteps fold_left forallb].
  - symmetry. apply filter_true.
  - fold (runSteps steps (step l)). rewrite IH, Hstep. apply filter_filter.
Qed.

Lemma processedData_steps (S : FilterState) (data : list ElectionResult) :
  processedData S data = stepSort S (runSteps (facetSteps S) data).
Proof. reflexivity. Qed.

Lemma processedData_filter (S : FilterState) (data : list ElectionResult) :
  processedData S data = stepSort S (List.filter (passes S) data).
Proof.
  rewrite processedData_steps.
  now rewrite (runSteps_filters _ _ (facetSteps_filters S)).
Qed.

Lemma stepSort_perm (S : FilterState) (l : list ElectionResult) :
  Permutation (stepSort S l) l.
Proof.
  unfold stepSort. destruct (sortConfig S); [apply jsSort_perm | reflexivity].
Qed.

(** The rows of the query are the rows of the data that pass every
    facet. *)
Lemma processedData_In (S : FilterState) (data : list ElectionResult) (r : ElectionResult) :
  In r (processedData S data) <-> In r data /\ passes S r = true.
Proof.
  rewrite processedData_filter, <- List.filter_In.
  split; apply Permutation_in; [|symmetry]; apply stepSort_perm.
Qed.
End Pipeline.

(** ** Composition of the facets *)

Section Composition.
Context `{JsRuntime}.
Import MasterSheet.

Lemma facetSteps_isFilter (S : FilterState) : Forall isFilter (facetSteps S).
Proof.
  pose proof (facetSteps_filters S) as HF.
  induction HF as [|step p steps preds Hstep _ IH]; constructor; [|exact IH].
  now exists p.
Qed.

Lemma isFilter_comm f g : isFilter f -> isFilter g -> forall l, f (g l) = g (f l).
Proof.
  intros [p Hp] [q Hq] l. rewrite Hp, Hq, Hp, Hq. apply filter_comm.
Qed.

Lemma runSteps_perm steps steps' :
  Permutation steps steps' -> Forall isFilter steps ->
  forall l, runSteps steps l = runSteps steps' l.
Proof.
  induction 1 as [|f s s' _ IH|f g s|s1 s2 s3 H12 IH12 H23 IH23]; intros Hall l.
  - reflexivity.
  - cbn [runSteps fold_left]. apply IH. now inversion Hall.
  - cbn [runSteps fold_left]. f_equal.
    inversion Hall as [|? ? Hg Hrest]; subst.
    inversion Hrest as [|? ? Hf _]; subst.
    now apply isFilter_comm.
  - rewrite IH12 by exact Hall. apply IH23.
    eapply Permutation_Forall; eassumption.
Qed.

(** C4.  Every row of the query is a row of the data; any two facet
    statements, of the same state or of two states, commute on every
    list of rows; and running the facet statements in any order before
    the sort gives the rows of the query. *)
Theorem filter_engine_composition :
  (forall S R r, In r (processedData S R) -> In r R)
  /\ (forall S1 S2 f g, In f (facetSteps S1) -> In g (facetSteps S2) ->
        forall l, f (g l) = g (f l))
  /\ (forall S steps, Permutation steps (facetSteps S) ->
        forall R, stepSort S (runSteps steps R) = processedData S R).
Proof.
  split; [|split].
  - intros S R r Hin. now apply processedData_In in Hin.
  - intros S1 S2 f g Hf Hg l.
    apply isFilter_comm.
    + exact (proj1 (List.Forall_forall _ _) (facetSteps_isFilter S1) f Hf).
    + exact (proj1 (List.Forall_forall _ _) (facetSteps_isFilter S2) g Hg).
  - intros S steps Hperm R. rewrite processedData_steps. f_equal.
    symmetry. apply runSteps_perm; [now symmetry | apply facetSteps_isFilter].
Qed.
End Composition.

(** C4 on the Chennai rows: the DMK row of the "Medium" query is a row of
    the data, and the margin and alliance facets commute. *)
Lemma filter_engine_composition_witness :
  In chennaiDMK [chennaiDMK; chennaiADMK]
  /\ MasterSheet.stepMargin (withMargin "Medium")
       (MasterSheet.stepAlliance (withMargin "Low") [chennaiDMK; chennaiADMK])
     = MasterSheet.stepAlliance (withMargin "Low")
         (MasterSheet.stepMargin (withMargin "Medium") [chennaiDMK; chennaiADMK]).
Proof.
  destruct (@filter_engine_composition plainRuntime) as (Hsub & Hcomm & _).
  split.
  - apply (Hsub (withMargin "Medium") [chennaiDMK; chennaiADMK] chennaiDMK).
    vm_compute. left. reflexivity.
  - apply (Hcomm (withMargin "Medium") (withMargin "Low")).
    + do 9 right. left. reflexivity.
    + do 11 right. left. reflexivity.
Defined.

(** ** Range facets *)

Section Buckets.
Import MasterSheet.

Lemma stepMargin_In (S : FilterState) (l : list ElectionResult) (r : ElectionResult) :
  marginRange S <> "All" ->
  (In r (stepMargin S l) <-> In r l /\ marginMatch (marginRange S) r = true).
Proof.
  intros Hset. unfold stepMargin, isAll.
  destruct (String.eqb_spec (marginRange S) "All") as [E|_]; [contradiction|].
  cbn [negb]. apply List.filter_In.
Qed.

Lemma stepVoteShare_In (S : FilterState) (l : list ElectionResult) (r : ElectionResult) :
  voteShareRange S <> "All" ->
  (In r (stepVoteShare S l) <-> In r l /\ voteShareMatch (voteShareRange S) r = true).
Proof.
  intros Hset. unfold stepVoteShare, isAll.
  destruct (String.eqb_spec (voteShareRange S) "All") as [E|_]; [contradiction|].
  cbn [negb]. apply List.filter_In.
Qed.

Lemma marginMatch_falsy (bucket : string) (r : ElectionResult) :
  truthyNum (Margin r) = false -> marginMatch bucket r = false.
Proof. intros Hf. unfold marginMatch. now rewrite Hf. Qed.

Lemma voteShareMatch_falsy (bucket : string) (r : ElectionResult) :
  truthyNum (Vote_Share_Percentage r) = false -> voteShareMatch bucket r = false.
Proof. intros Hf. unfold voteShareMatch. now rewrite Hf. Qed.

Lemma marginMatch_value (r : ElectionResult) (q : Q) :
  Margin r = Val q -> ~ (q == 0)%Q ->
  (marginMatch "High" r = true <-> (50000 < q)%Q) /\
  (marginMatch "Medium" r = true <-> (10000 <= q)%Q /\ (q <= 50000)%Q) /\
  (marginMatch "Low" r = true <-> (q < 10000)%Q).
Proof.
  intros Hm Hnz. unfold marginMatch. rewrite Hm, (truthyNum_nonzero q Hnz).
  cbn [negb String.eqb Ascii.eqb Bool.eqb jsGt jsGe jsLe jsLt toNumber].
  rewrite andb_true_iff, !Qlt_bool_iff, !Qle_bool_iff. tauto.
Qed.

(** C2, as the code has it.  With the margin facet set, the rows kept are
    the rows whose margin matches the bucket.  For a row whose margin is
    a number other than 0, "High" is a margin above 50000, "Medium" a
    margin from 10000 to 50000, both included, and "Low" a margin below
    10000; so 50000 and 10000 are "Medium", 9999 is "Low" and 50001 is
    "High".  A row whose margin is absent, or is the number 0, matches
    no bucket. *)
Theorem margin_bucket_predicate (S : FilterState) (l : list ElectionResult)
    (r : ElectionResult) :
  marginRange S <> "All" ->
  (In r (stepMargin S l) <-> In r l /\ marginMatch (marginRange S) r = true)
  /\ (forall q, Margin r = Val q -> ~ (q == 0)%Q ->
        (marginMatch "High" r = true <-> (50000 < q)%Q) /\
        (marginMatch "Medium" r = true <-> (10000 <= q)%Q /\ (q <= 50000)%Q) /\
        (marginMatch "Low" r = true <-> (q < 10000)%Q))
  /\ (Margin r = Undefined \/ Margin r = Null \/
      (exists q, Margin r = Val q /\ (q == 0)%Q) ->
      marginMatch (marginRange S) r = false /\ ~ In r (stepMargin S l))
  /\ (marginMatch "Medium" (rowWithMargin 50000) = true /\
      marginMatch "High" (rowWithMargin 50000) = false /\
      marginMatch "Medium" (rowWithMargin 10000) = true /\
      marginMatch "Low" (rowWithMargin 10000) = false /\
      marginMatch "Low" (rowWithMargin 9999) = true /\
      marginMatch "Medium" (rowWithMargin 9999) = false /\
      marginMatch "High" (rowWithMargin 50001) = true /\
      marginMatch "Medium" (rowWithMargin 50001) = false).
Proof.
  intros Hset. split; [|split; [|split]].
  - now apply stepMargin_In.
  - intros q. apply marginMatch_value.
  - intros Habs.
    assert (Hf : truthyNum (Margin r) = false).
    { destruct Habs as [-> | [-> | (q & -> & Hq)]]; [reflexivity..|].
      now apply truthyNum_zero. }
    pose proof (marginMatch_falsy (marginRange S) r Hf) as Hno.
    split; [exact Hno|].
    intros Hin. apply (stepMargin_In S l r Hset) in Hin. destruct Hin as [_ Hin].
    congruence.
  - repeat split; vm_compute; reflexivity.
Qed.
End Buckets.

(** C2 on the row of margin 12000 under the "Medium" facet. *)
Lemma margin_bucket_predicate_witness :
  MasterSheet.marginRange (withMargin "Medium") <> "All"
  /\ (In (rowWithMargin 12000)
         (MasterSheet.stepMargin (withMargin "Medium") [rowWithMargin 12000])
      <-> In (rowWithMargin 12000) [rowWithMargin 12000]
          /\ MasterSheet.marginMatch "Medium" (rowWithMargin 12000) = true).
Proof.
  assert (Hset : MasterSheet.marginRange (withMargin "Medium") <> "All")
    by (cbn; discriminate).
  split; [exact Hset|].
  exact (proj1 (margin_bucket_predicate (withMargin "Medium")
                  [rowWithMargin 12000] (rowWithMargin 12000) Hset)).
Defined.

(** The claim of C2 for the "Low" bucket fails on a margin of 0: the margin
    is below 10000 and the row does not match. *)
Lemma margin_zero_not_low :
  Margin zeroMarginRow = Val 0%Q
  /\ ~ (MasterSheet.marginMatch "Low" zeroMarginRow = true <-> (0 < 10000)%Q)
  /\ MasterSheet.stepMargin (withMargin "Low") [zeroMarginRow] = [].
Proof.
  split; [reflexivity|]. split; [|reflexivity].
  intros [_ Hlow]. specialize (Hlow eq_refl). vm_compute in Hlow. discriminate.
Qed.

Section ZeroValues.
Context `{JsRuntime}.
Import MasterSheet.

Lemma passes_margin (S : FilterState) (r : ElectionResult) :
  passes S r = true -> marginRange S <> "All" -> marginMatch (marginRange S) r = true.
Proof.
  intros Hp Hset. unfold passes in Hp. rewrite forallb_forall in Hp.
  assert (Hw : whenSet (negb (isAll (marginRange S)))
                       (marginMatch (marginRange S)) r = true).
  { apply (Hp (whenSet (negb (isAll (marginRange S))) (marginMatch (marginRange S)))).
    unfold facetPredicates. do 9 right. left. reflexivity. }
  unfold whenSet, isAll in Hw.
  destruct (String.eqb_spec (marginRange S) "All") as [E|_]; [contradiction|].
  exact Hw.
Qed.

Lemma passes_voteShare (S : FilterState) (r : ElectionResult) :
  passes S r = true -> voteShareRange S <> "All" ->
  voteShareMatch (voteShareRange S) r = true.
Proof.
  intros Hp Hset. unfold passes in Hp. rewrite forallb_forall in Hp.
  assert (Hw : whenSet (negb (isAll (voteShareRange S)))
                       (voteShareMatch (voteShareRange S)) r = true).
  { apply (Hp (whenSet (negb (isAll (voteShareRange S)))
                       (voteShareMatch (voteShareRange S)))).
    unfold facetPredicates. do 10 right. left. reflexivity. }
  unfold whenSet, isAll in Hw.
  destruct (String.eqb_spec (voteShareRange S) "All") as [E|_]; [contradiction|].
  exact Hw.
Qed.

(** C9.  A row whose margin is the number 0 is dropped by the margin
    facet whatever bucket is set, "Low" included, and so is no row of
    the query; the same holds of a vote share of 0 and the vote-share
    facet. *)
Theorem zero_value_excluded (S : FilterState) (data : list ElectionResult)
    (r : ElectionResult) (q : Q) :
  (q == 0)%Q ->
  (Margin r = Val q -> marginRange S <> "All" ->
     marginMatch (marginRange S) r = false
     /\ ~ In r (stepMargin S data) /\ ~ In r (processedData S data))
  /\ (Vote_Share_Percentage r = Val q -> voteShareRange S <> "All" ->
     voteShareMatch (voteShareRange S) r = false
     /\ ~ In r (stepVoteShare S data) /\ ~ In r (processedData S data)).
Proof.
  intros Hq. split.
  - intros Hm Hset.
    assert (Hno : marginMatch (marginRange S) r = false).
    { apply marginMatch_falsy. rewrite Hm. now apply truthyNum_zero. }
    split; [exact Hno|]. split.
    + intros Hin. apply (stepMargin_In S data r Hset) in Hin.
      destruct Hin as [_ Hin]. congruence.
    + intros Hin. apply processedData_In in Hin. destruct Hin as [_ Hp].
      pose proof (passes_margin S r Hp Hset). congruence.
  - intros Hs Hset.
    assert (Hno : voteShareMatch (voteShareRange S) r = false).
    { apply voteShareMatch_falsy. rewrite Hs. now apply truthyNum_zero. }
    split; [exact Hno|]. split.
    + intros Hin. apply (stepVoteShare_In S data r Hset) in Hin.
      destruct Hin as [_ Hin]. congruence.
    + intros Hin. apply processedData_In in Hin. destruct Hin as [_ Hp].
      pose proof (passes_voteShare S r Hp Hset). congruence.
Qed.
End ZeroValues.

(** C9 on a margin of 0 under the "Low" facet. *)
Lemma zero_value_excluded_witness :
  (0 == 0)%Q /\ Margin zeroMarginRow = Val 0%Q
  /\ MasterSheet.marginRange (withMargin "Low") <> "All"
  /\ MasterSheet.marginMatch "Low" zeroMarginRow = false
  /\ ~ In zeroMarginRow
       (@MasterSheet.processedData plainRuntime (withMargin "Low") [zeroMarginRow]).
Proof.
  assert (Hq : (0 == 0)%Q) by reflexivity.
  assert (Hset : MasterSheet.marginRange (withMargin "Low") <> "All")
    by (cbn; discriminate).
  destruct (@zero_value_excluded plainRuntime (withMargin "Low") [zeroMarginRow]
              zeroMarginRow 0%Q Hq) as [Hmargin _].
  destruct (Hmargin eq_refl Hset) as (Hno & _ & Hout).
  split; [exact Hq|]. split; [reflexivity|]. split; [exact Hset|].
  split; [exact Hno | exact Hout].
Defined.

(** ** The deposit-lost facet *)

Section DepositLost.
Import MasterSheet.

Lemma depositLostMatch_spec (r : ElectionResult) :
  depositLostMatch r = true <->
  exists q, toNumber (Vote_Share_Percentage r) = Some q /\ (q < 16.66)%Q.
Proof.
  unfold depositLostMatch, jsLt.
  destruct (toNumber (Vote_Share_Percentage r)) as [q|].
  - rewrite Qlt_bool_iff. split.
    + intros Hlt. now exists q.
    + intros (q' & [= <-] & Hlt). exact Hlt.
  - split; [discriminate|]. intros (q & [=] & _).
Qed.

(** C5.  With the position facet at "DepositLost", the rows kept are the
    rows whose vote share, as a number, is below 16.66 (an empty cell
    counts as 0, a missing one as no number): a row of share [q] is kept
    exactly when [q < 16.66], so 16.65 is kept and 16.66 is not; and the
    test reads the vote share alone, never the position. *)
Theorem deposit_lost_filter (S : FilterState) (l : list ElectionResult) :
  selectedPosition S = "DepositLost" ->
  stepPosition S l = List.filter depositLostMatch l
  /\ (forall r, In r (stepPosition S l) <->
        In r l /\ exists q, toNumber (Vote_Share_Percentage r) = Some q /\ (q < 16.66)%Q)
  /\ (forall r q, Vote_Share_Percentage r = Val q ->
        (In r (stepPosition S l) <-> In r l /\ (q < 16.66)%Q))
  /\ (forall r r', Vote_Share_Percentage r = Vote_Share_Percentage r' ->
        depositLostMatch r = depositLostMatch r')
  /\ depositLostMatch (rowWithShare 16.65) = true
  /\ depositLostMatch (rowWithShare 16.66) = false.
Proof.
  intros Hsel.
  assert (Hstep : stepPosition S l = List.filter depositLostMatch l).
  { unfold stepPosition. rewrite Hsel. reflexivity. }
  split; [exact Hstep|]. rewrite Hstep.
  split; [|split; [|split; [|split]]].
  - intros r. now rewrite List.filter_In, depositLostMatch_spec.
  - intros r q Hq. rewrite List.filter_In, depositLostMatch_spec, Hq.
    cbn [toNumber]. split.
    + intros (Hin & q' & [= <-] & Hlt). now split.
    + intros (Hin & Hlt). split; [exact Hin|]. now exists q.
  - intros r r' Heq. unfold depositLostMatch. now rewrite Heq.
  - reflexivity.
  - reflexivity.
Qed.
End DepositLost.

(** C5 on the rows of share 16.65 and 16.66. *)
Lemma deposit_lost_filter_witness :
  MasterSheet.selectedPosition (withPosition "DepositLost") = "DepositLost"
  /\ MasterSheet.stepPosition (withPosition "DepositLost")
       [rowWithShare 16.65; rowWithShare 16.66]
     = List.filter MasterSheet.depositLostMatch [rowWithShare 16.65; rowWithShare 16.66].
Proof.
  split; [reflexivity|].
  exact (proj1 (deposit_lost_filter (withPosition "DepositLost")
                  [rowWithShare 16.65; rowWithShare 16.66] eq_refl)).
Defined.

(** ** The alliance tables *)

(** Within each component the three alliance values partition the rows. *)
Lemma master_alliance_partition (r : ElectionResult) :
  exactlyOne (MasterSheet.allianceMatch "DMK+" r)
             (MasterSheet.allianceMatch "ADMK+" r)
             (MasterSheet.allianceMatch "Others" r) = true.
Proof.
  unfold MasterSheet.allianceMatch.
  generalize (if truthyStr (Party r)
              then match Party r with Val p => trim p | _ => EmptyString end else EmptyString).
  intros party.
  cbn [String.eqb Ascii.eqb Bool.eqb].
  unfold MasterSheet.inList, MasterSheet.DMK_ALLIANCE, MasterSheet.ADMK_ALLIANCE,
    MasterSheet.NAMED_ALLIANCES.
  cbn [existsb].
  repeat match goal with
         | |- context [String.eqb party ?s] =>
             destruct (String.eqb_spec party s) as [-> | _]; [reflexivity|]
         end.
  reflexivity.
Qed.

Lemma map_alliance_partition (r : ElectionResult) :
  exactlyOne (ConstituencyMap.allianceMatch "DMK+" r)
             (ConstituencyMap.allianceMatch "ADMK+" r)
             (ConstituencyMap.allianceMatch "Others" r) = true.
Proof.
  unfold ConstituencyMap.allianceMatch.
  cbn [String.eqb Ascii.eqb Bool.eqb].
  destruct (Party r) as [| |party]; [reflexivity..|].
  unfold ConstituencyMap.inList, ConstituencyMap.DMK_ALLIANCE,
    ConstituencyMap.ADMK_ALLIANCE, ConstituencyMap.NAMED_ALLIANCES.
  cbn [existsb].
  repeat match goal with
         | |- context [String.eqb party ?s] =>
             destruct (String.eqb_spec party s) as [-> | _]; [reflexivity|]
         end.
  reflexivity.
Qed.

(** C3 fails on the code.  A winner of the party AMMK belongs to "ADMK+"
    for the master sheet and to "Others" for the map: the table of the
    map lacks the entries "AMMK" and "AIADMK" that the table of the master
    sheet has. *)
Theorem alliance_tables_disagree :
  MasterSheet.allianceMatch "ADMK+" ammkWinner = true
  /\ ConstituencyMap.allianceMatch "ADMK+" ammkWinner = false
  /\ MasterSheet.allianceMatch "Others" ammkWinner = false
  /\ ConstituencyMap.allianceMatch "Others" ammkWinner = true
  /\ MasterSheet.stepAlliance (withAlliance "ADMK+") [ammkWinner] = [ammkWinner]
  /\ ConstituencyMap.filteredData (mapAlliance "ADMK+") [ammkWinner] = [].
Proof. repeat split; vm_compute; reflexivity. Qed.

(** ** The sort *)

Section Stability.
Context {A : Type} (cmp : A -> A -> Q).

Lemma sortInsert_keeps_before (x a b : A) (l : list A) :
  before a b l -> before a b (sortInsert cmp x l).
Proof.
  induction 1 as [l Hin | y l Hb IH]; cbn [sortInsert].
  - destruct (Qlt_bool 0 (cmp x a)).
    + apply before_here. apply (jsSort_In_insert cmp x l b). now right.
    + apply before_later. now apply before_here.
  - destruct (Qlt_bool 0 (cmp x y)).
    + now apply before_later.
    + now do 2 apply before_later.
Qed.

Lemma sortInsert_before (a b : A) (l : list A) :
  ~ (0 < cmp a b)%Q -> In b l -> before a b (sortInsert cmp a l).
Proof.
  intros Hle. induction l as [|y t IH]; intros Hin; [destruct Hin|].
  cbn [sortInsert]. destruct (Qlt_bool 0 (cmp a y)) eqn:E.
  - apply before_later. apply IH. destruct Hin as [-> | Hin]; [|exact Hin].
    apply Qlt_bool_iff in E. contradiction.
  - now apply before_here.
Qed.

(** The sort keeps [a] in front of [b] unless the comparator says that
    [a] goes after [b]. *)
Lemma jsSort_stable (a b : A) (l : list A) :
  ~ (0 < cmp a b)%Q -> before a b l -> before a b (jsSort cmp l).
Proof.
  intros Hle. induction 1 as [l Hin | x l _ IH]; cbn [jsSort].
  - apply sortInsert_before; [exact Hle|]. now apply jsSort_In.
  - now apply sortInsert_keeps_before.
Qed.

Lemma sorted_before (R : A -> A -> Prop) (a b : A) (l : list A) :
  StronglySorted R l -> before a b l -> R a b.
Proof.
  intros Hs. induction 1 as [l Hin | x l _ IH].
  - inversion Hs as [|? ? _ Hall]; subst.
    exact (proj1 (List.Forall_forall _ _) Hall b Hin).
  - inversion Hs; subst. now apply IH.
Qed.
End Stability.

Section MissingLast.
Context {A : Type} (cmp : A -> A -> Q) (miss : A -> bool).
Hypothesis present_missing :
  forall x y, miss x = false -> miss y = true -> ~ (0 < cmp x y)%Q.
Hypothesis missing_present :
  forall x y, miss x = true -> miss y = false -> (0 < cmp x y)%Q.

Lemma sortInsert_present (x : A) (vs ms : list A) :
  miss x = false ->
  Forall (fun r => miss r = false) vs -> Forall (fun r => miss r = true) ms ->
  exists vs', sortInsert cmp x (vs ++ ms) = vs' ++ ms
              /\ Forall (fun r => miss r = false) vs'.
Proof using present_missing.
  intros Hx Hvs Hms. induction Hvs as [|v vs Hv Hvs IH]; cbn [app sortInsert].
  - exists [x]. split; [|now constructor].
    destruct Hms as [|y ms Hy _]; [reflexivity|]. cbn [sortInsert].
    destruct (Qlt_bool 0 (cmp x y)) eqn:E; [|reflexivity].
    apply Qlt_bool_iff in E. now destruct (present_missing x y Hx Hy).
  - destruct (Qlt_bool 0 (cmp x v)).
    + destruct IH as (vs' & -> & Hvs'). exists (v :: vs').
      split; [reflexivity | now constructor].
    + exists (x :: v :: vs). split; [reflexivity|]. now repeat constructor.
Qed.

Lemma sortInsert_missing (x : A) (vs ms : list A) :
  miss x = true -> Forall (fun r => miss r = false) vs ->
  sortInsert cmp x (vs ++ ms) = vs ++ sortInsert cmp x ms.
Proof using missing_present.
  intros Hx Hvs. induction Hvs as [|v vs Hv _ IH]; cbn [app sortInsert];
    [reflexivity|].
  rewrite (proj2 (Qlt_bool_iff _ _) (missing_present x v Hx Hv)).
  now rewrite IH.
Qed.

(** The sorted list is the rows with a value followed by the rows
    without. *)
Lemma jsSort_missing_last (l : list A) :
  exists vs ms, jsSort cmp l = vs ++ ms
                /\ Forall (fun r => miss r = false) vs
                /\ Forall (fun r => miss r = true) ms.
Proof using present_missing missing_present.
  induction l as [|x t (vs & ms & Heq & Hvs & Hms)]; cbn [jsSort].
  - exists [], []. now repeat split.
  - rewrite Heq. destruct (miss x) eqn:Hx.
    + rewrite (sortInsert_missing x vs ms Hx Hvs).
      exists vs, (sortInsert cmp x ms). repeat split; [exact Hvs|].
      apply List.Forall_forall. intros y Hy.
      apply (jsSort_In_insert cmp x ms y) in Hy.
      destruct Hy as [<- | Hy]; [exact Hx|].
      exact (proj1 (List.Forall_forall _ _) Hms y Hy).
    + destruct (sortInsert_present x vs ms Hx Hvs Hms) as (vs' & -> & Hvs').
      now exists vs', ms.
Qed.
End MissingLast.

Lemma StronglySorted_weaken {A : Type} (R R' : A -> A -> Prop) (l : list A) :
  (forall a b, R a b -> R' a b) -> StronglySorted R l -> StronglySorted R' l.
Proof.
  intros Himp. induction 1 as [|x t _ IH Hall]; constructor; [exact IH|].
  eapply List.Forall_impl; [|exact Hall]. intros b. apply Himp.
Qed.

(** The insertion order of a comparator that is consistent on the
    elements of the list is ordered by the comparator. *)
Section SortedOn.
Context {A : Type} (cmp : A -> A -> Q) (dom : A -> Prop).
Hypothesis cmp_anti_on :
  forall x y, dom x -> dom y -> (0 < cmp x y)%Q -> ~ (0 < cmp y x)%Q.
Hypothesis cmp_trans_on :
  forall x y z, dom x -> dom y -> dom z ->
    ~ (0 < cmp x y)%Q -> ~ (0 < cmp y z)%Q -> ~ (0 < cmp x z)%Q.

Lemma sortInsert_sorted_on (x : A) (l : list A) :
  dom x -> Forall dom l ->
  StronglySorted (fun a b => ~ (0 < cmp a b)%Q) l ->
  StronglySorted (fun a b => ~ (0 < cmp a b)%Q) (sortInsert cmp x l).
Proof using cmp_anti_on cmp_trans_on.
  intros Hx Hdom. induction 1 as [|y t Hs IH Hall]; cbn [sortInsert].
  - repeat constructor.
  - inversion Hdom as [|? ? Hy Ht]; subst.
    destruct (Qlt_bool 0 (cmp x y)) eqn:E.
    + apply Qlt_bool_iff in E. constructor; [now apply IH|].
      apply List.Forall_forall. intros z Hz.
      apply (jsSort_In_insert cmp x t z) in Hz. destruct Hz as [<- | Hz].
      * now apply cmp_anti_on.
      * exact (proj1 (List.Forall_forall _ _) Hall z Hz).
    + assert (Hxy : ~ (0 < cmp x y)%Q).
      { intros Hlt. apply Qlt_bool_iff in Hlt. congruence. }
      constructor; [now constructor|].
      constructor; [exact Hxy|].
      apply List.Forall_forall. intros z Hz.
      apply (cmp_trans_on x y z Hx Hy); [|exact Hxy|].
      * exact (proj1 (List.Forall_forall _ _) Ht z Hz).
      * exact (proj1 (List.Forall_forall _ _) Hall z Hz).
Qed.

Lemma jsSort_sorted_on (l : list A) :
  Forall dom l -> StronglySorted (fun a b => ~ (0 < cmp a b)%Q) (jsSort cmp l).
Proof using cmp_anti_on cmp_trans_on.
  induction 1 as [|x t Hx Ht IH]; cbn [jsSort]; [constructor|].
  apply sortInsert_sorted_on; [exact Hx| |exact IH].
  apply List.Forall_forall. intros z Hz. apply jsSort_In in Hz.
  exact (proj1 (List.Forall_forall _ _) Ht z Hz).
Qed.
End SortedOn.

(** Strings compared by code unit are a consistent collation. *)
Lemma string_compare_trans (s t u : string) :
  String.compare s t <> Gt -> String.compare t u <> Gt -> String.compare s u <> Gt.
Proof.
  revert t u. induction s as [|a s IH]; intros [|b t] [|c u]; cbn [String.compare];
    try congruence.
  unfold Ascii.compare.
  destruct (N.compare_spec (N_of_ascii a) (N_of_ascii b)) as [E1|E1|E1];
    destruct (N.compare_spec (N_of_ascii b) (N_of_ascii c)) as [E2|E2|E2];
    destruct (N.compare_spec (N_of_ascii a) (N_of_ascii c)) as [E3|E3|E3];
    try congruence; try lia.
  apply IH.
Qed.

Lemma plain_collation_consistent : @consistentCollation plainRuntime.
Proof.
  split.
  - intros s t. cbn [localeCompare plainRuntime].
    rewrite (String.compare_antisym t s).
    destruct (String.compare s t); cbn [CompOpp]; lia.
  - intros s t u. cbn [localeCompare plainRuntime].
    pose proof (string_compare_trans s t u) as Htrans.
    destruct (String.compare s t), (String.compare t u), (String.compare s u);
      try lia; intros _ _; exfalso; apply Htrans; congruence.
Qed.

Section SortSemantics.
Context `{JsRuntime}.
Import MasterSheet.

Lemma compareRows_equal (cfg : SortConfig) (a b : ElectionResult) :
  strictEq (getField (key cfg) a) (getField (key cfg) b) = true ->
  compareRows cfg a b = 0%Q.
Proof. intros Heq. unfold compareRows. now rewrite Heq. Qed.

Lemma compareRows_numbers (cfg : SortConfig) (a b : ElectionResult) (x y : Q) :
  getField (key cfg) a = JNum x -> getField (key cfg) b = JNum y ->
  (compareRows cfg a b ==
   match direction cfg with asc => x - y | desc => y - x end)%Q.
Proof.
  intros Ha Hb. unfold compareRows. rewrite Ha, Hb. cbn [strictEq].
  destruct (Qeq_bool x y) eqn:E; [|reflexivity].
  apply Qeq_bool_iff in E. destruct (direction cfg); rewrite E; ring.
Qed.

Lemma compareRows_strings (cfg : SortConfig) (a b : ElectionResult) (s t : string) :
  getField (key cfg) a = JStr s -> getField (key cfg) b = JStr t ->
  compareRows cfg a b =
  inject_Z (if String.eqb s t then 0
            else match direction cfg with
                 | asc => localeCompare s t
                 | desc => localeCompare t s
                 end).
Proof.
  intros Ha Hb. unfold compareRows. rewrite Ha, Hb. cbn [strictEq jsString].
  destruct (String.eqb s t); [reflexivity|]. now destruct (direction cfg).
Qed.

Lemma compareRows_present_missing (cfg : SortConfig) (a b : ElectionResult) :
  isMissing (getField (key cfg) a) = false ->
  isMissing (getField (key cfg) b) = true ->
  compareRows cfg a b = (-1)%Q.
Proof.
  intros Ha Hb. unfold compareRows.
  destruct (getField (key cfg) a), (getField (key cfg) b);
    cbn in Ha, Hb; try discriminate; reflexivity.
Qed.

Lemma compareRows_missing_present (cfg : SortConfig) (a b : ElectionResult) :
  isMissing (getField (key cfg) a) = true ->
  isMissing (getField (key cfg) b) = false ->
  compareRows cfg a b = 1%Q.
Proof.
  intros Ha Hb. unfold compareRows.
  destruct (getField (key cfg) a), (getField (key cfg) b);
    cbn in Ha, Hb; try discriminate; reflexivity.
Qed.

(** A column of the sheet holds numbers or it holds strings, in both
    cases with cells that can be absent. *)
Lemma column_kind (k : SortKey) :
  (forall r, exists n, getField k r = ofNum n)
  \/ (forall r, exists s, getField k r = ofStr s).
Proof.
  destruct k; cbn [getField];
    first [ left; intros r; now eexists
          | right; intros r; now eexists
          | left; intros r; now exists (Val (Year r))
          | right; intros r; now exists (Val (Constituency_Name r)) ].
Qed.

(** The comparator on two cells of a column that holds one kind of
    absent cell. *)
Lemma compareRows_pair (cfg : SortConfig) (excluded : jsval) (a b : ElectionResult) :
  excluded = JNull \/ excluded = JUndefined ->
  getField (key cfg) a <> excluded -> getField (key cfg) b <> excluded ->
  (exists x y, getField (key cfg) a = JNum x /\ getField (key cfg) b = JNum y
               /\ (compareRows cfg a b ==
                   match direction cfg with asc => x - y | desc => y - x end)%Q)
  \/ (exists s t, getField (key cfg) a = JStr s /\ getField (key cfg) b = JStr t
                  /\ compareRows cfg a b =
                     inject_Z (if String.eqb s t then 0
                               else match direction cfg with
                                    | asc => localeCompare s t
                                    | desc => localeCompare t s
                                    end))
  \/ (isMissing (getField (key cfg) a) = false
      /\ isMissing (getField (key cfg) b) = true /\ compareRows cfg a b = (-1)%Q)
  \/ (isMissing (getField (key cfg) a) = true
      /\ isMissing (getField (key cfg) b) = false /\ compareRows cfg a b = 1%Q)
  \/ (isMissing (getField (key cfg) a) = true
      /\ isMissing (getField (key cfg) b) = true /\ compareRows cfg a b = 0%Q).
Proof.
  intros Hex Ha Hb.
  destruct (column_kind (key cfg)) as [Hcol | Hcol];
    destruct (Hcol a) as [va Hva], (Hcol b) as [vb Hvb];
    rewrite Hva in Ha; rewrite Hvb in Hb;
    destruct va as [| |x], vb as [| |y]; cbn [ofNum ofStr] in *;
    try (destruct Hex as [-> | ->]; congruence).
  all: try (do 4 right; split; [now rewrite Hva|]; split; [now rewrite Hvb|];
            apply compareRows_equal; now rewrite Hva, Hvb).
  all: try (do 3 right; left; split; [now rewrite Hva|]; split; [now rewrite Hvb|];
            apply compareRows_missing_present; [now rewrite Hva | now rewrite Hvb]).
  all: try (do 2 right; left; split; [now rewrite Hva|]; split; [now rewrite Hvb|];
            apply compareRows_present_missing; [now rewrite Hva | now rewrite Hvb]).
  - left. exists x, y. split; [exact Hva|]. split; [exact Hvb|].
    now apply compareRows_numbers.
  - right. left. exists x, y. split; [exact Hva|]. split; [exact Hvb|].
    now apply compareRows_strings.
Qed.

Lemma inject_Z_pos (z : Z) : (0 < inject_Z z)%Q <-> (0 < z)%Z.
Proof. change 0%Q with (inject_Z 0). now rewrite <- Zlt_Qlt. Qed.

Lemma collation_refl :
  consistentCollation -> forall s, localeCompare s s = 0%Z.
Proof. intros [Hanti _] s. specialize (Hanti s s). lia. Qed.

Section Consistent.
Variable cfg : SortConfig.
Variable excluded : jsval.
Hypothesis excluded_missing : excluded = JNull \/ excluded = JUndefined.
Hypothesis collation : consistentCollation.

(** Every case of [compareRows_pair] for a pair of rows becomes a fact
    about their values. *)
Ltac pair_cases a b Ha Hb x y Hx Hy Hc :=
  destruct (compareRows_pair cfg excluded a b excluded_missing Ha Hb)
    as [(x & y & Hx & Hy & Hc) | [(x & y & Hx & Hy & Hc) | [(Hx & Hy & Hc)
       | [(Hx & Hy & Hc) | (Hx & Hy & Hc)]]]].

Ltac clash :=
  repeat match goal with
         | H1 : getField ?k ?r = _, H2 : getField ?k ?r = _ |- _ =>
             rewrite H1 in H2; inversion H2; subst; clear H2
         | H1 : getField ?k ?r = _, H2 : isMissing (getField ?k ?r) = _ |- _ =>
             rewrite H1 in H2; cbn [isMissing] in H2
         | H1 : isMissing ?v = true, H2 : isMissing ?v = false |- _ =>
             rewrite H1 in H2
         end;
  try discriminate.

Lemma compareRows_anti (a b : ElectionResult) :
  getField (key cfg) a <> excluded -> getField (key cfg) b <> excluded ->
  (0 < compareRows cfg a b)%Q -> ~ (0 < compareRows cfg b a)%Q.
Proof using excluded_missing collation.
  intros Ha Hb. destruct collation as [Hanti _].
  pair_cases a b Ha Hb s t Hs Ht Hab; pair_cases b a Hb Ha t' s' Ht' Hs' Hba; clash;
    try (rewrite ?Hab, ?Hba; destruct (direction cfg); intros; lra).
  match goal with
  | H1 : compareRows cfg a b = inject_Z (if String.eqb ?s ?t then _ else _) |- _ =>
      rewrite Hab, Hba, !inject_Z_pos; rewrite (String.eqb_sym t s);
      pose proof (Hanti s t); pose proof (Hanti t s);
      destruct (String.eqb s t); [lia|]; destruct (direction cfg); lia
  end.
Qed.

Lemma compareRows_trans (a b c : ElectionResult) :
  getField (key cfg) a <> excluded -> getField (key cfg) b <> excluded ->
  getField (key cfg) c <> excluded ->
  ~ (0 < compareRows cfg a b)%Q -> ~ (0 < compareRows cfg b c)%Q ->
  ~ (0 < compareRows cfg a c)%Q.
Proof using excluded_missing collation.
  intros Ha Hb Hc. destruct collation as [_ Htrans].
  pair_cases a b Ha Hb s t Hs Ht Hab; pair_cases b c Hb Hc t' u Ht' Hu Hbc;
    pair_cases a c Ha Hc s' u' Hs' Hu' Hac; clash;
    try (rewrite ?Hab, ?Hbc, ?Hac; destruct (direction cfg); intros; lra).
  match goal with
  | H1 : compareRows cfg a b = inject_Z (if String.eqb ?s ?t then _ else _),
    H2 : compareRows cfg a c = inject_Z (if String.eqb _ ?u then _ else _) |- _ =>
      rewrite Hab, Hbc, Hac, !inject_Z_pos;
      pose proof (Htrans s t u); pose proof (Htrans u t s);
      destruct (String.eqb_spec s t) as [E1 | N1], (String.eqb_spec t u) as [E2 | N2],
        (String.eqb_spec s u) as [E3 | N3];
      try congruence; subst; destruct (direction cfg); lia
  end.
Qed.
End Consistent.

End SortSemantics.



(** ** Win rates *)

Lemma roundHalfEven_near (x : Q) :
  (inject_Z (roundHalfEven x) - x <= 1 # 2)%Q
  /\ (x - inject_Z (roundHalfEven x) <= 1 # 2)%Q.
Proof.
  unfold roundHalfEven. cbv zeta.
  pose proof (Qfloor_le x) as Hlo. pose proof (Qlt_floor x) as Hhi.
  rewrite inject_Z_plus in Hhi. change (inject_Z 1) with 1%Q in Hhi.
  destruct (Qlt_bool (x - inject_Z (Qfloor x)) (1 # 2)) eqn:E1.
  - apply Qlt_bool_iff in E1. split; lra.
  - apply Qlt_bool_false in E1.
    assert (Hup : (inject_Z (Qfloor x + 1) == inject_Z (Qfloor x) + 1)%Q)
      by (rewrite inject_Z_plus; reflexivity).
    destruct (Qlt_bool (1 # 2) (x - inject_Z (Qfloor x))) eqn:E2.
    + apply Qlt_bool_iff in E2. rewrite Hup. split; lra.
    + apply Qlt_bool_false in E2. destruct (Z.even (Qfloor x)).
      * split; lra.
      * rewrite Hup. split; lra.
Qed.

Lemma pow2_pos (e : Z) : (0 < 2 ^ e)%Q.
Proof. apply Qpower_0_lt. reflexivity. Qed.

Lemma pow2_nat (a : Z) : (0 <= a)%Z -> (2 ^ a == inject_Z (2 ^ a))%Q.
Proof. intros Ha. now rewrite Zpower_Qpower. Qed.

(** A positive number is above [2^(k-1)], where [k] is the difference of
    the binary logarithms of its numerator and its denominator. *)
Lemma log2_below (x : Q) :
  (0 < x)%Q ->
  (2 ^ (Z.log2 (Qnum x) - Z.log2 (Zpos (Qden x)) - 1) < x)%Q.
Proof.
  intros Hx. destruct x as [n d]. cbn [Qnum Qden].
  assert (Hn : (0 < n)%Z) by (unfold Qlt in Hx; cbn in Hx; lia).
  pose proof (Z.log2_spec n Hn) as [Ha _].
  pose proof (Z.log2_spec (Zpos d) ltac:(lia)) as [_ Hb].
  pose proof (Z.log2_nonneg n) as Ha0.
  pose proof (Z.log2_nonneg (Zpos d)) as Hb0.
  set (a := Z.log2 n) in *. set (b := Z.log2 (Zpos d)) in *.
  replace (a - b - 1)%Z with (a - Z.succ b)%Z by lia.
  rewrite Qpower_minus by discriminate.
  rewrite (pow2_nat a) by lia. rewrite (pow2_nat (Z.succ b)) by lia.
  assert (Hpb : (0 < inject_Z (2 ^ Z.succ b))%Q).
  { change 0%Q with (inject_Z 0). rewrite <- Zlt_Qlt. lia. }
  apply Qlt_shift_div_r; [exact Hpb|].
  unfold Qlt, Qmult, inject_Z. cbn [Qnum Qden].
  rewrite Pos.mul_1_r, !Z.mul_1_r.
  apply Z.le_lt_trans with (n * Z.pos d)%Z.
  - apply Z.mul_le_mono_nonneg_r; lia.
  - apply Z.mul_lt_mono_pos_l; lia.
Qed.

Lemma log2_above (x : Q) :
  (0 < x)%Q ->
  (x < 2 ^ (Z.log2 (Qnum x) - Z.log2 (Zpos (Qden x)) + 1))%Q.
Proof.
  intros Hx. destruct x as [n d]. cbn [Qnum Qden].
  assert (Hn : (0 < n)%Z) by (unfold Qlt in Hx; cbn in Hx; lia).
  pose proof (Z.log2_spec n Hn) as [_ Ha].
  pose proof (Z.log2_spec (Zpos d) ltac:(lia)) as [Hb _].
  pose proof (Z.log2_nonneg n) as Ha0.
  pose proof (Z.log2_nonneg (Zpos d)) as Hb0.
  set (a := Z.log2 n) in *. set (b := Z.log2 (Zpos d)) in *.
  replace (a - b + 1)%Z with (Z.succ a - b)%Z by lia.
  rewrite Qpower_minus by discriminate.
  rewrite (pow2_nat (Z.succ a)) by lia. rewrite (pow2_nat b) by lia.
  assert (Hpb : (0 < inject_Z (2 ^ b))%Q).
  { change 0%Q with (inject_Z 0). rewrite <- Zlt_Qlt. lia. }
  apply Qlt_shift_div_l; [exact Hpb|].
  unfold Qlt, Qmult, inject_Z. cbn [Qnum Qden].
  rewrite Pos.mul_1_r, !Z.mul_1_r.
  apply Z.le_lt_trans with (n * Z.pos d)%Z.
  - apply Z.mul_le_mono_nonneg_l; lia.
  - apply Z.mul_lt_mono_pos_r; lia.
Qed.

(** The significand has exactly 53 bits. *)
Lemma exponentOf_normal (x : Q) :
  (0 < x)%Q ->
  (2 ^ 52 * 2 ^ exponentOf x <= x)%Q /\ (x < 2 ^ 53 * 2 ^ exponentOf x)%Q.
Proof.
  intros Hx. unfold exponentOf. cbv zeta.
  set (k := (Z.log2 (Qnum x) - Z.log2 (Zpos (Qden x)))%Z).
  pose proof (log2_below x Hx) as Hlow. fold k in Hlow.
  pose proof (log2_above x Hx) as Hhigh. fold k in Hhigh.
  pose proof (pow2_pos (k - 52)) as Hp.
  assert (H2 : (x / 2 ^ (k - 52) * 2 ^ (k - 52) == x)%Q).
  { field. intros Hz. rewrite Hz in Hp. now apply Qlt_irrefl in Hp. }
  destruct (Qlt_bool (x / 2 ^ (k - 52)) (2 ^ 52)) eqn:E.
  - split.
    + assert (H1 : (2 ^ (k - 1) == 2 ^ 52 * 2 ^ (k - 53))%Q).
      { rewrite <- Qpower_plus by discriminate.
        now replace (52 + (k - 53))%Z with (k - 1)%Z by lia. }
      rewrite H1 in Hlow. apply Qlt_le_weak. exact Hlow.
    + apply Qlt_bool_iff in E.
      apply (Qmult_lt_r _ _ (2 ^ (k - 52))) in E; [|exact Hp].
      rewrite H2 in E.
      assert (H1 : (2 ^ 52 * 2 ^ (k - 52) == 2 ^ 53 * 2 ^ (k - 53))%Q).
      { rewrite <- !Qpower_plus by discriminate.
        now replace (52 + (k - 52))%Z with (53 + (k - 53))%Z by lia. }
      now rewrite <- H1.
  - split.
    + apply Qlt_bool_false in E.
      apply (Qmult_le_r _ _ (2 ^ (k - 52))) in E; [|exact Hp].
      now rewrite H2 in E.
    + assert (H1 : (2 ^ (k + 1) == 2 ^ 53 * 2 ^ (k - 52))%Q).
      { rewrite <- Qpower_plus by discriminate.
        now replace (53 + (k - 52))%Z with (k + 1)%Z by lia. }
      now rewrite <- H1.
Qed.

(** The error of the rounding to a double: at most one part in [2^53] of
    the number. *)
Lemma roundDouble_near (x : Q) :
  (0 <= x)%Q ->
  (roundDouble x - x <= x * (1 # 9007199254740992))%Q
  /\ (x - roundDouble x <= x * (1 # 9007199254740992))%Q.
Proof.
  intros Hx. unfold roundDouble.
  destruct (Qeq_bool x 0) eqn:E0.
  - apply Qeq_bool_iff in E0. rewrite E0. split; discriminate.
  - assert (Hpos : (0 < x)%Q).
    { apply Qle_lt_or_eq in Hx. destruct Hx as [Hx | Hx]; [exact Hx|].
      symmetry in Hx. apply Qeq_bool_iff in Hx. congruence. }
    assert (Hneg : Qlt_bool x 0 = false).
    { destruct (Qlt_bool x 0) eqn:E; [|reflexivity].
      apply Qlt_bool_iff in E. lra. }
    rewrite Hneg. cbv zeta.
    assert (Habs : Qabs x = x).
    { destruct x as [n d]. unfold Qabs. f_equal. apply Z.abs_eq.
      unfold Qle in Hx. cbn in Hx. lia. }
    rewrite Habs.
    set (e := exponentOf x).
    pose proof (proj1 (exponentOf_normal x Hpos)) as Hnorm. fold e in Hnorm.
    pose proof (pow2_pos e) as Hp.
    destruct (roundHalfEven_near (x / 2 ^ e)) as [H1 H2].
    set (m := inject_Z (roundHalfEven (x / 2 ^ e))) in *.
    assert (Hx' : (x == x / 2 ^ e * 2 ^ e)%Q).
    { field. intros Hz. rewrite Hz in Hp. now apply Qlt_irrefl in Hp. }
    change (2 ^ 52)%Q with (4503599627370496 # 1)%Q in Hnorm.
    set (y := (x / 2 ^ e)%Q) in *. set (p := (2 ^ e)%Q) in *.
    assert (Hm1 : ((m - y) * p <= (1 # 2) * p)%Q) by (apply Qmult_le_compat_r; lra).
    assert (Hm2 : ((y - m) * p <= (1 # 2) * p)%Q) by (apply Qmult_le_compat_r; lra).
    assert (E1 : ((m - y) * p == m * p - y * p)%Q) by ring.
    assert (E2 : ((y - m) * p == y * p - m * p)%Q) by ring.
    rewrite E1 in Hm1. rewrite E2 in Hm2. rewrite <- Hx' in Hm1, Hm2.
    split; lra.
Qed.

Section WinRate.
Context `{JsRuntime}.
Import MasterSheet.

Lemma filter_and_length {A : Type} (p q : A -> bool) (l : list A) :
  (List.length (List.filter (fun x => p x && q x) l)
   <= List.length (List.filter p l))%nat.
Proof.
  induction l as [|a l IH]; cbn [List.filter]; [lia|].
  destruct (p a), (q a); cbn [andb List.length]; lia.
Qed.

Lemma ratePercent_zero (w : nat) : ratePercent w 0 = 0%Z.
Proof. reflexivity. Qed.

(** The rate is the exact percentage rounded to an integer, up to the
    error of the two roundings to a double. *)
Lemma ratePercent_near (w n : nat) :
  n <> 0%nat -> (w <= n)%nat ->
  (Qabs (inject_Z (ratePercent w n) - exactPercent w n)
   <= (1 # 2) + (1 # 35184372088832))%Q.
Proof.
  intros Hn Hle. unfold ratePercent, exactPercent.
  destruct (Nat.eqb_spec n 0) as [E|_]; [contradiction|]. cbn [negb].
  set (q := (inject_Z (Z.of_nat w) / inject_Z (Z.of_nat n))%Q).
  assert (Hpos : (0 < inject_Z (Z.of_nat n))%Q).
  { change 0%Q with (inject_Z 0). rewrite <- Zlt_Qlt. lia. }
  assert (Hq0 : (0 <= q)%Q).
  { unfold q. apply Qle_shift_div_l; [exact Hpos|].
    rewrite Qmult_0_l. change 0%Q with (inject_Z 0). rewrite <- Zle_Qle. lia. }
  assert (Hq1 : (q <= 1)%Q).
  { unfold q. apply Qle_shift_div_r; [exact Hpos|].
    rewrite Qmult_1_l. rewrite <- Zle_Qle. lia. }
  assert (Hex : (100 * inject_Z (Z.of_nat w) / inject_Z (Z.of_nat n) == 100 * q)%Q).
  { unfold q. field. intros Hz. rewrite Hz in Hpos. now apply Qlt_irrefl in Hpos. }
  rewrite Hex. clear Hex.
  destruct (roundDouble_near q Hq0) as [Hy1 Hy2].
  set (y := roundDouble q) in *.
  assert (Hy0 : (0 <= y * 100)%Q) by lra.
  destruct (roundDouble_near (y * 100) Hy0) as [Hp1 Hp2].
  set (p := roundDouble (y * 100)) in *.
  unfold mathRound.
  pose proof (Qfloor_le (p + (1 # 2))) as Hlo.
  pose proof (Qlt_floor (p + (1 # 2))) as Hhi.
  rewrite inject_Z_plus in Hhi. change (inject_Z 1) with 1%Q in Hhi.
  set (r := inject_Z (Qfloor (p + (1 # 2)))) in *.
  apply Qabs_Qle_condition. split; lra.
Qed.

Lemma ratePercent_bounds (w n : nat) :
  (w <= n)%nat -> (0 <= ratePercent w n <= 100)%Z.
Proof.
  intros Hle. destruct (Nat.eq_dec n 0) as [-> | Hn]; [cbn; lia|].
  pose proof (ratePercent_near w n Hn Hle) as Hnear.
  apply Qabs_Qle_condition in Hnear. destruct Hnear as [H1 H2].
  unfold exactPercent in H1, H2.
  assert (Hpos : (0 < inject_Z (Z.of_nat n))%Q).
  { change 0%Q with (inject_Z 0). rewrite <- Zlt_Qlt. lia. }
  set (q := (inject_Z (Z.of_nat w) / inject_Z (Z.of_nat n))%Q).
  assert (Hq0 : (0 <= q)%Q).
  { unfold q. apply Qle_shift_div_l; [exact Hpos|].
    rewrite Qmult_0_l. change 0%Q with (inject_Z 0). rewrite <- Zle_Qle. lia. }
  assert (Hq1 : (q <= 1)%Q).
  { unfold q. apply Qle_shift_div_r; [exact Hpos|].
    rewrite Qmult_1_l. rewrite <- Zle_Qle. lia. }
  assert (Hex : (100 * inject_Z (Z.of_nat w) / inject_Z (Z.of_nat n) == 100 * q)%Q).
  { unfold q. field. intros Hz. rewrite Hz in Hpos. now apply Qlt_irrefl in Hpos. }
  rewrite Hex in H1, H2.
  assert (Hlo : (inject_Z (-1) < inject_Z (ratePercent w n))%Q).
  { change (inject_Z (-1)) with (-1 # 1)%Q. lra. }
  assert (Hhi : (inject_Z (ratePercent w n) < inject_Z 101)%Q).
  { change (inject_Z 101) with (101 # 1)%Q. lra. }
  rewrite <- Zlt_Qlt in Hlo, Hhi. lia.
Qed.

Lemma ratePercent_all (n : nat) : n <> 0%nat -> ratePercent n n = 100%Z.
Proof.
  intros Hn. pose proof (ratePercent_near n n Hn (Nat.le_refl n)) as Hnear.
  apply Qabs_Qle_condition in Hnear. destruct Hnear as [H1 H2].
  unfold exactPercent in H1, H2.
  assert (Hpos : (0 < inject_Z (Z.of_nat n))%Q).
  { change 0%Q with (inject_Z 0). rewrite <- Zlt_Qlt. lia. }
  assert (Hex : (100 * inject_Z (Z.of_nat n) / inject_Z (Z.of_nat n) == 100)%Q).
  { field. intros Hz. rewrite Hz in Hpos. now apply Qlt_irrefl in Hpos. }
  rewrite Hex in H1, H2.
  assert (Hlo : (inject_Z 99 < inject_Z (ratePercent n n))%Q).
  { change (inject_Z 99) with (99 # 1)%Q. lra. }
  assert (Hhi : (inject_Z (ratePercent n n) < inject_Z 101)%Q).
  { change (inject_Z 101) with (101 # 1)%Q. lra. }
  rewrite <- Zlt_Qlt in Hlo, Hhi. lia.
Qed.

Lemma ratePercent_none (n : nat) : ratePercent 0 n = 0%Z.
Proof.
  unfold ratePercent. destruct (n =? 0)%nat; [reflexivity|]. cbn [negb].
  assert (Hq : Qeq_bool (inject_Z (Z.of_nat 0) / inject_Z (Z.of_nat n)) 0 = true).
  { apply Qeq_bool_iff. cbn [Z.of_nat]. unfold Qdiv. apply Qmult_0_l. }
  unfold roundDouble at 2. rewrite Hq. reflexivity.
Qed.

(** The rounding of the double arithmetic shows in the rate: for these
    wins and totals the rate is one below the exact percentage rounded
    half up. *)
Lemma halfwayRates_rounded_down :
  map (fun p => ratePercent (fst p) (snd p)) halfwayRates
  = [57; 57; 57; 57; 14; 28; 56; 57; 57; 57; 57; 57; 14; 28; 56; 57]%Z
  /\ map (fun p => mathRound (exactPercent (fst p) (snd p))) halfwayRates
     = [58; 58; 58; 58; 15; 29; 57; 58; 58; 58; 58; 58; 15; 29; 57; 58]%Z.
Proof. split; vm_compute; reflexivity. Qed.

(** C8.  The category data are the three entries "Incumbents",
    "Turncoats" and "Recontesting", in this order, whatever the rows; the
    total of an entry is the number of rows of the category and its wins
    the number of those with position 1.  The rate of an entry is 0 when
    its total is 0, and then no division takes place; otherwise it is the
    integer nearest to the percentage of wins in the total, up to the
    error of the double arithmetic: an integer from 0 to 100, which is 100
    when every row of the category won and 0 when none did.  For forty
    incumbents of whom twenty-three won the rate is 57, where the exact
    percentage is 57.5.  The three entries are the category data of
    [statsData] whenever the query has a row. *)
Theorem win_rate_zero_safe (data : list ElectionResult) :
  map (fun e => (name e, total e, wins e)) (categoryData data)
  = [ ("Incumbents", countRows (fun d => truthy (Incumbent d)) data,
       countRows (fun d => truthy (Incumbent d) && won d) data);
      ("Turncoats", countRows (fun d => truthy (Turncoat d)) data,
       countRows (fun d => truthy (Turncoat d) && won d) data);
      ("Recontesting", countRows (fun d => truthy (Recontest d)) data,
       countRows (fun d => truthy (Recontest d) && won d) data) ]
  /\ Forall (fun e =>
       (wins e <= total e)%nat
       /\ (total e = 0%nat -> rate e = 0%Z)
       /\ (total e <> 0%nat ->
           (Qabs (inject_Z (rate e) - exactPercent (wins e) (total e))
            <= (1 # 2) + (1 # 35184372088832))%Q)
       /\ (0 <= rate e <= 100)%Z
       /\ (total e <> 0%nat -> wins e = total e -> rate e = 100%Z)
       /\ (wins e = 0%nat -> rate e = 0%Z)) (categoryData data)
  /\ map (fun e => (name e, rate e, total e, wins e)) (categoryData fortyIncumbents)
     = [ ("Incumbents", 57%Z, 40%nat, 23%nat); ("Turncoats", 0%Z, 0%nat, 0%nat);
         ("Recontesting", 0%Z, 0%nat, 0%nat) ]
  /\ (forall S, (processedData S data = [] /\ statsData S data = None)
                \/ exists edu, statsData S data = Some (categoryData data, edu)).
Proof.
  split; [reflexivity|]. split; [|split].
  - assert (Hentry : forall e, In e (categoryData data) ->
              rate e = ratePercent (wins e) (total e) /\ (wins e <= total e)%nat).
    { intros e Hin. unfold categoryData in Hin. cbn [In] in Hin.
      destruct Hin as [<- | [<- | [<- | []]]]; cbn [rate wins total];
        (split; [reflexivity | apply filter_and_length]). }
    apply List.Forall_forall. intros e Hin.
    destruct (Hentry e Hin) as [Hrate Hle]. rewrite Hrate.
    split; [exact Hle|]. split; [|split; [|split; [|split]]].
    + intros ->. apply ratePercent_zero.
    + intros Hn. now apply ratePercent_near.
    + now apply ratePercent_bounds.
    + intros Hn ->. now apply ratePercent_all.
    + intros ->. apply ratePercent_none.
  - vm_compute. reflexivity.
  - intros S. unfold statsData.
    destruct (processedData S data) as [|r rows]; [now left|].
    right. now eexists.
Qed.
End WinRate.

(** C8 on two rows of which none is an incumbent: the three entries are
    there and the rate of each is 0. *)
Lemma win_rate_zero_safe_witness :
  Forall (fun e => MasterSheet.total e = 0%nat /\ MasterSheet.rate e = 0%Z)
         (MasterSheet.categoryData newcomers).
Proof.
  pose proof (proj1 (proj2 (@win_rate_zero_safe plainRuntime newcomers))) as Hall.
  apply List.Forall_forall. intros e Hin.
  destruct (proj1 (List.Forall_forall _ _) Hall e Hin) as (_ & Hzero & _).
  assert (Ht : MasterSheet.total e = 0%nat).
  { cbn in Hin. destruct Hin as [<- | [<- | [<- | []]]]; reflexivity. }
  split; [exact Ht | exact (Hzero Ht)].
Defined.

(** ** The reconciliation index *)

Section RunnerUp.
Import ConstituencyMap.

Lemma find_first {A : Type} (f : A -> bool) (l : list A) (x : A) :
  List.find f l = Some x ->
  exists l1 l2, l = l1 ++ x :: l2 /\ f x = true
                /\ Forall (fun y => f y = false) l1.
Proof.
  induction l as [|a l IH]; cbn [List.find]; [discriminate|].
  destruct (f a) eqn:E.
  - intros [= <-]. exists [], l.
    split; [reflexivity|]. split; [exact E | constructor].
  - intros Hfind. destruct (IH Hfind) as (l1 & l2 & -> & Hx & Hall).
    exists (a :: l1), l2.
    split; [reflexivity|]. split; [exact Hx | now constructor].
Qed.

Lemma runnerUp_test (w d : ElectionResult) :
  String.eqb (Constituency_Name d) (Constituency_Name w)
  && strictEqNum (Position d) 2 = true
  <-> ranksSecond w d.
Proof.
  unfold ranksSecond, strictEqNum. rewrite andb_true_iff, String.eqb_eq.
  split; intros [Hn Hp]; (split; [exact Hn|]).
  - destruct (Position d) as [| |p]; try discriminate.
    exists p. split; [reflexivity | now apply Qeq_bool_iff].
  - destruct Hp as (p & -> & Hp). now apply Qeq_bool_iff.
Qed.

Lemma findRunnerUp_first (data : list ElectionResult) (w : ElectionResult) :
  match findRunnerUp data w with
  | Some second =>
      exists l1 l2, data = l1 ++ second :: l2 /\ ranksSecond w second
                    /\ Forall (fun d => ~ ranksSecond w d) l1
  | None => Forall (fun d => ~ ranksSecond w d) data
  end.
Proof.
  unfold findRunnerUp.
  destruct (List.find _ data) as [second|] eqn:E.
  - destruct (find_first _ _ _ E) as (l1 & l2 & -> & Hs & Hall).
    exists l1, l2. split; [reflexivity|]. split; [now apply runnerUp_test|].
    eapply List.Forall_impl; [|exact Hall]. cbn. intros d Hd Hr.
    apply runnerUp_test in Hr. congruence.
  - apply List.Forall_forall. intros d Hd Hr.
    apply runnerUp_test in Hr.
    pose proof (List.find_none _ _ E d Hd) as Hno. cbn in Hno. congruence.
Qed.

Lemma resultsMap_entry (data winners : list ElectionResult)
    (m : gmap string Joined) (k : string) (e : Joined) :
  fold_left
    (fun map winner =>
       <[normalizedName winner :=
           {| winner := winner; runnerUp := findRunnerUp data winner |}]> map)
    winners m !! k = Some e ->
  m !! k = Some e
  \/ (In (winner e) winners /\ k = normalizedName (winner e)
      /\ runnerUp e = findRunnerUp data (winner e)).
Proof.
  revert m. induction winners as [|w ws IH]; intros m; cbn [fold_left].
  - now left.
  - intros Hlook. destruct (IH _ Hlook) as [Hm | (Hin & Hk & Hr)].
    + apply lookup_insert_Some in Hm.
      destruct Hm as [[<- <-] | [_ Hm]]; [|now left].
      right. cbn. split; [now left|]. now split.
    + right. split; [now right|]. now split.
Qed.

(** C10.  An entry of the index holds a winner that passed the filters
    of the map, under the key of that winner, and as runner-up the first
    row of the whole data that has the constituency name of the winner
    and position 2, or none when the data has no such row: the search
    reads neither the filters nor the year.  With Chennai in the data
    for 2016 and 2021, the winner of 2021 is paired with the runner-up
    of 2016. *)
Theorem runner_up_resolution (F : MapFilter) (data : list ElectionResult)
    (k : string) (e : Joined) :
  resultsMap F data !! k = Some e ->
  In (winner e) (filteredData F data)
  /\ k = normalizedName (winner e)
  /\ runnerUp e = findRunnerUp data (winner e)
  /\ match runnerUp e with
     | Some second =>
         exists l1 l2, data = l1 ++ second :: l2 /\ ranksSecond (winner e) second
                       /\ Forall (fun d => ~ ranksSecond (winner e) d) l1
     | None => Forall (fun d => ~ ranksSecond (winner e) d) data
     end
  /\ resultsMap noFilter [winner2016; second2016; winner2021; second2021] !! "chennai"
     = Some {| winner := winner2021; runnerUp := Some second2016 |}.
Proof.
  intros Hlook. unfold resultsMap in Hlook.
  apply resultsMap_entry in Hlook.
  destruct Hlook as [Hempty | (Hin & Hk & Hr)].
  - rewrite lookup_empty in Hempty. discriminate.
  - split; [exact Hin|]. split; [exact Hk|]. split; [exact Hr|].
    split; [|vm_compute; reflexivity].
    rewrite Hr. apply findRunnerUp_first.
Qed.
End RunnerUp.

(** C10 on the two elections of Chennai. *)
Lemma runner_up_resolution_witness :
  ConstituencyMap.resultsMap ConstituencyMap.noFilter
    [winner2016; second2016; winner2021; second2021] !! "chennai"
  = Some {| ConstituencyMap.winner := winner2021;
            ConstituencyMap.runnerUp := Some second2016 |}
  /\ ConstituencyMap.findRunnerUp [winner2016; second2016; winner2021; second2021]
       winner2021 = Some second2016.
Proof.
  assert (Hlook : ConstituencyMap.resultsMap ConstituencyMap.noFilter
                    [winner2016; second2016; winner2021; second2021] !! "chennai"
                  = Some {| ConstituencyMap.winner := winner2021;
                            ConstituencyMap.runnerUp := Some second2016 |})
    by (vm_compute; reflexivity).
  split; [exact Hlook|].
  symmetry.
  exact (proj1 (proj2 (proj2 (runner_up_resolution _ _ _ _ Hlook)))).
Defined.

(** * Further properties of the code *)

(** ** Tallies *)

Lemma bump_keys (k k' : string) (counts : list (string * nat)) :
  In k' (map fst (bump k counts)) <-> k' = k \/ In k' (map fst counts).
Proof.
  induction counts as [|[k0 n] t IH]; cbn [bump map fst In].
  - intuition.
  - destruct (String.eqb_spec k0 k) as [-> | Hne]; cbn [map fst In].
    + intuition.
    + rewrite IH. intuition.
Qed.

Lemma bump_NoDup (k : string) (counts : list (string * nat)) :
  List.NoDup (map fst counts) -> List.NoDup (map fst (bump k counts)).
Proof.
  induction counts as [|[k0 n] t IH]; cbn [bump map fst]; intros Hnd.
  - constructor; [intros [] | constructor].
  - inversion Hnd as [|? ? Hnotin Hrest]; subst.
    destruct (String.eqb_spec k0 k) as [-> | Hne]; cbn [map fst].
    + now constructor.
    + constructor; [|now apply IH].
      rewrite bump_keys. intros [-> | Hin]; [now apply Hne | contradiction].
Qed.

Lemma bump_sum (k : string) (counts : list (string * nat)) :
  list_sum (map snd (bump k counts)) = S (list_sum (map snd counts)).
Proof.
  induction counts as [|[k0 n] t IH]; cbn [bump]; [reflexivity|].
  destruct (String.eqb k0 k); [reflexivity|].
  change (list_sum (map snd ((k0, n) :: bump k t)))
    with (n + list_sum (map snd (bump k t)))%nat.
  change (list_sum (map snd ((k0, n) :: t)))
    with (n + list_sum (map snd t))%nat.
  rewrite IH. lia.
Qed.

Lemma bump_positive (k : string) (counts : list (string * nat)) :
  Forall (fun e => (1 <= snd e)%nat) counts ->
  Forall (fun e => (1 <= snd e)%nat) (bump k counts).
Proof.
  induction 1 as [|[k0 n] t Hn Ht IH]; cbn [bump].
  - repeat constructor.
  - destruct (String.eqb k0 k); constructor; cbn [snd] in *; try lia; assumption.
Qed.

Lemma tally_from (keys : list string) (counts : list (string * nat)) :
  List.NoDup (map fst counts) -> Forall (fun e => (1 <= snd e)%nat) counts ->
  let result := fold_left (fun counts k => bump k counts) keys counts in
  List.NoDup (map fst result)
  /\ Forall (fun e => (1 <= snd e)%nat) result
  /\ list_sum (map snd result) = (List.length keys + list_sum (map snd counts))%nat
  /\ (forall k, In k (map fst result) <-> In k keys \/ In k (map fst counts)).
Proof.
  revert counts. induction keys as [|k keys IH]; intros counts Hnd Hpos; cbn [fold_left].
  - split; [exact Hnd|]. split; [exact Hpos|]. split; [reflexivity|].
    intros k. cbn [In]. intuition.
  - destruct (IH (bump k counts) (bump_NoDup k counts Hnd) (bump_positive k counts Hpos))
      as (H1 & H2 & H3 & H4).
    split; [exact H1|]. split; [exact H2|]. split.
    + rewrite H3, bump_sum. cbn [List.length]. lia.
    + intros k'. rewrite H4, bump_keys. cbn [In]. intuition.
Qed.

(** The tally of a list of keys: every key once, each with a count of at
    least one, and the counts add up to the number of keys tallied. *)
Lemma tally_spec (keys : list string) :
  List.NoDup (map fst (tally keys))
  /\ Forall (fun e => (1 <= snd e)%nat) (tally keys)
  /\ list_sum (map snd (tally keys)) = List.length keys
  /\ (forall k, In k (map fst (tally keys)) <-> In k keys).
Proof.
  destruct (tally_from keys [] (List.NoDup_nil _) (List.Forall_nil _)) as (H1 & H2 & H3 & H4).
  unfold tally. split; [exact H1|]. split; [exact H2|]. split.
  - rewrite H3. cbn. lia.
  - intros k. rewrite H4. cbn [map In]. intuition.
Qed.

(** ** Sorting with a consistent comparator *)

Section Sorted.
Context {A : Type} (cmp : A -> A -> Q).
Hypothesis cmp_anti : forall x y, (0 < cmp x y)%Q -> ~ (0 < cmp y x)%Q.
Hypothesis cmp_trans :
  forall x y z, ~ (0 < cmp x y)%Q -> ~ (0 < cmp y z)%Q -> ~ (0 < cmp x z)%Q.

Lemma sortInsert_sorted (x : A) (l : list A) :
  StronglySorted (fun a b => ~ (0 < cmp a b)%Q) l ->
  StronglySorted (fun a b => ~ (0 < cmp a b)%Q) (sortInsert cmp x l).
Proof using cmp_anti cmp_trans.
  induction 1 as [|y t Hs IH Hall]; cbn [sortInsert].
  - repeat constructor.
  - destruct (Qlt_bool 0 (cmp x y)) eqn:E.
    + apply Qlt_bool_iff in E. constructor; [exact IH|].
      apply List.Forall_forall. intros z Hz.
      apply (jsSort_In_insert cmp x t z) in Hz. destruct Hz as [<- | Hz].
      * now apply cmp_anti.
      * exact (proj1 (List.Forall_forall _ _) Hall z Hz).
    + assert (Hxy : ~ (0 < cmp x y)%Q).
      { intros Hlt. apply Qlt_bool_iff in Hlt. congruence. }
      constructor; [now constructor|].
      constructor; [exact Hxy|].
      apply List.Forall_forall. intros z Hz.
      apply (cmp_trans x y z Hxy).
      exact (proj1 (List.Forall_forall _ _) Hall z Hz).
Qed.

Lemma jsSort_sorted (l : list A) :
  StronglySorted (fun a b => ~ (0 < cmp a b)%Q) (jsSort cmp l).
Proof using cmp_anti cmp_trans.
  induction l as [|x t IH]; cbn [jsSort]; [constructor|].
  now apply sortInsert_sorted.
Qed.
End Sorted.

Lemma StronglySorted_app_inv {A : Type} (R : A -> A -> Prop) (l1 l2 : list A) :
  StronglySorted R (l1 ++ l2) ->
  StronglySorted R l1 /\ forall a b, In a l1 -> In b l2 -> R a b.
Proof.
  induction l1 as [|x l1 IH]; cbn [app]; intros Hs.
  - split; [constructor|]. intros a b [].
  - inversion Hs as [|? ? Hs' Hall]; subst. destruct (IH Hs') as [Hs1 Hcross].
    split.
    + constructor; [exact Hs1|].
      apply List.Forall_forall. intros z Hz.
      apply (proj1 (List.Forall_forall _ _) Hall). apply in_or_app. now left.
    + intros a b [<- | Ha] Hb.
      * apply (proj1 (List.Forall_forall _ _) Hall). apply in_or_app. now right.
      * now apply Hcross.
Qed.

(** Ascending and descending order of a rational key. *)
Lemma jsSort_ascending {A : Type} (f : A -> Q) (l : list A) :
  StronglySorted (fun a b => (f a <= f b)%Q) (jsSort (fun a b => (f a - f b)%Q) l).
Proof.
  eapply StronglySorted_weaken;
    [|apply (jsSort_sorted (fun a b => (f a - f b)%Q))].
  - intros a b Hn. cbn in Hn. apply Qnot_lt_le in Hn. lra.
  - intros x y H1 H2. lra.
  - intros x y z H1 H2 H3. apply Qnot_lt_le in H1, H2. lra.
Qed.

Lemma jsSort_descending {A : Type} (f : A -> Q) (l : list A) :
  StronglySorted (fun a b => (f b <= f a)%Q) (jsSort (fun a b => (f b - f a)%Q) l).
Proof.
  eapply StronglySorted_weaken;
    [|apply (jsSort_sorted (fun a b => (f b - f a)%Q))].
  - intros a b Hn. cbn in Hn. apply Qnot_lt_le in Hn. lra.
  - intros x y H1 H2. lra.
  - intros x y z H1 H2 H3. apply Qnot_lt_le in H1, H2. lra.
Qed.

(** ** The keys of the join *)

Section JoinKeys.
Import ConstituencyMap.

Lemma includes_nonempty (needle hay : string) :
  needle <> EmptyString -> includes needle hay = true -> hay <> EmptyString.
Proof.
  intros Hn Hinc ->. destruct needle; [contradiction|discriminate].
Qed.

(** X1.  A feature whose name contains "tiruchirappalli", in any letter
    case and with any annotation, is keyed by its identifier: 140 gives
    the western area and 141 the eastern one, two different keys. *)
Theorem tiruchirappalli_split (name : string) (other : nullable string)
    (id' : nullable Q) :
  includes "tiruchirappalli" (toLowerCase name) = true ->
  getNormalizedName (featureWithId name other 140 id') = "tiruchirapalli (west)"
  /\ getNormalizedName (featureWithId name other 141 id') = "tiruchirapalli (east)"
  /\ getNormalizedName (featureWithId name other 140 id')
     <> getNormalizedName (featureWithId name other 141 id').
Proof.
  intros Hinc.
  assert (Hname : truthyString name = true).
  { unfold truthyString. destruct (String.eqb_spec name EmptyString) as [-> | _];
      [discriminate | reflexivity]. }
  assert (H140 : getNormalizedName (featureWithId name other 140 id')
                 = "tiruchirapalli (west)").
  { unfold getNormalizedName, featureWithId, orStr. cbn [AC_NAME ac_name AC_NO ac_no].
    cbn [truthyStr]. rewrite Hname. cbv beta iota. rewrite Hname.
    cbn [negb]. cbv zeta. rewrite Hinc. reflexivity. }
  assert (H141 : getNormalizedName (featureWithId name other 141 id')
                 = "tiruchirapalli (east)").
  { unfold getNormalizedName, featureWithId, orStr. cbn [AC_NAME ac_name AC_NO ac_no].
    cbn [truthyStr]. rewrite Hname. cbv beta iota. rewrite Hname.
    cbn [negb]. cbv zeta. rewrite Hinc. reflexivity. }
  split; [exact H140|]. split; [exact H141|].
  rewrite H140, H141. discriminate.
Qed.

Lemma lowerChar_not_upper (c : ascii) : isUpperChar (lowerChar c) = false.
Proof.
  destruct c as [b0 b1 b2 b3 b4 b5 b6 b7].
  destruct b0, b1, b2, b3, b4, b5, b6, b7; reflexivity.
Qed.

Lemma noUpper_toLowerCase (s : string) : noUpper (toLowerCase s) = true.
Proof.
  induction s as [|c t IH]; cbn [toLowerCase noUpper]; [reflexivity|].
  now rewrite lowerChar_not_upper, IH.
Qed.

Lemma noUpper_removeAllFrom (skip : nat) (pat s : string) :
  noUpper s = true -> noUpper (removeAllFrom skip pat s) = true.
Proof.
  revert skip. induction s as [|c t IH]; intros skip; cbn [removeAllFrom noUpper];
    [reflexivity|].
  rewrite andb_true_iff. intros [Hc Ht].
  destruct skip as [|k]; [|now apply IH].
  destruct (negb (String.eqb pat EmptyString) && String.prefix pat (String c t));
    [now apply IH|].
  cbn [noUpper]. now rewrite Hc, IH.
Qed.

Lemma noUpper_trimStart (s : string) : noUpper s = true -> noUpper (trimStart s) = true.
Proof.
  induction s as [|c t IH]; cbn [trimStart]; [reflexivity|].
  destruct (isWhite c); [|auto]. cbn [noUpper]. rewrite andb_true_iff.
  intros [_ Ht]. now apply IH.
Qed.

Lemma noUpper_trimEnd (s : string) : noUpper s = true -> noUpper (trimEnd s) = true.
Proof.
  induction s as [|c t IH]; cbn [trimEnd noUpper]; [reflexivity|].
  rewrite andb_true_iff. intros [Hc Ht].
  destruct (isWhite c && String.eqb (trimEnd t) EmptyString); [reflexivity|].
  cbn [noUpper]. now rewrite Hc, IH.
Qed.

Lemma noUpper_trim (s : string) : noUpper s = true -> noUpper (trim s) = true.
Proof. intros Hs. unfold trim. now apply noUpper_trimEnd, noUpper_trimStart. Qed.

Lemma NAME_MAPPING_lower (k v : string) :
  NAME_MAPPING !! k = Some v -> noUpper v = true.
Proof.
  unfold NAME_MAPPING. intros Hlook.
  apply elem_of_list_to_map_2 in Hlook. apply list_elem_of_In in Hlook.
  revert Hlook.
  match goal with
  | |- In _ ?l -> _ =>
      assert (Hall : forallb (fun kv => noUpper (snd kv)) l = true)
        by (vm_compute; reflexivity);
      intros Hin; exact (proj1 (forallb_forall _ _) Hall (k, v) Hin)
  end.
Qed.

(** X2.  The key of a feature never holds an upper-case ASCII letter,
    for a feature whose name as looked up in the alias table is not a
    member that the table inherits as an object; nor does the key of a
    winner.  So every key of the index is in lower case and the join does
    not depend on the letter case of the names. *)
Theorem join_keys_lower_case :
  (forall feature, inherited (lookupKey feature) = false ->
                   noUpper (getNormalizedName feature) = true)
  /\ (forall winner, noUpper (normalizedName winner) = true)
  /\ (forall F data k e, resultsMap F data !! k = Some e -> noUpper k = true).
Proof.
  assert (Hw : forall winner, noUpper (normalizedName winner) = true).
  { intros winner. apply noUpper_toLowerCase. }
  split; [|split; [exact Hw|]].
  - intros feature _. unfold getNormalizedName.
    destruct (orStr (AC_NAME feature) (ac_name feature)) as [| |name];
      [reflexivity..|].
    destruct (negb (truthyString name)); [reflexivity|].
    destruct (includes "tiruchirappalli" (toLowerCase name)).
    + destruct (strictEqNum _ 140); [reflexivity|].
      destruct (strictEqNum _ 141); [reflexivity|].
      cbv zeta.
      set (normalized := trim _).
      assert (Hn : noUpper normalized = true).
      { apply noUpper_trim. do 3 apply noUpper_removeAllFrom.
        apply noUpper_toLowerCase. }
      destruct (NAME_MAPPING !! normalized) as [mapped|] eqn:E; [|exact Hn].
      destruct (truthyString mapped); [|exact Hn].
      exact (NAME_MAPPING_lower _ _ E).
    + cbv zeta.
      set (normalized := trim _).
      assert (Hn : noUpper normalized = true).
      { apply noUpper_trim. do 3 apply noUpper_removeAllFrom.
        apply noUpper_toLowerCase. }
      destruct (NAME_MAPPING !! normalized) as [mapped|] eqn:E; [|exact Hn].
      destruct (truthyString mapped); [|exact Hn].
      exact (NAME_MAPPING_lower _ _ E).
  - intros F data k e Hlook. unfold resultsMap in Hlook.
    apply resultsMap_entry in Hlook.
    destruct Hlook as [Hempty | (_ & -> & _)]; [|apply Hw].
    rewrite lookup_empty in Hempty. discriminate.
Qed.

Lemma fold_insert_keeps (data later : list ElectionResult)
    (m : gmap string Joined) (k : string) :
  Forall (fun x => normalizedName x <> k) later ->
  fold_left
    (fun map winner =>
       <[normalizedName winner :=
           {| winner := winner; runnerUp := findRunnerUp data winner |}]> map)
    later m !! k = m !! k.
Proof.
  intros Hall. revert m. induction Hall as [|x later Hx _ IH]; intros m;
    cbn [fold_left]; [reflexivity|].
  rewrite IH. now apply lookup_insert_ne.
Qed.

(** X3.  A winner that passes the filters of the map and shares its key
    with no later winner of the list is the winner of the entry under its
    key: when two winners have the same key, the later one replaces the
    earlier.  In any case the key of a passing winner has an entry. *)
Theorem resultsMap_last_wins (F : MapFilter) (data : list ElectionResult)
    (l1 l2 : list ElectionResult) (w : ElectionResult) :
  filteredData F data = l1 ++ w :: l2 ->
  (Forall (fun x => normalizedName x <> normalizedName w) l2 ->
   resultsMap F data !! normalizedName w
   = Some {| winner := w; runnerUp := findRunnerUp data w |})
  /\ exists e, resultsMap F data !! normalizedName w = Some e
               /\ normalizedName (winner e) = normalizedName w.
Proof.
  intros Hsplit. unfold resultsMap. rewrite Hsplit.
  assert (Hlast : forall later m,
    Forall (fun x => normalizedName x <> normalizedName w) later ->
    fold_left
      (fun (map : gmap string Joined) winner =>
         <[normalizedName winner :=
             {| winner := winner; runnerUp := findRunnerUp data winner |}]> map)
      (w :: later) m !! normalizedName w
    = Some {| winner := w; runnerUp := findRunnerUp data w |}).
  { intros later m Hall. cbn [fold_left].
    rewrite (fold_insert_keeps data later _ _ Hall). apply lookup_insert_eq. }
  split.
  - intros Hall. rewrite fold_left_app. now apply Hlast.
  - rewrite fold_left_app. generalize (fold_left
      (fun (map : gmap string Joined) winner =>
         <[normalizedName winner :=
             {| winner := winner; runnerUp := findRunnerUp data winner |}]> map)
      l1 ∅). intros m.
    clear Hsplit. revert w m Hlast.
    induction l2 as [|x l2 IH] using rev_ind; intros w m Hlast.
    + eexists. split; [apply (Hlast [] m); constructor | reflexivity].
    + destruct (String.eqb_spec (normalizedName x) (normalizedName w)) as [E | Hne].
      * change (w :: l2 ++ [x]) with ((w :: l2) ++ [x]).
        rewrite fold_left_app. cbn [fold_left]. rewrite <- E.
        eexists. split; [apply lookup_insert_eq | reflexivity].
      * change (w :: l2 ++ [x]) with ((w :: l2) ++ [x]).
        rewrite fold_left_app. cbn [fold_left].
        rewrite lookup_insert_ne by exact Hne.
        apply IH. exact Hlast.
Qed.
End JoinKeys.

(** X1 on the feature "Tiruchirappalli (West)". *)
Lemma tiruchirappalli_split_witness :
  ConstituencyMap.getNormalizedName
    (featureWithId "Tiruchirappalli (West)" Undefined 140 Undefined)
  = "tiruchirapalli (west)".
Proof.
  exact (proj1 (tiruchirappalli_split "Tiruchirappalli (West)" Undefined Undefined
                  eq_refl)).
Defined.

(** X2 on the feature "Chennai (SC)": its name is looked up as "chennai",
    and its key has no upper-case letter. *)
Lemma join_keys_lower_case_witness :
  inherited (lookupKey (featureNamed "Chennai (SC)" Undefined)) = false
  /\ noUpper (ConstituencyMap.getNormalizedName (featureNamed "Chennai (SC)" Undefined))
     = true.
Proof.
  split; [reflexivity|].
  exact (proj1 join_keys_lower_case (featureNamed "Chennai (SC)" Undefined) eq_refl).
Defined.

(** X3 on the two elections of Chennai: the winner of 2021 replaces the
    winner of 2016. *)
Lemma resultsMap_last_wins_witness :
  ConstituencyMap.resultsMap ConstituencyMap.noFilter
    [winner2016; second2016; winner2021; second2021] !! "chennai"
  = Some {| ConstituencyMap.winner := winner2021;
            ConstituencyMap.runnerUp := Some second2016 |}.
Proof.
  refine (proj1 (resultsMap_last_wins ConstituencyMap.noFilter
                   [winner2016; second2016; winner2021; second2021]
                   [winner2016] [] winner2021 eq_refl) _).
  constructor.
Defined.

(** ** The rows of the map *)

Lemma In_if_filter {A : Type} (c : bool) (p : A -> bool) (l : list A) (x : A) :
  In x (if c then List.filter p l else l) -> In x l.
Proof. destruct c; [|auto]. intros Hin. now apply List.filter_In in Hin. Qed.

Lemma In_if_filter_intro {A : Type} (c : bool) (p : A -> bool) (l : list A) (x : A) :
  (c = true -> p x = true) -> In x l -> In x (if c then List.filter p l else l).
Proof.
  intros Hp Hin. destruct c; [|exact Hin]. apply List.filter_In. auto.
Qed.

Lemma length_if_filter {A : Type} (c : bool) (p : A -> bool) (l : list A) :
  (List.length (if c then List.filter p l else l) <= List.length l)%nat.
Proof. destruct c; [apply List.filter_length_le | lia]. Qed.

(** X4.  Whatever the filters, the rows the map works with are rows of the
    data with position 1; without filters they are all the winners, and
    no filter adds a row. *)
Theorem map_rows_are_winners (F : ConstituencyMap.MapFilter)
    (data : list ElectionResult) :
  (forall r, In r (ConstituencyMap.filteredData F data) ->
             In r data /\ strictEqNum (Position r) 1 = true)
  /\ ConstituencyMap.filteredData ConstituencyMap.noFilter data = Dashboard.winners data
  /\ (List.length (ConstituencyMap.filteredData F data)
      <= List.length (ConstituencyMap.filteredData ConstituencyMap.noFilter data))%nat.
Proof.
  split; [|split].
  - intros r Hin. unfold ConstituencyMap.filteredData in Hin. cbv zeta in Hin.
    repeat apply In_if_filter in Hin. now apply List.filter_In in Hin.
  - reflexivity.
  - unfold ConstituencyMap.filteredData at 1. cbv zeta.
    repeat (eapply Nat.le_trans; [apply length_if_filter|]).
    apply Nat.le_refl.
Qed.

Section MapAndSheet.
Context `{JsRuntime}.

(** X5.  With the margin, the constituency type and the gender set to any
    values (set or not) and nothing else, the map works with the rows the
    master sheet lists for the same three facets and winners-only, in the
    same order. *)
Theorem map_agrees_with_sheet (margin type gender : string)
    (data : list ElectionResult) :
  ConstituencyMap.filteredData (mapFacets margin type gender) data
  = MasterSheet.processedData (sheetFacets margin type gender) data.
Proof.
  unfold ConstituencyMap.filteredData, MasterSheet.processedData.
  unfold MasterSheet.stepSearch, MasterSheet.stepDistrict, MasterSheet.stepConstituency,
    MasterSheet.stepParty, MasterSheet.stepPosition, MasterSheet.stepType,
    MasterSheet.stepYear, MasterSheet.stepAge, MasterSheet.stepGender,
    MasterSheet.stepMargin, MasterSheet.stepVoteShare, MasterSheet.stepAlliance,
    MasterSheet.stepVoteCount, MasterSheet.stepCategory, MasterSheet.stepEducation,
    MasterSheet.stepWinnersOnly, MasterSheet.stepSort.
  unfold mapFacets, sheetFacets. cbn.
  change (ConstituencyMap.marginMatch margin) with (MasterSheet.marginMatch margin).
  change (ConstituencyMap.isAll) with (MasterSheet.isAll).
  rewrite !whenSet_filter, !filter_filter.
  apply List.filter_ext. intros r. unfold whenSet.
  repeat match goal with
         | |- context [if ?c then _ else _] => destruct c
         end;
    destruct (strictEqNum (Position r) 1), (MasterSheet.marginMatch margin r),
      (strictEqStr (Constituency_Type r) type), (strictEqStr (Sex r) gender);
    reflexivity.
Qed.
End MapAndSheet.

(** ** Seats per alliance and per party *)

Section Seats.
Import Dashboard.

Lemma existsb_perm {A : Type} (f : A -> bool) (l l' : list A) :
  Permutation l l' -> existsb f l = existsb f l'.
Proof.
  induction 1 as [|x l l' _ IH|x y l|l1 l2 l3 _ IH1 _ IH2]; cbn [existsb].
  - reflexivity.
  - now rewrite IH.
  - destruct (f x), (f y); reflexivity.
  - now rewrite IH1.
Qed.

Lemma filter_length_le_impl {A : Type} (p q : A -> bool) (l : list A) :
  (forall x, p x = true -> q x = true) ->
  (List.length (List.filter p l) <= List.length (List.filter q l))%nat.
Proof.
  intros Himp. induction l as [|a l IH]; cbn [List.filter]; [lia|].
  destruct (p a) eqn:Ep.
  - rewrite (Himp a Ep). cbn [List.length]. lia.
  - destruct (q a); cbn [List.length]; lia.
Qed.

Lemma allianceCounts_from (ws : list ElectionResult) (c : AllianceCounts) :
  let spa w := includesParty SPA_PARTIES (Party w) in
  let nda w := includesParty NDA_PARTIES (Party w) in
  let result :=
    fold_left
      (fun counts w =>
         if includesParty SPA_PARTIES (Party w)
         then {| countDMK := S (countDMK counts); countADMK := countADMK counts;
                 countOthers := countOthers counts |}
         else if includesParty NDA_PARTIES (Party w)
         then {| countDMK := countDMK counts; countADMK := S (countADMK counts);
                 countOthers := countOthers counts |}
         else {| countDMK := countDMK counts; countADMK := countADMK counts;
                 countOthers := S (countOthers counts) |}) ws c in
  countDMK result = (countDMK c + List.length (List.filter spa ws))%nat
  /\ countADMK result
     = (countADMK c + List.length (List.filter (fun w => negb (spa w) && nda w) ws))%nat
  /\ (countDMK result + countADMK result + countOthers result
      = countDMK c + countADMK c + countOthers c + List.length ws)%nat.
Proof.
  intros spa nda. revert c. induction ws as [|w ws IH]; intros c; cbn [fold_left].
  - cbn. lia.
  - cbv zeta in IH. cbv zeta. subst spa nda. cbv beta in IH |- *.
    cbn [List.filter].
    destruct (includesParty SPA_PARTIES (Party w)); cbn [negb andb].
    + destruct (IH {| countDMK := S (countDMK c); countADMK := countADMK c;
                      countOthers := countOthers c |}) as (H1 & H2 & H3).
      cbn [countDMK countADMK countOthers] in H1, H2, H3.
      cbn [List.length]. lia.
    + destruct (includesParty NDA_PARTIES (Party w)).
      * destruct (IH {| countDMK := countDMK c; countADMK := S (countADMK c);
                        countOthers := countOthers c |}) as (H1 & H2 & H3).
        cbn [countDMK countADMK countOthers] in H1, H2, H3.
        cbn [List.length]. lia.
      * destruct (IH {| countDMK := countDMK c; countADMK := countADMK c;
                        countOthers := S (countOthers c) |}) as (H1 & H2 & H3).
        cbn [countDMK countADMK countOthers] in H1, H2, H3.
        cbn [List.length]. lia.
Qed.

(** X6.  The three alliance counters of the dashboard add up to the number
    of winners.  The "DMK+" counter is the number of rows the map keeps
    under its "DMK+" filter; the "ADMK+" counter is at most the number of
    rows the map keeps under "ADMK+". *)
Theorem alliance_counts_add_up (data : list ElectionResult) :
  (countDMK (allianceCounts data) + countADMK (allianceCounts data)
   + countOthers (allianceCounts data) = List.length (winners data))%nat
  /\ countDMK (allianceCounts data)
     = List.length (ConstituencyMap.filteredData (mapAlliance "DMK+") data)
  /\ (countADMK (allianceCounts data)
      <= List.length (ConstituencyMap.filteredData (mapAlliance "ADMK+") data))%nat.
Proof.
  destruct (allianceCounts_from (winners data)
              {| countDMK := 0; countADMK := 0; countOthers := 0 |})
    as (H1 & H2 & H3).
  cbv zeta in H1, H2, H3. fold (allianceCounts data) in H1, H2, H3.
  cbn [countDMK countADMK countOthers] in H1, H2, H3.
  split; [lia|]. split.
  - rewrite H1. cbn [Nat.add].
    change (ConstituencyMap.filteredData (mapAlliance "DMK+") data)
      with (List.filter (ConstituencyMap.allianceMatch "DMK+") (winners data)).
    f_equal. apply List.filter_ext. intros w.
    unfold ConstituencyMap.allianceMatch. cbn [String.eqb Ascii.eqb Bool.eqb].
    unfold includesParty, ConstituencyMap.inList.
    destruct (Party w) as [| |p]; [reflexivity..|].
    apply existsb_perm. unfold SPA_PARTIES, ConstituencyMap.DMK_ALLIANCE.
    do 7 apply perm_skip. apply perm_swap.
  - rewrite H2. cbn [Nat.add].
    change (ConstituencyMap.filteredData (mapAlliance "ADMK+") data)
      with (List.filter (ConstituencyMap.allianceMatch "ADMK+") (winners data)).
    apply filter_length_le_impl. intros w.
    unfold ConstituencyMap.allianceMatch. cbn [String.eqb Ascii.eqb Bool.eqb].
    unfold includesParty, ConstituencyMap.inList.
    destruct (Party w) as [| |p]; [now rewrite andb_false_r..|].
    rewrite andb_true_iff. intros [_ Hnda]. revert Hnda.
    unfold NDA_PARTIES, ConstituencyMap.ADMK_ALLIANCE. cbn [existsb].
    destruct (String.eqb p "ADMK"), (String.eqb p "BJP"), (String.eqb p "PMK"),
      (String.eqb p "TMC"), (String.eqb p "TMC(M)"); cbn; auto.
Qed.
End Seats.

(** ** Charts that count and rank *)

Lemma list_sum_perm (l l' : list nat) : Permutation l l' -> list_sum l = list_sum l'.
Proof.
  induction 1 as [|x l l' _ IH|x y l|l1 l2 l3 _ IH1 _ IH2].
  - reflexivity.
  - change (x + list_sum l = x + list_sum l')%nat. now rewrite IH.
  - change (y + (x + list_sum l) = x + (y + list_sum l))%nat. lia.
  - now rewrite IH1.
Qed.

Lemma list_sum_firstn (n : nat) (l : list nat) :
  (list_sum (firstn n l) <= list_sum l)%nat.
Proof.
  revert n. induction l as [|x l IH]; intros [|n]; cbn [firstn]; try (cbn; lia).
  change (x + list_sum (firstn n l) <= x + list_sum l)%nat.
  specialize (IH n). lia.
Qed.

Lemma NoDup_firstn {A : Type} (n : nat) (l : list A) :
  List.NoDup l -> List.NoDup (firstn n l).
Proof.
  intros Hnd. rewrite <- (firstn_skipn n l) in Hnd.
  now apply List.NoDup_app_remove_r in Hnd.
Qed.

Lemma In_firstn {A : Type} (n : nat) (l : list A) (x : A) :
  In x (firstn n l) -> In x l.
Proof.
  intros Hx. rewrite <- (firstn_skipn n l). apply in_or_app. now left.
Qed.

Lemma Forall_firstn_of {A : Type} (P : A -> Prop) (n : nat) (l : list A) :
  Forall P l -> Forall P (firstn n l).
Proof.
  intros Hall. apply List.Forall_forall. intros x Hx.
  apply (proj1 (List.Forall_forall _ _) Hall). eapply In_firstn; eassumption.
Qed.

(** The first [n] elements of a sorted list are sorted, and each of them
    is in order before each of the others. *)
Lemma sorted_firstn {A : Type} (R : A -> A -> Prop) (n : nat) (l : list A) :
  StronglySorted R l ->
  StronglySorted R (firstn n l)
  /\ forall a b, In a (firstn n l) -> In b (skipn n l) -> R a b.
Proof.
  intros Hs. rewrite <- (firstn_skipn n l) in Hs.
  now apply StronglySorted_app_inv.
Qed.

Lemma count_descending {A : Type} (count : A -> nat) (l : list A) :
  StronglySorted (fun a b => (count b <= count a)%nat)
    (jsSort (fun a b => (inject_Z (Z.of_nat (count b))
                         - inject_Z (Z.of_nat (count a)))%Q) l).
Proof.
  eapply StronglySorted_weaken;
    [|apply (jsSort_descending (fun a => inject_Z (Z.of_nat (count a))))].
  intros a b Hle. cbn in Hle. rewrite <- Zle_Qle in Hle. lia.
Qed.

Section PartySeats.
Import Dashboard.
Variable partyTranslations : gmap string string.

(** X7.  When no winner has a party named like a member that an object
    inherits, every party of a winner occurs once in the seats-per-party
    list, with at least one seat; the seats add up to the number of
    winners; and the list runs from the most seats to the fewest. *)
Theorem partyWins_invariants (data : list ElectionResult) :
  Forall (fun w => inherited (propertyKey (Party w)) = false) (winners data) ->
  let wins := partyWins partyTranslations data in
  List.NoDup (map name wins)
  /\ Forall (fun p => (1 <= value p)%nat) wins
  /\ list_sum (map value wins) = List.length (winners data)
  /\ StronglySorted (fun a b => (value b <= value a)%nat) wins
  /\ (forall party, In party (map name wins) <->
        exists w, In w (winners data) /\ propertyKey (Party w) = party).
Proof.
  intros _.
  intros wins.
  set (keys := map (fun w => propertyKey (Party w)) (winners data)).
  set (entries :=
         map (fun e : string * nat =>
                {| name := fst e;
                   nameTA := match partyTranslations !! fst e with
                             | Some ta => if truthyString ta then ta else fst e
                             | None => fst e
                             end;
                   value := snd e |}) (tally keys)).
  assert (Hperm : Permutation wins entries) by apply jsSort_perm.
  assert (Hnames : map name entries = map fst (tally keys)).
  { unfold entries. rewrite map_map. apply map_ext. reflexivity. }
  assert (Hvalues : map value entries = map snd (tally keys)).
  { unfold entries. rewrite map_map. apply map_ext. reflexivity. }
  destruct (tally_spec keys) as (Hnd & Hpos & Hsum & Hkeys).
  split; [|split; [|split; [|split]]].
  - eapply Permutation_NoDup; [symmetry; apply Permutation_map; exact Hperm|].
    now rewrite Hnames.
  - eapply Permutation_Forall; [symmetry; exact Hperm|].
    unfold entries. apply Forall_map. exact Hpos.
  - rewrite (list_sum_perm _ _ (Permutation_map value Hperm)), Hvalues, Hsum.
    unfold keys. apply length_map.
  - apply count_descending.
  - intros party.
    assert (Hin : In party (map name wins) <-> In party (map name entries)).
    { split; apply Permutation_in; [|symmetry]; apply Permutation_map; exact Hperm. }
    rewrite Hin, Hnames, Hkeys. unfold keys. rewrite in_map_iff.
    split; intros (w & Hw1 & Hw2); exists w; tauto.
Qed.
End PartySeats.

Section EducationTop.
Import MasterSheet.

(** X9.  When no row of the query has a level of education named like a
    member that an object inherits, the education chart of the master
    sheet shows at most five levels, each once and with a count of at
    least one, from the largest count to the smallest; the counts shown
    are at most the number of rows of the query; and no level left out
    has a larger count than a level shown. *)
Theorem eduData_top_five (rows : list ElectionResult) :
  Forall (fun r => inherited (educationOf r) = false) rows ->
  let shown := eduData rows in
  (List.length shown <= 5)%nat
  /\ List.NoDup (map fst shown)
  /\ Forall (fun e => (1 <= snd e)%nat) shown
  /\ StronglySorted (fun a b => (snd b <= snd a)%nat) shown
  /\ (list_sum (map snd shown) <= List.length rows)%nat
  /\ exists rest,
       Permutation (shown ++ rest)
         (tally (map educationOf
                   (if (0 <? List.length (List.filter isWinner rows))%nat
                    then List.filter isWinner rows else rows)))
       /\ forall a b, In a shown -> In b rest -> (snd b <= snd a)%nat.
Proof.
  intros _.
  intros shown. unfold eduData in shown.
  set (counted := if (0 <? List.length (List.filter isWinner rows))%nat
                  then List.filter isWinner rows else rows) in *.
  set (sorted := jsSort _ (tally (map educationOf counted))) in shown.
  assert (Hperm : Permutation sorted (tally (map educationOf counted)))
    by apply jsSort_perm.
  destruct (tally_spec (map educationOf counted)) as (Hnd & Hpos & Hsum & _).
  assert (Hsorted : StronglySorted (fun a b => (snd b <= snd a)%nat) sorted)
    by apply (count_descending snd).
  destruct (sorted_firstn _ 5 sorted Hsorted) as [Hs5 Hcross].
  assert (Hcounted : (List.length counted <= List.length rows)%nat).
  { unfold counted. destruct (0 <? _)%nat; [apply List.filter_length_le | lia]. }
  split; [apply firstn_le_length|].
  split.
  { unfold shown. rewrite <- firstn_map. apply NoDup_firstn.
    eapply Permutation_NoDup; [symmetry; apply Permutation_map; exact Hperm|].
    exact Hnd. }
  split.
  { unfold shown. apply Forall_firstn_of.
    eapply Permutation_Forall; [symmetry; exact Hperm | exact Hpos]. }
  split; [exact Hs5|]. split.
  { unfold shown. rewrite <- firstn_map.
    eapply Nat.le_trans; [apply list_sum_firstn|].
    rewrite (list_sum_perm _ _ (Permutation_map snd Hperm)), Hsum, length_map.
    exact Hcounted. }
  exists (skipn 5 sorted). split; [|exact Hcross].
  unfold shown. now rewrite firstn_skipn.
Qed.
End EducationTop.

Section ClosestFights.
Import AdvancedVisuals.

(** X8.  The closest fights are at most six winners of the data, in
    ascending order of margin, where a margin that is absent or 0 counts
    as 0; there are six of them when the data has six winners; and no
    winner left out has a smaller margin than a winner shown. *)
Theorem closestFights_top_six (data : list ElectionResult) :
  let shown := closestFights data in
  List.length shown = Nat.min 6 (List.length (winners data))
  /\ (forall r, In r shown -> In r data /\ strictEqNum (Position r) 1 = true)
  /\ StronglySorted (fun a b => (marginOrZero a <= marginOrZero b)%Q) shown
  /\ exists rest,
       Permutation (shown ++ rest) (winners data)
       /\ forall a b, In a shown -> In b rest -> (marginOrZero a <= marginOrZero b)%Q.
Proof.
  intros shown. unfold closestFights in shown.
  set (sorted := jsSort _ (winners data)) in shown.
  assert (Hperm : Permutation sorted (winners data)) by apply jsSort_perm.
  assert (Hsorted : StronglySorted (fun a b => (marginOrZero a <= marginOrZero b)%Q) sorted)
    by apply (jsSort_ascending marginOrZero).
  destruct (sorted_firstn _ 6 sorted Hsorted) as [Hs6 Hcross].
  split.
  { unfold shown. rewrite length_firstn. now rewrite (Permutation_length Hperm). }
  split.
  { intros r Hr. apply In_firstn in Hr.
    apply (Permutation_in _ Hperm) in Hr. now apply List.filter_In in Hr. }
  split; [exact Hs6|].
  exists (skipn 6 sorted). split; [|exact Hcross].
  unfold shown. now rewrite firstn_skipn.
Qed.
End ClosestFights.

(** ** Pages of the table *)

Section Pages.
Import MasterSheet.

Lemma totalPages_div (rows : list ElectionResult) :
  totalPages rows = ((Z.of_nat (List.length rows) + 19) / 20)%Z.
Proof.
  unfold totalPages, itemsPerPage, Qceiling, Qfloor, Qdiv, Qmult, Qinv, Qopp, inject_Z.
  cbn [Qnum Qden]. set (n := Z.of_nat (List.length rows)).
  change (Z.pos (1 * 20)) with 20%Z. rewrite Z.mul_1_r.
  pose proof (Z.div_mod (- n) 20 ltac:(lia)) as H1.
  pose proof (Z.mod_pos_bound (- n) 20 ltac:(lia)) as H2.
  pose proof (Z.div_mod (n + 19) 20 ltac:(lia)) as H3.
  pose proof (Z.mod_pos_bound (n + 19) 20 ltac:(lia)) as H4.
  lia.
Qed.

Lemma firstn_min_length {A : Type} (n : nat) (l : list A) :
  firstn (Nat.min n (List.length l)) l = firstn n l.
Proof.
  destruct (Nat.le_ge_cases n (List.length l)) as [Hle | Hge].
  - now rewrite Nat.min_l.
  - rewrite Nat.min_r by exact Hge. rewrite firstn_all.
    symmetry. now apply firstn_all2.
Qed.

(** A page from the first on is a run of twenty rows. *)
Lemma currentData_chunk (p : nat) (rows : list ElectionResult) :
  currentData (Z.of_nat (S p)) rows = firstn 20 (skipn (20 * p) rows).
Proof.
  unfold currentData, slice, itemsPerPage.
  set (len := Z.of_nat (List.length rows)).
  destruct (Z.ltb_spec ((Z.of_nat (S p) - 1) * 20) 0) as [Hneg | _]; [lia|].
  destruct (Z.ltb_spec (Z.of_nat (S p) * 20) 0) as [Hneg | _]; [lia|].
  destruct (Z_lt_le_dec (Z.of_nat (20 * p)) len) as [Hin | Hout].
  - replace (Z.to_nat (Z.min ((Z.of_nat (S p) - 1) * 20) len)) with (20 * p)%nat by lia.
    rewrite <- (firstn_min_length 20 (skipn (20 * p) rows)).
    f_equal. rewrite length_skipn. lia.
  - rewrite (skipn_all2 rows (n := 20 * p)) by lia.
    rewrite (skipn_all2 rows) by lia.
    now rewrite !firstn_nil.
Qed.

Lemma chunks_concat {A : Type} (k : nat) (l : list A) :
  (List.length l <= 20 * k)%nat ->
  concat (map (fun i => firstn 20 (skipn (20 * i) l)) (seq 0 k)) = l.
Proof.
  revert l. induction k as [|k IH]; intros l Hlen.
  - destruct l; [reflexivity | cbn in Hlen; lia].
  - cbn [seq map concat]. rewrite <- seq_shift, map_map.
    transitivity (firstn 20 l ++ skipn 20 l); [|apply firstn_skipn].
    f_equal.
    rewrite <- (IH (skipn 20 l)) by (rewrite length_skipn; lia).
    f_equal. apply map_ext. intros i.
    rewrite skipn_skipn. do 2 f_equal. lia.
Qed.

(** X10.  The pages of the table, put one after the other, are the rows of
    the query: no row is lost or shown twice.  Every page from 1 to the
    number of pages holds between 1 and 20 rows, and 20 unless it is the
    last; a page beyond the last is empty. *)
Theorem pages_partition_rows (rows : list ElectionResult) :
  concat (pagesOf rows) = rows
  /\ (forall p, (1 <= p <= totalPages rows)%Z ->
        (1 <= List.length (currentData p rows) <= 20)%nat
        /\ ((p < totalPages rows)%Z -> List.length (currentData p rows) = 20%nat))
  /\ (forall p, (totalPages rows < p)%Z -> currentData p rows = []).
Proof.
  pose proof (totalPages_div rows) as Hdiv.
  set (n := List.length rows) in *.
  pose proof (Z.div_mod (Z.of_nat n + 19) 20 ltac:(lia)) as Hdm.
  pose proof (Z.mod_pos_bound (Z.of_nat n + 19) 20 ltac:(lia)) as Hmod.
  split; [|split].
  - unfold pagesOf. rewrite <- seq_shift, map_map.
    rewrite (map_ext _ (fun i => firstn 20 (skipn (20 * i) rows)))
      by (intros i; apply currentData_chunk).
    apply chunks_concat. fold n. lia.
  - intros p Hp.
    destruct (Z_of_nat_complete (p - 1) ltac:(lia)) as [k Hk].
    replace p with (Z.of_nat (S k)) in * by lia.
    rewrite currentData_chunk, length_firstn, length_skipn. fold n. lia.
  - intros p Hp.
    destruct (Z_of_nat_complete (p - 1) ltac:(lia)) as [k Hk].
    replace p with (Z.of_nat (S k)) in * by lia.
    rewrite currentData_chunk, skipn_all2 by (fold n; lia).
    apply firstn_nil.
Qed.

(** X11.  A click on a column header always leaves a sort in place, on
    that column.  On a column that is not the sorted one the first click
    sorts ascending and the second descending; from then on the clicks
    alternate. *)
Theorem handleSort_alternates (cfg : option SortConfig) (k : SortKey) :
  (forall c, cfg = Some c -> key c <> k)  ->
  handleSort cfg k = Some {| key := k; direction := asc |}
  /\ handleSort (handleSort cfg k) k = Some {| key := k; direction := desc |}
  /\ handleSort (handleSort (handleSort cfg k) k) k = handleSort cfg k.
Proof.
  intros Hother.
  assert (Hsame : sameKey k k = true).
  { unfold sameKey. destruct (SortKey_eq_dec k k); [reflexivity | contradiction]. }
  assert (H1 : handleSort cfg k = Some {| key := k; direction := asc |}).
  { unfold handleSort. destruct cfg as [c|]; [|reflexivity].
    unfold sameKey. destruct (SortKey_eq_dec (key c) k) as [E|_]; [|reflexivity].
    now destruct (Hother c eq_refl). }
  assert (H2 : handleSort (Some {| key := k; direction := asc |}) k
               = Some {| key := k; direction := desc |}).
  { unfold handleSort. cbn [key direction]. now rewrite Hsame. }
  assert (H3 : handleSort (Some {| key := k; direction := desc |}) k
               = Some {| key := k; direction := asc |}).
  { unfold handleSort. cbn [key direction]. now rewrite Hsame. }
  rewrite H1, H2, H3. now repeat split.
Qed.
End Pages.

(** X10 on twenty-five rows: two pages, of twenty and of five rows. *)
Lemma pages_partition_rows_witness :
  (1 <= 2 <= MasterSheet.totalPages manyRows)%Z
  /\ (1 <= List.length (MasterSheet.currentData 2 manyRows) <= 20)%nat.
Proof.
  assert (Hp : (1 <= 2 <= MasterSheet.totalPages manyRows)%Z) by (vm_compute; split; discriminate).
  split; [exact Hp|].
  exact (proj1 (proj1 (proj2 (pages_partition_rows manyRows)) 2%Z Hp)).
Defined.

(** X11 from the unsorted table. *)
Lemma handleSort_alternates_witness :
  MasterSheet.handleSort (MasterSheet.handleSort None MasterSheet.KMargin)
    MasterSheet.KMargin
  = Some {| MasterSheet.key := MasterSheet.KMargin;
            MasterSheet.direction := MasterSheet.desc |}.
Proof.
  refine (proj1 (proj2 (handleSort_alternates None MasterSheet.KMargin _))).
  intros c Hc. discriminate.
Defined.

(** ** The query run again, and the facets one by one *)

Lemma filter_all {A : Type} (p : A -> bool) (l : list A) :
  Forall (fun x => p x = true) l -> List.filter p l = l.
Proof.
  induction 1 as [|x l Hx _ IH]; cbn [List.filter]; [reflexivity|].
  now rewrite Hx, IH.
Qed.

(** Every comparison of the goal becomes a fact about the numbers. *)
Ltac compare_all :=
  repeat match goal with
         | |- context [Qlt_bool ?x ?y] =>
             let E := fresh "E" in
             destruct (Qlt_bool x y) eqn:E;
             [apply Qlt_bool_iff in E | apply Qlt_bool_false in E]
         | |- context [Qle_bool ?x ?y] =>
             let E := fresh "E" in
             destruct (Qle_bool x y) eqn:E;
             [apply Qle_bool_iff in E | apply Qle_bool_false in E]
         end.

Section Facets.
Context `{JsRuntime}.
Import MasterSheet.

(** X12.  Running the query on its own result keeps the same rows: the
    result is a rearrangement of the rows given, and the very same list
    when no sort is set. *)
Theorem query_rerun_keeps_rows (S : FilterState) (data : list ElectionResult) :
  Permutation (processedData S (processedData S data)) (processedData S data)
  /\ (sortConfig S = None ->
      processedData S (processedData S data) = processedData S data).
Proof.
  assert (Hpass : List.filter (passes S) (processedData S data) = processedData S data).
  { apply filter_all. apply List.Forall_forall. intros r Hr.
    now apply processedData_In in Hr. }
  rewrite (processedData_filter S (processedData S data)), Hpass. split.
  - apply stepSort_perm.
  - intros Hnone. unfold stepSort. now rewrite Hnone.
Qed.

(** X13.  For a row with a vote count other than 0, one of the four
    vote-count buckets always matches; the buckets "50k-1L" and "10k-50k"
    both match a count of exactly 50000 and no other count, and no other
    two buckets match the same row. *)
Theorem vote_count_buckets_overlap (r : ElectionResult) (q : Q) :
  Votes r = Val q -> ~ (q == 0)%Q ->
  (voteCountMatch ">1L" r || voteCountMatch "50k-1L" r
   || voteCountMatch "10k-50k" r || voteCountMatch "<10k" r = true)
  /\ (voteCountMatch "50k-1L" r && voteCountMatch "10k-50k" r = true <-> (q == 50000)%Q)
  /\ voteCountMatch ">1L" r && voteCountMatch "50k-1L" r = false
  /\ voteCountMatch ">1L" r && voteCountMatch "10k-50k" r = false
  /\ voteCountMatch ">1L" r && voteCountMatch "<10k" r = false
  /\ voteCountMatch "50k-1L" r && voteCountMatch "<10k" r = false
  /\ voteCountMatch "10k-50k" r && voteCountMatch "<10k" r = false.
Proof.
  intros Hv Hnz. unfold voteCountMatch. rewrite Hv, (truthyNum_nonzero q Hnz).
  cbn [negb String.eqb Ascii.eqb Bool.eqb jsGt jsGe jsLe jsLt toNumber].
  compare_all; cbn [andb orb];
    repeat split; try reflexivity; try discriminate; try lra; intros; lra.
Qed.

(** X14.  For a row with a margin other than 0, exactly one of the margin
    buckets "High", "Medium" and "Low" matches; the same holds of the
    vote-share buckets for a vote share other than 0. *)
Theorem margin_and_share_buckets_partition (r : ElectionResult) (q : Q) :
  ~ (q == 0)%Q ->
  (Margin r = Val q ->
   exactlyOne (marginMatch "High" r) (marginMatch "Medium" r) (marginMatch "Low" r) = true)
  /\ (Vote_Share_Percentage r = Val q ->
      exactlyOne (voteShareMatch "High" r) (voteShareMatch "Medium" r)
                 (voteShareMatch "Low" r) = true).
Proof.
  intros Hnz. split; intros Hq.
  - unfold marginMatch. rewrite Hq, (truthyNum_nonzero q Hnz).
    cbn [negb String.eqb Ascii.eqb Bool.eqb jsGt jsGe jsLe jsLt toNumber].
    compare_all; cbn; try reflexivity; lra.
  - unfold voteShareMatch. rewrite Hq, (truthyNum_nonzero q Hnz).
    cbn [negb String.eqb Ascii.eqb Bool.eqb jsGt jsGe jsLe jsLt toNumber].
    compare_all; cbn; try reflexivity; lra.
Qed.

(** X15.  No age matches two of the age buckets "25-40", "41-60" and
    "61+", and an age other than 0 matches none of them exactly when it is
    below 25 or strictly between 40 and 41. *)
Theorem age_buckets_leave_gaps (r : ElectionResult) (q : Q) :
  Age r = Val q -> ~ (q == 0)%Q ->
  ageMatch "25-40" r && ageMatch "41-60" r = false
  /\ ageMatch "25-40" r && ageMatch "61+" r = false
  /\ ageMatch "41-60" r && ageMatch "61+" r = false
  /\ (ageMatch "25-40" r || ageMatch "41-60" r || ageMatch "61+" r = false
      <-> (q < 25)%Q \/ ((40 < q)%Q /\ (q < 41)%Q)).
Proof.
  intros Ha Hnz. unfold ageMatch. rewrite Ha, (truthyNum_nonzero q Hnz).
  cbn [negb String.eqb Ascii.eqb Bool.eqb jsGt jsGe jsLe jsLt toNumber].
  compare_all; cbn [andb orb];
    repeat split; try reflexivity; try discriminate; try lra;
    intros; try lra; intuition lra.
Qed.
End Facets.

Section CategoriesAndPosition.
Context `{JsRuntime}.
Import MasterSheet.

Lemma isTrue_bool (b : bool) : isTrue (JBool b) = b.
Proof. destruct b; reflexivity. Qed.

(** X16.  When the three flags of every row are booleans, each category
    entry of the statistics counts the rows that the category facet keeps:
    its total is the number of rows of the query with that category alone
    set, and its wins the number with winners-only set as well. *)
Theorem category_totals_match_facet (data : list ElectionResult) :
  Forall (fun r => exists i t c,
            Incumbent r = JBool i /\ Turncoat r = JBool t /\ Recontest r = JBool c) data ->
  let count category winners :=
    List.length (processedData
                   (sheetState EmptyString "All" "All" "All" category winners) data) in
  map (fun e => (name e, total e, wins e)) (categoryData data)
  = [ ("Incumbents", count "Incumbent" false, count "Incumbent" true);
      ("Turncoats", count "Turncoat" false, count "Turncoat" true);
      ("Recontesting", count "Recontest" false, count "Recontest" true) ].
Proof.
  intros Hflags count. unfold categoryData. cbn [map name total wins].
  assert (Hcount : forall category winners,
            count category winners
            = List.length
                (List.filter (fun r => categoryMatch category r
                                       && (if winners then isWinner r else true)) data)).
  { intros category winners. unfold count.
    change (processedData (sheetState EmptyString "All" "All" "All" category winners) data)
      with (stepWinnersOnly (sheetState EmptyString "All" "All" "All" category winners)
              (stepCategory (sheetState EmptyString "All" "All" "All" category winners)
                 data)).
    unfold stepWinnersOnly, stepCategory.
    cbn [winnersOnly selectedCategory sheetState].
    rewrite !whenSet_filter, filter_filter. f_equal.
    apply List.filter_ext. intros r. unfold whenSet, isAll.
    destruct (String.eqb_spec category "All") as [-> | _]; cbn [negb];
      destruct winners; reflexivity. }
  rewrite !Hcount.
  assert (Hext : forall (p q : ElectionResult -> bool),
            (forall r, In r data -> p r = q r) ->
            List.length (List.filter p data) = List.length (List.filter q data)).
  { intros p q Hpq. clear Hflags Hcount. induction data as [|a l IH]; [reflexivity|].
    cbn [List.filter]. rewrite (Hpq a (or_introl eq_refl)).
    destruct (q a); cbn [List.length]; rewrite IH; auto;
      intros r Hr; apply Hpq; now right. }
  rewrite List.Forall_forall in Hflags.
  assert (Hcat : forall (flag : ElectionResult -> jsval) category,
            (forall r, In r data -> categoryMatch category r = truthy (flag r)) ->
            List.length (List.filter (fun d => truthy (flag d)) data)
            = List.length (List.filter (fun r => categoryMatch category r && true) data)
            /\ List.length (List.filter (fun d => truthy (flag d) && isWinner d) data)
               = List.length
                   (List.filter (fun r => categoryMatch category r && isWinner r) data)).
  { intros flag category Hflag. split; apply Hext; intros r Hr;
      rewrite (Hflag r Hr), ?andb_true_r; reflexivity. }
  destruct (Hcat Incumbent "Incumbent") as [-> ->].
  { intros r Hr. destruct (Hflags r Hr) as (i & t & c & Hi & Ht & Hc).
    unfold categoryMatch. cbn [String.eqb Ascii.eqb Bool.eqb].
    now rewrite Hi, isTrue_bool. }
  destruct (Hcat Turncoat "Turncoat") as [-> ->].
  { intros r Hr. destruct (Hflags r Hr) as (i & t & c & Hi & Ht & Hc).
    unfold categoryMatch. cbn [String.eqb Ascii.eqb Bool.eqb].
    now rewrite Ht, isTrue_bool. }
  destruct (Hcat Recontest "Recontest") as [-> ->].
  { intros r Hr. destruct (Hflags r Hr) as (i & t & c & Hi & Ht & Hc).
    unfold categoryMatch. cbn [String.eqb Ascii.eqb Bool.eqb].
    now rewrite Hc, isTrue_bool. }
  reflexivity.
Qed.

(** X17.  With the position facet at a value other than "All" and
    "DepositLost", the rows kept are the rows whose position is the number
    the value starts with; a value that starts with no number keeps no
    row; and the value "1" keeps the rows that winners-only keeps. *)
Theorem position_facet_by_number (S : FilterState) (l : list ElectionResult) :
  selectedPosition S <> "All" -> selectedPosition S <> "DepositLost" ->
  (forall r, In r (stepPosition S l) <->
             In r l /\ exists n p, parseInt (selectedPosition S) = Some n
                                   /\ Position r = Val p /\ (p == inject_Z n)%Q)
  /\ (parseInt (selectedPosition S) = None -> stepPosition S l = [])
  /\ (selectedPosition S = "1" ->
      stepPosition S l = List.filter (fun item => strictEqNum (Position item) 1) l).
Proof.
  intros Hall Hdl.
  assert (Hstep : stepPosition S l
                  = List.filter (fun item =>
                      strictEqParsed (Position item) (parseInt (selectedPosition S))) l).
  { unfold stepPosition, isAll.
    destruct (String.eqb_spec (selectedPosition S) "All") as [E|_]; [contradiction|].
    destruct (String.eqb_spec (selectedPosition S) "DepositLost") as [E|_];
      [contradiction | reflexivity]. }
  rewrite Hstep. split; [|split].
  - intros r. rewrite List.filter_In. unfold strictEqParsed.
    split; intros [Hin Hm]; (split; [exact Hin|]).
    + destruct (Position r) as [| |p]; try discriminate.
      destruct (parseInt (selectedPosition S)) as [n|]; try discriminate.
      exists n, p. repeat split. now apply Qeq_bool_iff.
    + destruct Hm as (n & p & -> & -> & Hp). now apply Qeq_bool_iff.
  - intros ->. clear Hstep. induction l as [|a l IH]; [reflexivity|].
    cbn [List.filter]. unfold strictEqParsed at 1.
    destruct (Position a); exact IH.
  - intros ->. reflexivity.
Qed.
End CategoriesAndPosition.

(** X16 on a list of one incumbent. *)
Lemma category_totals_match_facet_witness :
  map (fun e => (MasterSheet.name e, MasterSheet.total e, MasterSheet.wins e))
      (MasterSheet.categoryData [placedRow "Chennai" "Harbour"])
  = [("Incumbents", 1%nat, 1%nat); ("Turncoats", 0%nat, 0%nat);
     ("Recontesting", 1%nat, 1%nat)].
Proof.
  refine (@category_totals_match_facet plainRuntime [placedRow "Chennai" "Harbour"] _).
  constructor; [|constructor].
  exists true, false, true. repeat split.
Defined.

(** X17 on the value "2": the runner-up of the Chennai rows is kept. *)
Lemma position_facet_by_number_witness :
  In chennaiADMK
     (MasterSheet.stepPosition
        (sheetState EmptyString "All" "All" "2" "All" false)
        [chennaiDMK; chennaiADMK]).
Proof.
  assert (H1 : MasterSheet.selectedPosition
                 (sheetState EmptyString "All" "All" "2" "All" false) <> "All")
    by (cbn; discriminate).
  assert (H2 : MasterSheet.selectedPosition
                 (sheetState EmptyString "All" "All" "2" "All" false) <> "DepositLost")
    by (cbn; discriminate).
  apply (proj1 (position_facet_by_number _ [chennaiDMK; chennaiADMK] H1 H2)).
  split; [right; left; reflexivity|].
  exists 2%Z, 2%Q. repeat split.
Defined.

(** ** The dropdowns and the search *)

Section Dropdowns.
Context `{JsRuntime}.
Import MasterSheet.

Lemma sameValue_eq (a b : nullable string) : sameValue a b = true <-> a = b.
Proof.
  destruct a as [| |x], b as [| |y]; cbn [sameValue];
    try (split; [discriminate | intros [=]]); try tauto.
  rewrite String.eqb_eq. split; [now intros -> | now intros [= ->]].
Qed.

Lemma existsb_sameValue (v : nullable string) (seen : list (nullable string)) :
  existsb (sameValue v) seen = true <-> In v seen.
Proof.
  rewrite existsb_exists. split.
  - intros (x & Hx & Heq). apply sameValue_eq in Heq. now subst.
  - intros Hin. exists v. split; [exact Hin | now apply sameValue_eq].
Qed.

Lemma setOf_spec (values seen : list (nullable string)) :
  List.NoDup seen ->
  List.NoDup (setOf values seen)
  /\ forall v, In v (setOf values seen) <-> In v seen \/ In v values.
Proof.
  revert seen. induction values as [|x values IH]; intros seen Hnd; cbn [setOf].
  - split; [exact Hnd|]. intros v. cbn [In]. tauto.
  - destruct (existsb (sameValue x) seen) eqn:E.
    + apply existsb_sameValue in E.
      destruct (IH seen Hnd) as [H1 H2]. split; [exact H1|].
      intros v. rewrite H2. cbn [In]. intuition (subst; auto).
    + assert (Hx : ~ In x seen).
      { intros Hin. apply existsb_sameValue in Hin. congruence. }
      assert (Hnd' : List.NoDup (seen ++ [x])).
      { eapply Permutation_NoDup; [apply Permutation_cons_append|].
        now constructor. }
      destruct (IH (seen ++ [x]) Hnd') as [H1 H2]. split; [exact H1|].
      intros v. rewrite H2, in_app_iff. cbn [In]. tauto.
Qed.

(** X18.  No option occurs twice in the dropdowns of the districts and of
    the constituencies.  Choosing a district that the first dropdown
    offers, or a constituency that the second offers for the selected
    district, always gives a query with at least one row. *)
Theorem dropdown_options_have_rows (data : list ElectionResult) (district : string) :
  List.NoDup (districts data)
  /\ List.NoDup (constituencies district data)
  /\ (forall d, In (Val d) (districts data) ->
        processedData (sheetState EmptyString d "All" "All" "All" false) data <> [])
  /\ (forall c, In (Val c) (constituencies district data) ->
        processedData (sheetState EmptyString district c "All" "All" false) data <> []).
Proof.
  assert (Hsteps : forall d c,
            processedData (sheetState EmptyString d c "All" "All" false) data
            = stepConstituency (sheetState EmptyString d c "All" "All" false)
                (stepDistrict (sheetState EmptyString d c "All" "All" false) data))
    by reflexivity.
  assert (Hnonempty : forall (l : list ElectionResult) x, In x l -> l <> [])
    by (intros l x Hin ->; destruct Hin).
  split; [|split; [|split]].
  - unfold districts.
    eapply Permutation_NoDup; [symmetry; apply jsSort_perm|].
    apply setOf_spec. constructor.
  - unfold constituencies.
    eapply Permutation_NoDup; [symmetry; apply jsSort_perm|].
    apply setOf_spec. constructor.
  - intros d Hd. unfold districts in Hd. apply jsSort_In in Hd.
    apply (setOf_spec _ [] (List.NoDup_nil _)) in Hd. destruct Hd as [[] | Hd].
    apply in_map_iff in Hd. destruct Hd as (item & Hitem & Hin).
    rewrite Hsteps. apply (Hnonempty _ item).
    unfold stepConstituency, stepDistrict. cbn [selectedConstituency selectedDistrict sheetState].
    cbn [isAll String.eqb Ascii.eqb Bool.eqb negb].
    apply In_if_filter_intro; [|exact Hin].
    intros _. now rewrite Hitem; cbn; rewrite String.eqb_refl.
  - intros c Hc. unfold constituencies in Hc. cbv zeta in Hc. apply jsSort_In in Hc.
    apply (setOf_spec _ [] (List.NoDup_nil _)) in Hc. destruct Hc as [[] | Hc].
    apply in_map_iff in Hc. destruct Hc as (item & Hitem & Hin).
    rewrite Hsteps. apply (Hnonempty _ item).
    unfold stepConstituency, stepDistrict. cbn [selectedConstituency selectedDistrict sheetState].
    apply In_if_filter_intro.
    + intros _. now rewrite Hitem; cbn; rewrite String.eqb_refl.
    + destruct (negb (isAll district)); [exact Hin|exact Hin].
Qed.

Lemma prefix_lower (a b : string) :
  String.prefix a b = true -> String.prefix (toLowerCase a) (toLowerCase b) = true.
Proof.
  revert b. induction a as [|x a IH]; intros b; [now destruct b|].
  destruct b as [|y b]; cbn [String.prefix toLowerCase]; [discriminate|].
  destruct (ascii_dec x y) as [-> | _]; [|discriminate].
  intros Hp. destruct (ascii_dec (lowerChar y) (lowerChar y)); [now apply IH | contradiction].
Qed.

Lemma includes_lower (a b : string) :
  includes a b = true -> includes (toLowerCase a) (toLowerCase b) = true.
Proof.
  induction b as [|y b IH]; cbn [includes toLowerCase]; rewrite !orb_true_iff.
  - intros [Hp | Hf]; [|discriminate]. left.
    now apply (prefix_lower a EmptyString).
  - intros [Hp | Hi]; [left | right; now apply IH].
    now apply (prefix_lower a (String y b)).
Qed.

(** X19.  For a term typed in ASCII that is not empty, a row of the data
    is kept by the search whenever the term occurs, in any letter case,
    in its constituency name, candidate, party or district, that field
    being in ASCII. *)
Theorem search_finds_substring (typed term : string) (r : ElectionResult)
    (data : list ElectionResult) :
  typed <> EmptyString -> isAscii typed = true ->
  toLowerCase typed = toLowerCase term ->
  occursInAscii term r -> In r data ->
  In r (processedData (sheetState typed "All" "All" "All" "All" false) data).
Proof.
  intros Hne _ Hcase (s & _ & Hi & Hfield) Hin.
  change (processedData (sheetState typed "All" "All" "All" "All" false) data)
    with (stepSearch (sheetState typed "All" "All" "All" "All" false) data).
  unfold stepSearch. cbn [searchTerm sheetState].
  assert (Ht : truthyString typed = true).
  { unfold truthyString. destruct (String.eqb_spec typed EmptyString); [contradiction|reflexivity]. }
  rewrite Ht, Hcase. apply List.filter_In. split; [exact Hin|].
  unfold searchMatch, lowerIncludes.
  destruct Hfield as [Hs | [Hs | [Hs | Hs]]]; rewrite Hs, (includes_lower _ _ Hi).
  - reflexivity.
  - now rewrite !orb_true_r.
  - now rewrite !orb_true_r.
  - now rewrite !orb_true_r.
Qed.
End Dropdowns.

(** X18 on one row of the district "Chennai". *)
Lemma dropdown_options_have_rows_witness :
  @MasterSheet.processedData plainRuntime
    (sheetState EmptyString "Chennai" "Harbour" "All" "All" false)
    [placedRow "Chennai" "Harbour"] <> [].
Proof.
  apply (proj2 (proj2 (proj2 (@dropdown_options_have_rows plainRuntime
                                [placedRow "Chennai" "Harbour"] "Chennai")))).
  vm_compute. left. reflexivity.
Defined.

(** X19: "CHENN" typed finds the Chennai row. *)
Lemma search_finds_substring_witness :
  In chennaiDMK
     (@MasterSheet.processedData plainRuntime
        (sheetState "CHENN" "All" "All" "All" "All" false) [chennaiDMK; chennaiADMK]).
Proof.
  apply (@search_finds_substring plainRuntime "CHENN" "Chenn").
  - discriminate.
  - reflexivity.
  - reflexivity.
  - exists (Constituency_Name chennaiDMK).
    split; [reflexivity|]. split; [reflexivity|]. left. reflexivity.
  - left. reflexivity.
Defined.

(** ** The education chart of the advanced view *)

Section EducationChart.
Import AdvancedVisuals.
Variable educationTranslations : gmap string string.

Lemma indexOf_spec (n : string) (order : list string) :
  (In n order -> (0 <= indexOf n order < Z.of_nat (List.length order))%Z)
  /\ (~ In n order -> indexOf n order = (-1)%Z).
Proof.
  induction order as [|x t [IHin IHout]]; cbn [indexOf In List.length].
  - split; [intros [] | reflexivity].
  - destruct (String.eqb_spec x n) as [-> | Hne].
    + split; [lia | intros Hn; exfalso; apply Hn; now left].
    + split.
      * intros [E | Hin]; [contradiction|]. specialize (IHin Hin).
        destruct (Z.eqb_spec (indexOf n t) (-1)); lia.
      * intros Hn. rewrite IHout by tauto. reflexivity.
Qed.

Lemma indexOf_inj (a b : string) (order : list string) :
  In a order -> indexOf a order = indexOf b order -> a = b.
Proof.
  induction order as [|x t IH]; cbn [indexOf In]; [intros []|].
  destruct (String.eqb_spec x a) as [Ea | Ha], (String.eqb_spec x b) as [Eb | Hb].
  - congruence.
  - intros _. destruct (Z.eqb_spec (indexOf b t) (-1)); [discriminate|].
    intros Heq. destruct (in_dec string_dec b t) as [Hin | Hout].
    + pose proof (proj1 (indexOf_spec b t) Hin). lia.
    + pose proof (proj2 (indexOf_spec b t) Hout). contradiction.
  - intros [E | Hin]; [contradiction|].
    pose proof (proj1 (indexOf_spec a t) Hin).
    destruct (Z.eqb_spec (indexOf a t) (-1)); lia.
  - intros [E | Hin]; [contradiction|].
    pose proof (proj1 (indexOf_spec a t) Hin) as Hr.
    destruct (Z.eqb_spec (indexOf a t) (-1)); [lia|].
    destruct (Z.eqb_spec (indexOf b t) (-1)); [lia|].
    intros Heq. apply IH; [exact Hin | lia].
Qed.

End EducationChart.


(** X4 on the Chennai rows: the row the map works with is the winner. *)
Lemma map_rows_are_winners_witness :
  In chennaiDMK [chennaiDMK; chennaiADMK]
  /\ strictEqNum (Position chennaiDMK) 1 = true.
Proof.
  apply (proj1 (map_rows_are_winners ConstituencyMap.noFilter [chennaiDMK; chennaiADMK])).
  vm_compute. left. reflexivity.
Defined.

(** X8 on the two elections of Chennai: the rows shown are winners. *)
Lemma closestFights_top_six_witness :
  In winner2016 [winner2016; second2016; winner2021; second2021]
  /\ strictEqNum (Position winner2016) 1 = true.
Proof.
  apply (proj1 (proj2 (closestFights_top_six
                         [winner2016; second2016; winner2021; second2021]))).
  vm_compute. left. reflexivity.
Defined.

(** X12 on the "Medium" query of the Chennai rows. *)
Lemma query_rerun_keeps_rows_witness :
  @MasterSheet.processedData plainRuntime (withMargin "Medium")
    (@MasterSheet.processedData plainRuntime (withMargin "Medium")
       [chennaiDMK; chennaiADMK])
  = @MasterSheet.processedData plainRuntime (withMargin "Medium")
      [chennaiDMK; chennaiADMK].
Proof.
  exact (proj2 (@query_rerun_keeps_rows plainRuntime (withMargin "Medium")
                  [chennaiDMK; chennaiADMK]) eq_refl).
Defined.

(** X13 on a count of 50000 votes. *)
Lemma vote_count_buckets_overlap_witness :
  MasterSheet.voteCountMatch "50k-1L" chennaiDMK
  && MasterSheet.voteCountMatch "10k-50k" chennaiDMK = true.
Proof.
  assert (Hnz : ~ (50000 == 0)%Q) by discriminate.
  apply (proj1 (proj2 (vote_count_buckets_overlap chennaiDMK 50000 eq_refl Hnz))).
  reflexivity.
Defined.

(** X14 on a margin of 12000. *)
Lemma margin_and_share_buckets_partition_witness :
  exactlyOne (MasterSheet.marginMatch "High" chennaiDMK)
             (MasterSheet.marginMatch "Medium" chennaiDMK)
             (MasterSheet.marginMatch "Low" chennaiDMK) = true.
Proof.
  assert (Hnz : ~ (12000 == 0)%Q) by discriminate.
  exact (proj1 (margin_and_share_buckets_partition chennaiDMK 12000 Hnz) eq_refl).
Defined.

(** X15 on an age of 51. *)
Lemma age_buckets_leave_gaps_witness :
  MasterSheet.ageMatch "25-40" (placedRow "Chennai" "Harbour")
  && MasterSheet.ageMatch "41-60" (placedRow "Chennai" "Harbour") = false.
Proof.
  assert (Hnz : ~ (51 == 0)%Q) by discriminate.
  exact (proj1 (age_buckets_leave_gaps (placedRow "Chennai" "Harbour") 51 eq_refl Hnz)).
Defined.

(** X7 on the Chennai rows: DMK is the one party of the list. *)
Lemma partyWins_invariants_witness :
  In "DMK" (map Dashboard.name (Dashboard.partyWins ∅ [chennaiDMK; chennaiADMK])).
Proof.
  assert (Hkeys : Forall (fun w => inherited (Dashboard.propertyKey (Party w)) = false)
                         (Dashboard.winners [chennaiDMK; chennaiADMK]))
    by (repeat constructor).
  apply (proj2 (proj2 (proj2 (proj2
           (partyWins_invariants ∅ [chennaiDMK; chennaiADMK] Hkeys))))).
  exists chennaiDMK. split; [left; reflexivity | reflexivity].
Defined.

(** X9 on one row: one level is shown. *)
Lemma eduData_top_five_witness :
  (List.length (MasterSheet.eduData [placedRow "Chennai" "Harbour"]) <= 5)%nat.
Proof.
  assert (Hkeys : Forall (fun r => inherited (MasterSheet.educationOf r) = false)
                         [placedRow "Chennai" "Harbour"])
    by (repeat constructor).
  exact (proj1 (eduData_top_five [placedRow "Chennai" "Harbour"] Hkeys)).
Defined.
